(** * EcoScanApp backend: barcode validation, sustainability scoring,
      alternatives ranking and the two product endpoints

    A shallow embedding of [backend/main.py].  Python values are embedded as
    the type [json] (what [response.json()] can produce), a Python [str] as
    a sequence of Unicode code points, exceptions as an error monad, and an
    endpoint as a tree [io] whose nodes are its outbound HTTP requests, so
    that "no outbound call" is a property of the tree. *)

From Stdlib Require Import ZArith NArith List Lia Strings.Byte Floats.SpecFloat DecimalN.
From stdpp Require Import base option list countable gmap.

Open Scope Z_scope.

(** ** Python [str]: a sequence of Unicode code points *)

Record str := Str { codepoints : list N }.

#[global] Instance str_eq_dec : EqDecision str.
Proof. solve_decision. Defined.

#[global] Instance str_countable : Countable str.
Proof. apply (inj_countable' codepoints Str). by intros []. Defined.

(** [bytes.decode('utf-8')] in strict mode: [None] stands for
    [UnicodeDecodeError].  Overlong forms, surrogates and values above
    U+10FFFF are rejected, as CPython does. *)
Definition is_cont (b : N) : bool := ((128 <=? b) && (b <=? 191))%N.

Definition cont_bits (b : N) : N := (b - 128)%N.

Fixpoint utf8_decode (bs : list N) : option (list N) :=
  match bs with
  | [] => Some []
  | b0 :: r0 =>
    if (b0 <? 128)%N then cons b0 <$> utf8_decode r0
    else if ((194 <=? b0) && (b0 <=? 223))%N then
      match r0 with
      | b1 :: r1 =>
        if is_cont b1
        then cons ((b0 - 192) * 64 + cont_bits b1)%N <$> utf8_decode r1
        else None
      | _ => None
      end
    else if ((224 <=? b0) && (b0 <=? 239))%N then
      match r0 with
      | b1 :: b2 :: r2 =>
        let c := ((b0 - 224) * 4096 + cont_bits b1 * 64 + cont_bits b2)%N in
        if is_cont b1 && is_cont b2 && (2048 <=? c)%N
           && negb ((55296 <=? c) && (c <=? 57343))%N
        then cons c <$> utf8_decode r2
        else None
      | _ => None
      end
    else if ((240 <=? b0) && (b0 <=? 244))%N then
      match r0 with
      | b1 :: b2 :: b3 :: r3 =>
        let c := ((b0 - 240) * 262144 + cont_bits b1 * 4096
                  + cont_bits b2 * 64 + cont_bits b3)%N in
        if is_cont b1 && is_cont b2 && is_cont b3
           && (65536 <=? c)%N && (c <=? 1114111)%N
        then cons c <$> utf8_decode r3
        else None
      | _ => None
      end
    else None
  end.

Definition bytes_decode (bs : list Byte.byte) : option str :=
  Str <$> utf8_decode (map Byte.to_N bs).

(** The inverse direction, used to print string literals. *)
Definition utf8_encode_char (c : N) : list N :=
  (if c <? 128 then [c]
   else if c <? 2048 then [192 + c / 64; 128 + c mod 64]
   else if c <? 65536 then [224 + c / 4096; 128 + (c / 64) mod 64; 128 + c mod 64]
   else [240 + c / 262144; 128 + (c / 4096) mod 64;
         128 + (c / 64) mod 64; 128 + c mod 64])%N.

Definition str_encode (s : str) : option (list Byte.byte) :=
  mapM Byte.of_N (concat (map utf8_encode_char (codepoints s))).

Declare Scope py_scope.
Delimit Scope py_scope with py.
Bind Scope py_scope with str.
String Notation str bytes_decode str_encode : py_scope.

(** [len(s)], [s1 + s2], [sub in s], [s.startswith(p)] *)
Definition len (s : str) : Z := Z.of_nat (length (codepoints s)).

Definition str_app (s1 s2 : str) : str := Str (codepoints s1 ++ codepoints s2).
Infix "+++" := str_app (at level 60, right associativity) : py_scope.

Fixpoint prefix_of (p l : list N) : bool :=
  match p, l with
  | [], _ => true
  | _ :: _, [] => false
  | a :: p', b :: l' => (a =? b)%N && prefix_of p' l'
  end.

Fixpoint infix_of (p l : list N) : bool :=
  prefix_of p l || match l with [] => false | _ :: l' => infix_of p l' end.

Definition startswith (s p : str) : bool := prefix_of (codepoints p) (codepoints s).
Definition str_in (sub s : str) : bool := infix_of (codepoints sub) (codepoints s).

(** The Unicode character database CPython is built with is not part of the
    repository.  On the ASCII range the behaviour of [isdigit], [lower] and
    [upper] is fixed and written out below; above U+007F it is read from
    this table. *)
Class UnicodeData := {
  (** Numeric_Type is Digit or Decimal *)
  uc_isdigit : N -> bool;
  (** full lowercase mapping (may yield several code points) *)
  uc_lower : N -> list N;
  (** full uppercase mapping *)
  uc_upper : N -> list N
}.

Section Strings.
Context `{UnicodeData}.

Definition char_isdigit (c : N) : bool :=
  (if c <? 128 then (48 <=? c) && (c <=? 57) else uc_isdigit c)%N.

Definition char_lower (c : N) : list N :=
  (if c <? 128 then (if (65 <=? c) && (c <=? 90) then [c + 32] else [c])
   else uc_lower c)%N.

Definition char_upper (c : N) : list N :=
  (if c <? 128 then (if (97 <=? c) && (c <=? 122) then [c - 32] else [c])
   else uc_upper c)%N.

(** [s.isdigit()]: every character is a digit and there is at least one. *)
Definition isdigit (s : str) : bool :=
  match codepoints s with
  | [] => false
  | cs => forallb char_isdigit cs
  end.

Definition lower (s : str) : str := Str (concat (map char_lower (codepoints s))).
Definition upper (s : str) : str := Str (concat (map char_upper (codepoints s))).
End Strings.

(** [str.strip()] removes the characters for which [str.isspace()] holds. *)
Definition char_isspace (c : N) : bool :=
  (((9 <=? c) && (c <=? 13)) || ((28 <=? c) && (c <=? 32))
   || (c =? 133) || (c =? 160) || (c =? 5760)
   || ((8192 <=? c) && (c <=? 8202))
   || (c =? 8232) || (c =? 8233) || (c =? 8239) || (c =? 8287) || (c =? 12288))%N.

Fixpoint lstrip_cps (l : list N) : list N :=
  match l with
  | c :: l' => if char_isspace c then lstrip_cps l' else l
  | [] => []
  end.

Definition strip (s : str) : str :=
  Str (rev (lstrip_cps (rev (lstrip_cps (codepoints s))))).

(** [s.split(sep)] for a one-character separator; the result is never empty. *)
Fixpoint split_cps (sep : N) (l : list N) : list (list N) :=
  match l with
  | [] => [[]]
  | c :: l' =>
    if (c =? sep)%N then [] :: split_cps sep l'
    else match split_cps sep l' with
         | w :: ws => (c :: w) :: ws
         | [] => [[c]]
         end
  end.

Definition split (s : str) (sep : N) : list str := map Str (split_cps sep (codepoints s)).

(** ** Python values as produced by [response.json()] *)

#[warnings="-register-all"]
Inductive json :=
| JNull
| JBool (b : bool)
| JInt (z : Z)
| JFloat (f : spec_float)
| JStr (s : str)
| JList (l : list json)
| JDict (d : gmap str json).

(** ** Exceptions *)

Inductive exn :=
| TypeError
| AttributeError
| ValueError
| OverflowError
| KeyError
| ValidationError
| HTTPException (status_code : Z) (detail : str).

Inductive result (A : Type) :=
| Ok (a : A)
| Raise (e : exn).
Arguments Ok {A} a.
Arguments Raise {A} e.

#[global] Instance result_ret : MRet result := fun A a => Ok a.

#[global] Instance result_bind : MBind result := fun A B k r =>
  match r with
  | Ok a => k a
  | Raise e => Raise e
  end.

(** ** Truthiness, [or], equality and ordering of numbers *)

(** The exact value of a Python number: [EFin m e] is [m * 2^e]. *)
Inductive extval :=
| ENaN
| ENegInf
| EPosInf
| EFin (m e : Z).

Definition float_val (f : spec_float) : extval :=
  match f with
  | S754_zero _ => EFin 0 0
  | S754_infinity s => if s then ENegInf else EPosInf
  | S754_nan => ENaN
  | S754_finite s m e => EFin (if s then Z.neg m else Z.pos m) e
  end.

Definition num_val (v : json) : option extval :=
  match v with
  | JBool b => Some (EFin (if b then 1 else 0) 0)
  | JInt z => Some (EFin z 0)
  | JFloat f => Some (float_val f)
  | _ => None
  end.

Definition fin_compare (m1 e1 m2 e2 : Z) : comparison :=
  let e := Z.min e1 e2 in
  (m1 * 2 ^ (e1 - e)) ?= (m2 * 2 ^ (e2 - e)).

Definition ext_ltb (a b : extval) : bool :=
  match a, b with
  | ENaN, _ | _, ENaN => false
  | _, ENegInf => false
  | ENegInf, _ => true
  | EPosInf, _ => false
  | _, EPosInf => true
  | EFin m1 e1, EFin m2 e2 =>
    match fin_compare m1 e1 m2 e2 with Lt => true | _ => false end
  end.

Definition ext_eqb (a b : extval) : bool :=
  match a, b with
  | ENegInf, ENegInf | EPosInf, EPosInf => true
  | EFin m1 e1, EFin m2 e2 =>
    match fin_compare m1 e1 m2 e2 with Eq => true | _ => false end
  | _, _ => false
  end.

(** [bool(v)] *)
Definition truthy (v : json) : bool :=
  match v with
  | JNull => false
  | JBool b => b
  | JInt z => negb (z =? 0)
  | JFloat f => negb (ext_eqb (float_val f) (EFin 0 0))
  | JStr s => negb (bool_decide (codepoints s = []))
  | JList l => negb (bool_decide (l = []))
  | JDict d => negb (bool_decide (d = ∅))
  end.

(** [a or b] *)
Definition py_or (a b : json) : json := if truthy a then a else b.

(** [v == z] for an int literal [z] *)
Definition eq_int (v : json) (z : Z) : bool :=
  match num_val v with
  | Some x => ext_eqb x (EFin z 0)
  | None => false
  end.

(** [v == s] for a str literal [s] *)
Definition eq_str (v : json) (s : str) : bool :=
  match v with
  | JStr s' => bool_decide (s' = s)
  | _ => false
  end.

(** [v in [s1, s2, ...]] for a list of str literals *)
Definition in_strs (v : json) (l : list str) : bool := existsb (eq_str v) l.

(** [n in [z1, z2, ...]] for an int [n] *)
Definition in_ints (n : Z) (l : list Z) : bool := existsb (Z.eqb n) l.

(** [v > f] for a float [f]; anything but a number raises [TypeError]. *)
Definition gt_float (v : json) (f : spec_float) : result bool :=
  match num_val v with
  | Some x => Ok (ext_ltb (float_val f) x)
  | None => Raise TypeError
  end.

(** [d.get(k)] and [d.get(k, default)] on a value that should be a dict *)
Definition get (v : json) (k : str) (dflt : json) : result json :=
  match v with
  | JDict d => Ok (default dflt (d !! k))
  | _ => Raise AttributeError
  end.

(** [d[k]] *)
Definition getitem (v : json) (k : str) : result json :=
  match v with
  | JDict d =>
    match d !! k with
    | Some x => Ok x
    | None => Raise KeyError
    end
  | _ => Raise TypeError
  end.

(** [v[:n]]: lists and strs can be sliced; a dict raises [TypeError]
    ([KeyError] from Python 3.12 on, where slices are hashable). *)
Definition slice_to (n : nat) (v : json) : result json :=
  match v with
  | JList l => Ok (JList (take n l))
  | JStr s => Ok (JStr (Str (take n (codepoints s))))
  | _ => Raise TypeError
  end.

(** ** Formatting with [:.2f] *)

Definition digit_cp (d : N) : N := (48 + d)%N.

Fixpoint uint_cps (u : Decimal.uint) : list N :=
  match u with
  | Decimal.Nil => []
  | Decimal.D0 u => digit_cp 0 :: uint_cps u
  | Decimal.D1 u => digit_cp 1 :: uint_cps u
  | Decimal.D2 u => digit_cp 2 :: uint_cps u
  | Decimal.D3 u => digit_cp 3 :: uint_cps u
  | Decimal.D4 u => digit_cp 4 :: uint_cps u
  | Decimal.D5 u => digit_cp 5 :: uint_cps u
  | Decimal.D6 u => digit_cp 6 :: uint_cps u
  | Decimal.D7 u => digit_cp 7 :: uint_cps u
  | Decimal.D8 u => digit_cp 8 :: uint_cps u
  | Decimal.D9 u => digit_cp 9 :: uint_cps u
  end.

Definition decimal (n : Z) : list N := uint_cps (N.to_uint (Z.to_N n)).

(** [round(n / d)] to the nearest integer, ties to even, for [0 <= n], [0 < d] *)
Definition div_half_even (n d : Z) : Z :=
  let q := n / d in
  let r := n mod d in
  if (d <? 2 * r) || ((d =? 2 * r) && Z.odd q) then q + 1 else q.

(** Hundredths of [m * 2^e], correctly rounded *)
Definition hundredths (m : positive) (e : Z) : Z :=
  if 0 <=? e then Z.pos m * 2 ^ e * 100
  else div_half_even (Z.pos m * 100) (2 ^ (- e)).

Definition sign_cps (s : bool) : list N := if s then [45%N] else [].

Definition float_format_2f (f : spec_float) : str :=
  match f with
  | S754_nan => "nan"%py
  | S754_infinity s => Str (sign_cps s ++ codepoints "inf"%py)
  | S754_zero s => Str (sign_cps s ++ codepoints "0.00"%py)
  | S754_finite s m e =>
    let h := hundredths m e in
    Str (sign_cps s ++ decimal (h / 100) ++ [46%N]
         ++ [digit_cp (Z.to_N (h mod 100 / 10)); digit_cp (Z.to_N (h mod 10))])
  end.

(** [float(z)] for an int: rounded to 53 significant bits, ties to even;
    [OverflowError] from 2^1024 on.  The mantissa is not normalised: every
    use of a float above goes through its exact value. *)
Definition round_53 (a : Z) : Z :=
  let n := Z.log2 a + 1 in
  if n <=? 53 then a
  else let sh := n - 53 in div_half_even a (2 ^ sh) * 2 ^ sh.

Definition float_of_int (z : Z) : result spec_float :=
  if z =? 0 then Ok (S754_zero false)
  else
    let a := round_53 (Z.abs z) in
    if 2 ^ 1024 <=? a then Raise OverflowError
    else Ok (S754_finite (z <? 0) (Z.to_pos a) 0).

(** [f"{v:.2f}"] *)
Definition format_2f (v : json) : result str :=
  match v with
  | JFloat f => Ok (float_format_2f f)
  | JInt z => f ← float_of_int z; Ok (float_format_2f f)
  | JBool b => Ok (float_format_2f (if b then S754_finite false 1 0 else S754_zero false))
  | JStr _ => Raise ValueError
  | _ => Raise TypeError
  end.

(** ** Interaction with the network

    An endpoint is a tree whose internal nodes are the outbound GET
    requests ([client.get(...)] followed by [response.json()]); the reply
    [None] stands for any exception raised by that pair of calls (network
    failure, timeout, a body that is not JSON).  Timeouts are not modelled
    beyond that. *)

Record request := {
  url : str;
  params : list (str * json);
  headers : list (str * str)
}.

Inductive io (A : Type) :=
| Ret (a : A)
| HttpGet (rq : request) (k : option json -> io A).
Arguments Ret {A} a.
Arguments HttpGet {A} rq k.

Fixpoint io_bind {A B} (m : io A) (k : A -> io B) : io B :=
  match m with
  | Ret a => k a
  | HttpGet rq c => HttpGet rq (fun reply => io_bind (c reply) k)
  end.

(** Sequencing of code that may both call out and raise *)
Definition try_bind {A B} (m : io (result A)) (k : A -> io (result B)) : io (result B) :=
  io_bind m (fun r => match r with Ok a => k a | Raise e => Ret (Raise e) end).

Notation "x ⇐ m ; k" := (try_bind m (fun x => k))
  (at level 20, m at level 100, k at level 200, only parsing).

Definition pure {A} (r : result A) : io (result A) := Ret r.

(** Running a tree against the replies the network gives, in order; the
    second component is the log of the requests sent. *)
Fixpoint run {A} (m : io A) (replies : list (option json)) : option (A * list request) :=
  match m with
  | Ret a => Some (a, [])
  | HttpGet rq k =>
    match replies with
    | [] => None
    | reply :: rest =>
      match run (k reply) rest with
      | Some (a, log) => Some (a, rq :: log)
      | None => None
      end
    end
  end.

(** ** Response models

    A record holds the fields of a model, with the declared defaults for
    those left out ([None] is [JNull]).  The constructor of a pydantic
    model validates its arguments ([model_validate] below); the arguments
    of [Recommendation] are always strs, and so are [status], [source],
    [message] and the unit of [ProductResponse], which come from literals
    of the code. *)

Record Recommendation := {
  icon : str;
  text : str;
  priority : str
}.

Record ProductResponse := {
  status : str;
  gtin : json;
  name : json;
  brand : json;
  image_url : json;
  category : json;
  ingredients_text : json;
  nutri_score : json;
  eco_score : json;
  carbon_footprint : json;
  carbon_footprint_unit : json;
  is_high_carbon : bool;
  recommendations : list Recommendation;
  alternatives : list (gmap str json);
  source : json;
  message : json
}.

(** An [Optional[str]] field takes [None] or a str (pydantic 2 does not
    convert numbers to str). *)
Definition validate_str (v : json) : result json :=
  match v with
  | JNull | JStr _ => Ok v
  | _ => Raise ValidationError
  end.

(** An [Optional[float]] field takes [None] or a float, and converts an
    int or a bool to float; an int too large for a float is refused.  No
    str, list or dict reaches this field in the code below (comparing it
    with the threshold has raised [TypeError] before). *)
Definition validate_float (v : json) : result json :=
  match v with
  | JNull => Ok JNull
  | JFloat f => Ok (JFloat f)
  | JInt z =>
    match float_of_int z with
    | Ok f => Ok (JFloat f)
    | Raise _ => Raise ValidationError
    end
  | JBool b => Ok (JFloat (if b then S754_finite false 1 0 else S754_zero false))
  | _ => Raise ValidationError
  end.

(** [ProductResponse(...)]: the instance built from the arguments [args],
    or [ValidationError] (one exception for all the fields refused). *)
Definition model_validate (args : ProductResponse) : result ProductResponse :=
  gtin' ← validate_str (gtin args);
  name' ← validate_str (name args);
  brand' ← validate_str (brand args);
  image_url' ← validate_str (image_url args);
  category' ← validate_str (category args);
  ingredients_text' ← validate_str (ingredients_text args);
  nutri_score' ← validate_str (nutri_score args);
  eco_score' ← validate_str (eco_score args);
  carbon_footprint' ← validate_float (carbon_footprint args);
  carbon_footprint_unit' ← validate_str (carbon_footprint_unit args);
  source' ← validate_str (source args);
  message' ← validate_str (message args);
  Ok {| status := status args;
        gtin := gtin';
        name := name';
        brand := brand';
        image_url := image_url';
        category := category';
        ingredients_text := ingredients_text';
        nutri_score := nutri_score';
        eco_score := eco_score';
        carbon_footprint := carbon_footprint';
        carbon_footprint_unit := carbon_footprint_unit';
        is_high_carbon := is_high_carbon args;
        recommendations := recommendations args;
        alternatives := alternatives args;
        source := source';
        message := message' |}.

(** ** The backend *)

Definition OFF_BASE_URL : str := "https://world.openfoodfacts.org/api/v2/product/".

(** 2.0 *)
Definition CARBON_THRESHOLD : spec_float := S754_finite false 4503599627370496 (-51).

Section Backend.
Context `{UnicodeData}.

(** [os.environ.get("USER_AGENT", ...)], read once at start-up *)
Variable USER_AGENT : str.

(** [Image.open] followed by pyzbar's [decode]: the payloads ([.data]) of
    the symbols detected in the image, or [None] when either call raises. *)
Variable read_barcodes : list Byte.byte -> option (list (list Byte.byte)).

Definition extract_gtin_from_image (image_data : list Byte.byte) : option str :=
  match read_barcodes image_data with
  | None => None
  | Some [] => None
  | Some (data :: _) =>
    match bytes_decode data with
    | None => None
    | Some gtin =>
      if isdigit gtin && in_ints (len gtin) [8; 12; 13; 14] then Some gtin
      else None
    end
  end.

(** [v.lower()] and [v.upper()] on a value that should be a str *)
Definition method_lower (v : json) : result str :=
  match v with
  | JStr s => Ok (lower s)
  | _ => Raise AttributeError
  end.

Definition method_upper (v : json) : result str :=
  match v with
  | JStr s => Ok (upper s)
  | _ => Raise AttributeError
  end.

Definition scores : gmap str Z :=
  {[ "a"%py := 95; "b"%py := 80; "c"%py := 65; "d"%py := 45; "e"%py := 20 ]}.

Definition get_eco_score_value (eco_score : json) : result Z :=
  key ← (if truthy eco_score then method_lower eco_score else Ok ""%py);
  Ok (default 50 (scores !! key)).

(** [for p in v]: the elements a loop over [v] visits; for a dict these are
    its keys (Python visits them in insertion order, which the map does not
    record: the callers only test the keys, which are all strs, for a hit) *)
Definition iter (v : json) : result (list json) :=
  match v with
  | JList l => Ok l
  | JStr s => Ok (map (fun c => JStr (Str [c])) (codepoints s))
  | JDict d => Ok (map (fun kv => JStr kv.1) (map_to_list d))
  | _ => Raise TypeError
  end.

(** [any('plastic' in p.lower() for p in packaging)]: stops at the first
    hit, so later elements are not looked at. *)
Fixpoint any_plastic (packaging : list json) : result bool :=
  match packaging with
  | [] => Ok false
  | p :: rest =>
    s ← method_lower p;
    if str_in "plastic" s then Ok true else any_plastic rest
  end.

Definition generate_recommendations (product_data carbon_footprint : json)
  : result (list Recommendation) :=
  let recommendations := [] in
  eco_score ← get product_data "ecoscore_grade" (JStr "");
  nutri_score ← get product_data "nutriscore_grade" (JStr "");
  recommendations ←
    (if truthy carbon_footprint then
       above ← gt_float carbon_footprint CARBON_THRESHOLD;
       if above : bool then
         figure ← format_2f carbon_footprint;
         Ok (recommendations ++ [{|
           icon := "🌍";
           text := "High carbon footprint (" +++ figure
                   +++ " kg CO2e). Consider eco-friendly alternatives below.";
           priority := "high" |}])
       else Ok recommendations
     else Ok recommendations);
  let recommendations :=
    if in_strs eco_score ["d"; "e"]%py then
      recommendations ++ [{|
        icon := "🌱";
        text := "Low environmental score - look for products with better eco ratings";
        priority := "high" |}]
    else if in_strs eco_score ["a"; "b"]%py then
      recommendations ++ [{|
        icon := "✅";
        text := "Good environmental score! This product has lower environmental impact";
        priority := "low" |}]
    else recommendations in
  recommendations ←
    (if in_strs nutri_score ["d"; "e"]%py then
       grade ← method_upper nutri_score;
       Ok (recommendations ++ [{|
         icon := "❤️";
         text := "Nutrition score is " +++ grade +++ " - consider healthier options";
         priority := "medium" |}])
     else Ok recommendations);
  packaging ← get product_data "packaging_tags" (JList []);
  tags ← iter packaging;
  plastic ← any_plastic tags;
  let recommendations :=
    if plastic : bool then
      recommendations ++ [{|
        icon := "♻️";
        text := "Contains plastic packaging - recycle properly or choose alternatives with less plastic";
        priority := "medium" |}]
    else recommendations in
  let recommendations :=
    match recommendations with
    | [] =>
      recommendations ++ [{|
        icon := "✅";
        text := "This product has acceptable sustainability metrics";
        priority := "low" |}]
    | _ => recommendations
    end in
  Ok recommendations.

(** [category.split(',')[0].strip()] *)
Definition first_tag (category : json) : result str :=
  match category with
  | JStr s => Ok (strip (hd ""%py (split s 44)))
  | _ => Raise AttributeError
  end.

Definition search_request (tag : str) : request :=
  {| url := "https://world.openfoodfacts.org/cgi/search.pl";
     params := [("action", JStr "process"); ("tagtype_0", JStr "categories");
                ("tag_contains_0", JStr "contains"); ("tag_0", JStr tag);
                ("sort_by", JStr "ecoscore_score"); ("page_size", JInt 5);
                ("json", JInt 1)]%py;
     headers := [("User-Agent", USER_AGENT)]%py |}.

(** The body of the [for] loop over the search results *)
Fixpoint collect_alternatives (products : list json) (current_score : Z)
    (alternatives : list (gmap str json)) : result (list (gmap str json)) :=
  match products with
  | [] => Ok alternatives
  | product :: rest =>
    alt_eco ← get product "ecoscore_grade" (JStr "");
    alt_score ← get_eco_score_value alt_eco;
    if current_score <? alt_score then
      alt_name ← get product "product_name" (JStr "Unknown");
      alt_brand ← get product "brands" (JStr "Unknown");
      alt_image ← get product "image_front_small_url" JNull;
      alt_code ← get product "code" JNull;
      collect_alternatives rest current_score
        (alternatives ++ [ {[ "name"%py := alt_name; "brand"%py := alt_brand;
                              "eco_score"%py := alt_eco; "image_url"%py := alt_image;
                              "gtin"%py := alt_code ]} ])
    else collect_alternatives rest current_score alternatives
  end.

(** What [fetch_alternatives] does with the parsed search reply *)
Definition rank_alternatives (data current_eco_score : json)
  : result (list (gmap str json)) :=
  let alternatives := [] in
  current_score ← get_eco_score_value current_eco_score;
  found ← get data "products" (JList []);
  first ← slice_to 5 found;
  products ← iter first;
  alternatives ← collect_alternatives products current_score alternatives;
  Ok (take 3 alternatives).

(** Every exception raised inside the [try] block yields the empty list. *)
Definition fetch_alternatives (category current_eco_score : json)
  : io (list (gmap str json)) :=
  if negb (truthy category) then Ret []
  else
    match first_tag category with
    | Raise _ => Ret []
    | Ok tag =>
      HttpGet (search_request tag) (fun reply =>
        match reply with
        | None => Ret []
        | Some data =>
          match rank_alternatives data current_eco_score with
          | Ok alternatives => Ret alternatives
          | Raise _ => Ret []
          end
        end)
    end.

Definition lookup_request (gtin : str) : request :=
  {| url := OFF_BASE_URL +++ gtin;
     params := [];
     headers := [("User-Agent", USER_AGENT)]%py |}.

(** The primary fetch: any exception becomes a 500. *)
Definition fetch_product (gtin : str) : io (result json) :=
  HttpGet (lookup_request gtin) (fun reply =>
    match reply with
    | Some data => Ret (Ok data)
    | None => Ret (Raise (HTTPException 500 "Failed to fetch product data"))
    end).

(** The arguments of [ProductResponse(status=..., gtin=..., message=...)] *)
Definition short_response (st : str) (g msg : json) : ProductResponse :=
  {| status := st; gtin := g; name := JNull; brand := JNull;
     image_url := JNull; category := JNull; ingredients_text := JNull;
     nutri_score := JNull; eco_score := JNull; carbon_footprint := JNull;
     carbon_footprint_unit := JNull; is_high_carbon := false;
     recommendations := []; alternatives := []; source := JNull;
     message := msg |}.

(** [not data.get('product') or data.get('status') == 0] *)
Definition product_missing (data : json) : result bool :=
  product ← get data "product" JNull;
  if negb (truthy product) then Ok true
  else
    st ← get data "status" JNull;
    Ok (eq_int st 0).

Definition is_none (v : json) : bool :=
  match v with
  | JNull => true
  | _ => false
  end.

Definition scan_product (image_data : list Byte.byte) : io (result ProductResponse) :=
  if bool_decide (image_data = []) then
    Ret (Raise (HTTPException 400 "Empty image file"))
  else
    match extract_gtin_from_image image_data with
    | None =>
      pure (model_validate (short_response "not_found" JNull
        (JStr "No barcode detected. Please ensure the barcode is clearly visible.")))
    | Some gtin =>
      if negb (truthy (JStr gtin)) then
        pure (model_validate (short_response "not_found" JNull
          (JStr "No barcode detected. Please ensure the barcode is clearly visible.")))
      else
      data ⇐ fetch_product gtin;
      missing ⇐ pure (product_missing data);
      if missing : bool then
        pure (model_validate (short_response "not_found" (JStr gtin)
          (JStr ("Product with barcode " +++ gtin +++ " not found in database."))))
      else
      product ⇐ pure (getitem data "product");
      ecoscore_data ⇐ pure (get product "ecoscore_data" (JDict ∅));
      carbon ⇐ pure
        (if truthy ecoscore_data then
           agribalyse ← get ecoscore_data "agribalyse" (JDict ∅);
           co2 ← get agribalyse "co2_total" JNull;
           Ok (co2, JStr "kg CO2e/kg")
         else Ok (JNull, JNull));
      let carbon_footprint := carbon.1 in
      let carbon_unit := carbon.2 in
      is_high_carbon ⇐ pure
        (if negb (is_none carbon_footprint)
         then gt_float carbon_footprint CARBON_THRESHOLD
         else Ok false);
      recommendations ⇐ pure
        (generate_recommendations product (py_or carbon_footprint (JInt 0)));
      alternatives ⇐
        (if is_high_carbon : bool then
           categories ⇐ pure (get product "categories" JNull);
           grade ⇐ pure (get product "ecoscore_grade" (JStr ""));
           io_bind (fetch_alternatives categories grade) (fun l => Ret (Ok l))
         else Ret (Ok []));
      product_name ⇐ pure (get product "product_name" JNull);
      product_name_en ⇐ pure (get product "product_name_en" (JStr "Unknown Product"));
      brands ⇐ pure (get product "brands" (JStr "Unknown Brand"));
      image_front_url ⇐ pure (get product "image_front_url" JNull);
      categories ⇐ pure (get product "categories" JNull);
      ingredients ⇐ pure (get product "ingredients_text_en" JNull);
      nutriscore_grade ⇐ pure (get product "nutriscore_grade" JNull);
      ecoscore_grade ⇐ pure (get product "ecoscore_grade" JNull);
      pure (model_validate {|
        status := "success";
        gtin := JStr gtin;
        name := py_or product_name product_name_en;
        brand := brands;
        image_url := image_front_url;
        category := categories;
        ingredients_text := ingredients;
        nutri_score := nutriscore_grade;
        eco_score := ecoscore_grade;
        carbon_footprint := carbon_footprint;
        carbon_footprint_unit := carbon_unit;
        is_high_carbon := is_high_carbon;
        recommendations := recommendations;
        alternatives := alternatives;
        source := JStr "OpenFoodFacts";
        message := JNull |})
    end.

Definition get_product (gtin : str) : io (result ProductResponse) :=
  if negb (isdigit gtin) || negb (in_ints (len gtin) [8; 12; 13; 14]) then
    Ret (Raise (HTTPException 400 "Invalid barcode format"))
  else
    data ⇐ fetch_product gtin;
    missing ⇐ pure (product_missing data);
    if missing : bool then
      pure (model_validate (short_response "not_found" (JStr gtin)
        (JStr ("Product with barcode " +++ gtin +++ " not found."))))
    else
    product ⇐ pure (getitem data "product");
    ecoscore_data ⇐ pure (get product "ecoscore_data" (JDict ∅));
    carbon_footprint ⇐ pure
      (if truthy ecoscore_data then
         agribalyse ← get ecoscore_data "agribalyse" (JDict ∅);
         get agribalyse "co2_total" JNull
       else Ok JNull);
    is_high_carbon ⇐ pure
      (if negb (is_none carbon_footprint)
       then gt_float carbon_footprint CARBON_THRESHOLD
       else Ok false);
    recommendations ⇐ pure
      (generate_recommendations product (py_or carbon_footprint (JInt 0)));
    alternatives ⇐
      (if is_high_carbon : bool then
         categories ⇐ pure (get product "categories" JNull);
         grade ⇐ pure (get product "ecoscore_grade" (JStr ""));
         io_bind (fetch_alternatives categories grade) (fun l => Ret (Ok l))
       else Ret (Ok []));
    product_name ⇐ pure (get product "product_name" JNull);
    product_name_en ⇐ pure (get product "product_name_en" (JStr "Unknown Product"));
    brands ⇐ pure (get product "brands" (JStr "Unknown Brand"));
    image_front_url ⇐ pure (get product "image_front_url" JNull);
    categories ⇐ pure (get product "categories" JNull);
    ingredients ⇐ pure (get product "ingredients_text_en" JNull);
    nutriscore_grade ⇐ pure (get product "nutriscore_grade" JNull);
    ecoscore_grade ⇐ pure (get product "ecoscore_grade" JNull);
    pure (model_validate {|
      status := "success";
      gtin := JStr gtin;
      name := py_or product_name product_name_en;
      brand := brands;
      image_url := image_front_url;
      category := categories;
      ingredients_text := ingredients;
      nutri_score := nutriscore_grade;
      eco_score := ecoscore_grade;
      carbon_footprint := carbon_footprint;
      carbon_footprint_unit :=
        if truthy carbon_footprint then JStr "kg CO2e/kg" else JNull;
      is_high_carbon := is_high_carbon;
      recommendations := recommendations;
      alternatives := alternatives;
      source := JStr "OpenFoodFacts";
      message := JNull |}).
End Backend.

(** ** Sample environment for the examples

    A table that agrees with Unicode on U+0080..U+00FF (the superscripts
    ¹ ² ³ are digits there); beyond that range it leaves characters
    unchanged and counts none as a digit, which is enough for the examples
    below: they stay within that range. *)
Definition sample_unicode : UnicodeData := {|
  uc_isdigit c := ((c =? 178) || (c =? 179) || (c =? 185))%N;
  uc_lower c :=
    (if (192 <=? c) && (c <=? 222) && negb (c =? 215) then [c + 32] else [c])%N;
  uc_upper c :=
    (if (224 <=? c) && (c <=? 254) && negb (c =? 247) then [c - 32]
     else if c =? 181 then [924]
     else if c =? 223 then [83; 83]
     else if c =? 255 then [376]
     else [c])%N
|}.

Section Samples.
#[local] Existing Instance sample_unicode.

Definition sample_agent : str := "EcoScanApp/1.0 (contact@ecoscan.app)".

(** A reader that finds one symbol whose payload is the image itself. *)
Definition sample_reader (image_data : list Byte.byte) : option (list (list Byte.byte)) :=
  Some [image_data].

Definition sample_image : list Byte.byte :=
  default [] (str_encode "3017620422003").

(** 3.5 and 0.5 *)
Definition float_3_5 : spec_float := S754_finite false 7881299347898368 (-51).
Definition float_0_5 : spec_float := S754_finite false 4503599627370496 (-53).

Definition dict (l : list (str * json)) : json := JDict (list_to_map l).

(** Scenario 3 of the spec: co2_total 3.5, grade "d", plastic wrap *)
Definition sample_product_d : gmap str json :=
  list_to_map
    [("ecoscore_data", dict [("agribalyse", dict [("co2_total", JFloat float_3_5)])]);
     ("ecoscore_grade", JStr "d");
     ("packaging_tags", JList [JStr "Plastic wrap"]);
     ("categories", JStr "Spreads, Sweet spreads")]%py.

(** Scenario 4 of the spec: co2_total 0.5, grade "a" *)
Definition sample_product_a : gmap str json :=
  list_to_map
    [("ecoscore_data", dict [("agribalyse", dict [("co2_total", JFloat float_0_5)])]);
     ("ecoscore_grade", JStr "a")]%py.

Definition sample_candidates : list json :=
  [dict [("product_name", JStr "Alpha"); ("ecoscore_grade", JStr "b"); ("code", JStr "1")];
   dict [("product_name", JStr "Beta"); ("ecoscore_grade", JStr "e")];
   dict [("product_name", JStr "Gamma")];
   dict [("product_name", JStr "Delta"); ("ecoscore_grade", JStr "A")];
   dict [("product_name", JStr "Epsilon"); ("ecoscore_grade", JStr "unknown")];
   dict [("product_name", JStr "Zeta"); ("ecoscore_grade", JStr "a")]]%py.

Definition sample_search_reply : json := dict [("products"%py, JList sample_candidates)].

Definition sample_code : str := "3017620422003".

Definition sample_lookup_reply (st : Z) (product : gmap str json) : json :=
  dict [("status"%py, JInt st); ("product"%py, JDict product)].

Definition sample_replies : list (option json) :=
  [Some (sample_lookup_reply 1 sample_product_d); Some sample_search_reply].

(** The response and the request log of a run, when it ends in a response *)
Definition outcome (o : option (result ProductResponse * list request))
  : ProductResponse * list request :=
  match o with
  | Some (Ok resp, log) => (resp, log)
  | _ => (short_response "" JNull JNull, [])
  end.

Definition sample_success : ProductResponse * list request :=
  outcome (run (get_product sample_agent sample_code) sample_replies).

Definition sample_category : json := JStr "Spreads, Sweet spreads".

Definition sample_alternatives : list (gmap str json) * list request :=
  default ([], [])
    (run (fetch_alternatives sample_agent sample_category (JStr "d"))
         [Some sample_search_reply]).

(** A search result without a grade, and one with grade "a" *)
Definition sample_ungraded : gmap str json :=
  list_to_map [("product_name"%py, JStr "Gamma")].

Definition sample_others : list json :=
  [dict [("product_name", JStr "Zeta"); ("ecoscore_grade", JStr "a")]]%py.

Definition sample_search_data : gmap str json :=
  list_to_map [("products"%py, JList (JDict sample_ungraded :: sample_others))].

(** A product graded with an uppercase letter *)
Definition sample_product_upper : gmap str json :=
  list_to_map [("ecoscore_grade"%py, JStr "D")].

Definition sample_upper_recommendations : list Recommendation :=
  match generate_recommendations (JDict sample_product_upper) (JFloat float_0_5) with
  | Ok recs => recs
  | Raise _ => []
  end.

(** An upstream reply with status 0 *)
Definition sample_unknown_data : gmap str json :=
  list_to_map [("status"%py, JInt 0)].


End Samples.

(** ** The specification's reading of the barcode format and of the rules *)

Section Rules.
Context `{UnicodeData}.

(** The barcode format of the specification: only the digits 0 to 9, and
    8, 12, 13 or 14 of them. *)
Definition decimal_digit (c : N) : Prop := (48 <= c <= 57)%N.

Definition gtin_length (b : str) : Prop :=
  len b = 8 \/ len b = 12 \/ len b = 13 \/ len b = 14.

Definition gtin_format (b : str) : Prop :=
  Forall decimal_digit (codepoints b) /\ gtin_length b.

Definition ascii_only (b : str) : Prop :=
  Forall (fun c => (c < 128)%N) (codepoints b).

(** A code that ends in a superscript two (U+00B2) *)
Definition superscript_code : str := "1234567²".

(** What the code takes for a barcode: [str.isdigit] also counts the digits
    of other scripts and the superscript digits, so that this is wider
    than [gtin_format]. *)
Definition all_digits (b : str) : Prop :=
  Forall (fun c => char_isdigit c = true) (codepoints b).

Definition valid_barcode (b : str) : Prop := all_digits b /\ gtin_length b.

(** The figure is a number and exceeds 2.0 *)
Definition exceeds_threshold (figure : json) : bool :=
  match num_val figure with
  | Some x => ext_ltb (float_val CARBON_THRESHOLD) x
  | None => false
  end.

(** A carbon figure of the declared type: a float, or an int that
    [float()] can convert. *)
Definition is_figure (v : json) : bool :=
  match v with
  | JFloat _ => true
  | JInt z => match float_of_int z with Ok _ => true | Raise _ => false end
  | _ => false
  end.

(** A carbon figure as the endpoints pass it: [None], a bool, a float, or
    an int that [float()] can convert. *)
Definition figure_typed (v : json) : bool :=
  match v with
  | JNull | JBool _ => true
  | _ => is_figure v
  end.

Definition two_decimals (figure : json) : str :=
  match format_2f figure with
  | Ok t => t
  | Raise _ => ""
  end.

(** The number a run of the digits 0 to 9 denotes *)
Fixpoint digits_value (ds : list N) (acc : Z) : option Z :=
  match ds with
  | [] => Some acc
  | d :: ds =>
    if ((48 <=? d) && (d <=? 57))%N
    then digits_value ds (10 * acc + Z.of_N (d - 48))
    else None
  end.

(** [t] shows the number [m * 2^e], negated when [s], to two decimal
    places: a minus sign when [s], then the digits of a whole number, a
    point and two digits, which together denote a number of hundredths
    that is at most half a hundredth away from [m * 2^e]. *)
Definition shows_hundredths (s : bool) (m : positive) (e : Z) (t : str) : Prop :=
  exists (whole : list N) (d1 d2 : N) (w : Z),
    codepoints t = (if s then [45%N] else []) ++ whole ++ [46; 48 + d1; 48 + d2]%N /\
    whole <> [] /\
    digits_value whole 0 = Some w /\
    (d1 < 10)%N /\ (d2 < 10)%N /\
    2 * Z.abs (100 * Z.pos m * 2 ^ Z.max e 0
               - (100 * w + 10 * Z.of_N d1 + Z.of_N d2) * 2 ^ Z.max (- e) 0)
    <= 2 ^ Z.max (- e) 0.

(** [t] shows a float above the threshold to two decimal places *)
Definition shows_float (f : spec_float) (t : str) : Prop :=
  match f with
  | S754_finite false m e => shows_hundredths false m e t
  | S754_infinity false => t = "inf"%py
  | _ => False
  end.

(** [t] shows a carbon figure above the threshold to two decimal places;
    an int of more than 53 bits is shown as the float nearest to it. *)
Definition shows_figure (figure : json) (t : str) : Prop :=
  match figure with
  | JFloat f => shows_float f t
  | JInt z =>
    if z <? 2 ^ 53 then 0 < z /\ shows_hundredths false (Z.to_pos z) 0 t
    else exists f, float_of_int z = Ok f /\ shows_float f t
  | _ => False
  end.

Definition carbon_entry (figure : str) : Recommendation :=
  {| icon := "🌍";
     text := "High carbon footprint (" +++ figure
             +++ " kg CO2e). Consider eco-friendly alternatives below.";
     priority := "high" |}.

Definition low_eco_entry : Recommendation :=
  {| icon := "🌱";
     text := "Low environmental score - look for products with better eco ratings";
     priority := "high" |}.

Definition good_eco_entry : Recommendation :=
  {| icon := "✅";
     text := "Good environmental score! This product has lower environmental impact";
     priority := "low" |}.

Definition nutrition_entry (grade : str) : Recommendation :=
  {| icon := "❤️";
     text := "Nutrition score is " +++ grade +++ " - consider healthier options";
     priority := "medium" |}.

Definition plastic_entry : Recommendation :=
  {| icon := "♻️";
     text := "Contains plastic packaging - recycle properly or choose alternatives with less plastic";
     priority := "medium" |}.

Definition default_entry : Recommendation :=
  {| icon := "✅";
     text := "This product has acceptable sustainability metrics";
     priority := "low" |}.

Definition attribute (product : gmap str json) (key : str) : json :=
  default (JStr "") (product !! key).

Definition uppercased (grade : json) : str :=
  match grade with
  | JStr g => upper g
  | _ => ""
  end.

(** Rule 1: carbon figure present and > 2.0 *)
Definition carbon_rule (figure : json) : option Recommendation :=
  if exceeds_threshold figure then Some (carbon_entry (two_decimals figure))
  else None.

(** Rule 2: eco grade d/e, or a/b *)
Definition eco_rule (product : gmap str json) : option Recommendation :=
  let grade := attribute product "ecoscore_grade" in
  if in_strs grade ["d"; "e"]%py then Some low_eco_entry
  else if in_strs grade ["a"; "b"]%py then Some good_eco_entry
  else None.

(** Rule 3: nutrition grade d/e *)
Definition nutrition_rule (product : gmap str json) : option Recommendation :=
  let grade := attribute product "nutriscore_grade" in
  if in_strs grade ["d"; "e"]%py then Some (nutrition_entry (uppercased grade))
  else None.

(** Rule 4: some packaging tag contains "plastic", whatever its case *)
Definition packaging_tags (product : gmap str json) : list json :=
  match product !! "packaging_tags"%py with
  | Some (JList tags) => tags
  | _ => []
  end.

Definition mentions_plastic (tag : json) : bool :=
  match tag with
  | JStr s => str_in "plastic" (lower s)
  | _ => false
  end.

Definition packaging_rule (product : gmap str json) : option Recommendation :=
  if existsb mentions_plastic (packaging_tags product) then Some plastic_entry
  else None.

(** The entries of the rules that fired, in rule order; the default
    entry when none did. *)
Definition assemble (fired : list (option Recommendation)) : list Recommendation :=
  match omap id fired with
  | [] => [default_entry]
  | entries => entries
  end.

Definition rules_in_order (product : gmap str json) (figure : json)
  : list Recommendation :=
  assemble [carbon_rule figure; eco_rule product; nutrition_rule product;
            packaging_rule product].

(** The packaging tags are absent, or a list of strs. *)
Definition is_str (v : json) : bool :=
  match v with
  | JStr _ => true
  | _ => false
  end.

Definition tags_well_typed (product : gmap str json) : bool :=
  match product !! "packaging_tags"%py with
  | None => true
  | Some (JList tags) => forallb is_str tags
  | Some _ => false
  end.

(** The high-carbon recommendation, as a response shows it *)
Definition is_high_carbon_entry (r : Recommendation) : bool :=
  bool_decide (priority r = "high"%py) && startswith (text r) "High carbon footprint".

(** The figure the nested field [ecoscore_data.agribalyse.co2_total] of a
    product holds, if it is there *)
Definition nested_co2_total (product : json) : option json :=
  match product with
  | JDict p =>
    match p !! "ecoscore_data"%py with
    | Some (JDict e) =>
      match e !! "agribalyse"%py with
      | Some (JDict a) =>
        match a !! "co2_total"%py with
        | Some JNull => None
        | found => found
        end
      | _ => None
      end
    | _ => None
    end
  | _ => None
  end.

(** The results of the alternatives search, as the reply lists them *)
Definition search_results (reply : option json) : list json :=
  match reply with
  | Some (JDict data) =>
    match data !! "products"%py with
    | Some (JList products) => products
    | _ => []
    end
  | _ => []
  end.

(** The entry of the alternatives list made from a search result *)
Definition alternative_of (candidate : json) : gmap str json :=
  match candidate with
  | JDict p =>
    {[ "name"%py := default (JStr "Unknown") (p !! "product_name"%py);
       "brand"%py := default (JStr "Unknown") (p !! "brands"%py);
       "eco_score"%py := default (JStr "") (p !! "ecoscore_grade"%py);
       "image_url"%py := default JNull (p !! "image_front_small_url"%py);
       "gtin"%py := default JNull (p !! "code"%py) ]}
  | _ => ∅
  end.
(** The scorer's packaging test, with the exceptions it may raise *)
Definition plastic_found (product : gmap str json) : result bool :=
  iter (default (JList []) (product !! "packaging_tags"%py)) ≫= any_plastic.

(** What a response says about the upstream reply it was built from:
    either it is a bare not-found response, or it reports on the product
    of the reply, whose figure [co2] it carries as a float. *)
Definition reports_on (data : json) (resp : ProductResponse) : Prop :=
  exists product co2,
    getitem data "product" = Ok product /\
    status resp = "success"%py /\
    co2 = default JNull (nested_co2_total product) /\
    validate_float co2 = Ok (carbon_footprint resp) /\
    is_high_carbon resp = negb (is_none co2) && exceeds_threshold co2 /\
    generate_recommendations product (py_or co2 (JInt 0))
    = Ok (recommendations resp).

Definition bare_not_found (resp : ProductResponse) : Prop :=
  status resp = "not_found"%py /\
  carbon_footprint resp = JNull /\
  is_high_carbon resp = false /\
  recommendations resp = [] /\
  alternatives resp = [].

(** The reply's product field is absent, or its value is falsy: null, an
    empty object, list or str, zero or false *)
Definition product_falsy (data : gmap str json) : Prop :=
  truthy (default JNull (data !! "product"%py)) = false.

(** The reply's status field equals 0 *)
Definition status_is_zero (data : gmap str json) : Prop :=
  exists st, data !! "status"%py = Some st /\ eq_int st 0 = true.

Definition not_found_response (code ending : str) : ProductResponse :=
  short_response "not_found" (JStr code)
    (JStr ("Product with barcode " +++ code +++ " not found" +++ ending)).

(** A candidate scores strictly better than [current_score]. *)
Definition scores_better (current_score : Z) (candidate : json) : Prop :=
  exists grade score,
    alternative_of candidate !! "eco_score"%py = Some grade /\
    get_eco_score_value grade = Ok score /\
    current_score < score.

(** A grade the score table does not know: missing, empty, or a string
    that is none of a-e once lowercased *)
Definition grade_unknown (grade : json) : Prop :=
  truthy grade = false \/ exists s, grade = JStr s /\ scores !! lower s = None.

(** A search result whose grade is absent, null or a str *)
Definition candidate_well_typed (candidate : json) : bool :=
  match candidate with
  | JDict p =>
    match p !! "ecoscore_grade"%py with
    | None | Some JNull | Some (JStr _) => true
    | Some _ => false
    end
  | _ => false
  end.

End Rules.

(** ** The endpoints between the lookup and the search

    What either endpoint works out from the lookup reply before it decides
    whether to search for alternatives, without the network.  The lemmas
    [scan_product_run] and [get_product_run] show that the endpoints
    compute exactly this. *)

Section Assessment.
Context `{UnicodeData}.
Variable USER_AGENT : str.

Inductive assessed :=
| Absent
| Present (product co2 unit : json) (flag : bool) (recs : list Recommendation).

(** [scanning] tells the endpoints apart: scan-by-image sets the unit as
    soon as [ecoscore_data] is truthy, fetch-by-code only when the figure
    itself is. *)
Definition assess (scanning : bool) (data : json) : result assessed :=
  missing ← product_missing data;
  if missing : bool then Ok Absent
  else
    product ← getitem data "product";
    ecoscore_data ← get product "ecoscore_data" (JDict ∅);
    co2 ← (if truthy ecoscore_data then
             agribalyse ← get ecoscore_data "agribalyse" (JDict ∅);
             get agribalyse "co2_total" JNull
           else Ok JNull);
    flag ← (if negb (is_none co2) then gt_float co2 CARBON_THRESHOLD else Ok false);
    recs ← generate_recommendations product (py_or co2 (JInt 0));
    let unit :=
      if truthy (if scanning : bool then ecoscore_data else co2)
      then JStr "kg CO2e/kg" else JNull in
    Ok (Present product co2 unit flag recs).

(** [product.get(key, dflt)] for a product known to be a dict *)
Definition field (product : json) (key : str) (dflt : json) : json :=
  match product with
  | JDict p => default dflt (p !! key)
  | _ => JNull
  end.

(** The arguments of the constructor for a product that was found *)
Definition success_response (code : str) (product co2 unit : json) (flag : bool)
    (recs : list Recommendation) (alts : list (gmap str json)) : ProductResponse :=
  {| status := "success";
     gtin := JStr code;
     name := py_or (field product "product_name" JNull)
                   (field product "product_name_en" (JStr "Unknown Product"));
     brand := field product "brands" (JStr "Unknown Brand");
     image_url := field product "image_front_url" JNull;
     category := field product "categories" JNull;
     ingredients_text := field product "ingredients_text_en" JNull;
     nutri_score := field product "nutriscore_grade" JNull;
     eco_score := field product "ecoscore_grade" JNull;
     carbon_footprint := co2;
     carbon_footprint_unit := unit;
     is_high_carbon := flag;
     recommendations := recs;
     alternatives := alts;
     source := JStr "OpenFoodFacts";
     message := JNull |}.

(** How an endpoint ends once the lookup reply is assessed: the requests
    sent are the lookup and, for a high-carbon product, the search; the
    response is validated last. *)
Definition conclude (code ending : str) (a : result assessed)
    (rest : list (option json)) : option (result ProductResponse * list request) :=
  match a with
  | Raise e => Some (Raise e, [lookup_request USER_AGENT code])
  | Ok Absent =>
    Some (Ok (not_found_response code ending), [lookup_request USER_AGENT code])
  | Ok (Present product co2 unit flag recs) =>
    if flag then
      match run (fetch_alternatives USER_AGENT (field product "categories" JNull)
                   (field product "ecoscore_grade" (JStr ""))) rest with
      | Some (alts, log) =>
        Some (model_validate (success_response code product co2 unit flag recs alts),
              lookup_request USER_AGENT code :: log)
      | None => None
      end
    else
      Some (model_validate (success_response code product co2 unit flag recs []),
            [lookup_request USER_AGENT code])
  end.

(** A response with its alternatives replaced *)
Definition with_alternatives (alts : list (gmap str json)) (resp : ProductResponse)
  : ProductResponse :=
  {| status := status resp; gtin := gtin resp; name := name resp;
     brand := brand resp; image_url := image_url resp; category := category resp;
     ingredients_text := ingredients_text resp; nutri_score := nutri_score resp;
     eco_score := eco_score resp; carbon_footprint := carbon_footprint resp;
     carbon_footprint_unit := carbon_footprint_unit resp;
     is_high_carbon := is_high_carbon resp;
     recommendations := recommendations resp; alternatives := alts;
     source := source resp; message := message resp |}.

(** Two responses that differ at most in the message and the unit *)
Definition same_report (r1 r2 : ProductResponse) : Prop :=
  status r1 = status r2 /\ gtin r1 = gtin r2 /\ name r1 = name r2 /\
  brand r1 = brand r2 /\ image_url r1 = image_url r2 /\ category r1 = category r2 /\
  ingredients_text r1 = ingredients_text r2 /\ nutri_score r1 = nutri_score r2 /\
  eco_score r1 = eco_score r2 /\ carbon_footprint r1 = carbon_footprint r2 /\
  is_high_carbon r1 = is_high_carbon r2 /\
  recommendations r1 = recommendations r2 /\ alternatives r1 = alternatives r2 /\
  source r1 = source r2.

(** Two runs that send the same requests and end alike: both short of
    replies, both with the same exception, or both with a response *)
Inductive agree : option (result ProductResponse * list request) ->
                  option (result ProductResponse * list request) -> Prop :=
| agree_short : agree None None
| agree_raise e log : agree (Some (Raise e, log)) (Some (Raise e, log))
| agree_response r1 r2 log :
    same_report r1 r2 -> agree (Some (Ok r1, log)) (Some (Ok r2, log)).

Definition is_object (v : json) : bool :=
  match v with
  | JDict _ => true
  | _ => false
  end.

(** A value a [for] loop cannot run over *)
Definition not_iterable (v : json) : bool :=
  match v with
  | JNull | JBool _ | JInt _ | JFloat _ => true
  | _ => false
  end.

(** The requests an endpoint that got past its input checks sends for
    [code]: the lookup, then at most one search *)
Definition sends (code : str) (log : list request) : Prop :=
  log = [lookup_request USER_AGENT code]
  \/ exists tag, log = [lookup_request USER_AGENT code; search_request USER_AGENT tag].
End Assessment.

(** ** More sample data *)

Section MoreSamples.
#[local] Existing Instance sample_unicode.


Definition sample_lookup_data : json := sample_lookup_reply 1 sample_product_d.

(** A product with life-cycle data but no figure *)
Definition sample_product_nofigure : gmap str json :=
  list_to_map
    [("product_name", JStr "Plain");
     ("ecoscore_data", dict [("agribalyse", dict [("code", JStr "x")])])]%py.

Definition sample_nofigure_data : json := sample_lookup_reply 1 sample_product_nofigure.

Definition sample_scan_nofigure : ProductResponse * list request :=
  outcome (run (scan_product sample_agent sample_reader sample_image)
               [Some sample_nofigure_data]).

Definition sample_get_nofigure : ProductResponse * list request :=
  outcome (run (get_product sample_agent sample_code) [Some sample_nofigure_data]).

(** A product whose figure is the str "3.5" *)
Definition sample_product_strfigure : json :=
  dict [("ecoscore_data", dict [("agribalyse", dict [("co2_total", JStr "3.5")])])]%py.

Definition sample_strfigure_data : json :=
  dict [("status", JInt 1); ("product", sample_product_strfigure)]%py.

Definition sample_recommendations_d : list Recommendation :=
  match generate_recommendations (JDict sample_product_d) (JFloat float_3_5) with
  | Ok recs => recs
  | Raise _ => []
  end.

Definition sample_product_null_tags : gmap str json :=
  list_to_map [("packaging_tags"%py, JNull)].

Definition sample_product_number_tag : gmap str json :=
  list_to_map [("packaging_tags"%py, JList [JInt 7])].

Definition sample_product_mixed_tags : gmap str json :=
  list_to_map
    [("packaging_tags"%py,
      JList ([JStr "cardboard"] ++ JStr "Plastic film" :: [JInt 7]))].

Definition sample_search_map : gmap str json :=
  list_to_map [("products"%py, JList sample_candidates)].

(** A search reply whose second result is not an object *)
Definition sample_broken_map : gmap str json :=
  list_to_map
    [("products"%py,
      JList [dict [("product_name", JStr "Alpha"); ("ecoscore_grade", JStr "a")]%py;
             JInt 3])].

Definition sample_alternatives_a : list (gmap str json) * list request :=
  default ([], [])
    (run (fetch_alternatives sample_agent sample_category (JStr "a"))
         [Some sample_search_reply]).

(** A product whose figure is the int 3 *)
Definition sample_product_int : gmap str json :=
  list_to_map
    [("product_name", JStr "Whole");
     ("ecoscore_data", dict [("agribalyse", dict [("co2_total", JInt 3)])])]%py.

Definition sample_int_replies : list (option json) :=
  [Some (sample_lookup_reply 1 sample_product_int)].

Definition sample_int_success : ProductResponse * list request :=
  outcome (run (get_product sample_agent sample_code) sample_int_replies).

(** Scenario 3's product with a number for a brand *)
Definition sample_product_badbrand : gmap str json :=
  <["brands"%py := JInt 5]> sample_product_d.

Definition sample_badbrand_replies : list (option json) :=
  [Some (sample_lookup_reply 1 sample_product_badbrand); Some sample_search_reply].

Definition sample_badbrand_log : list request :=
  [lookup_request sample_agent sample_code; search_request sample_agent "Spreads"].

(** A reply whose product is a list, not an object *)
Definition sample_list_product : json := JList [JInt 1].

Definition sample_list_product_data : json :=
  dict [("status", JInt 1); ("product", sample_list_product)]%py.

(** An image whose only symbol reads "1234567²" *)
Definition sample_superscript_image : list Byte.byte :=
  default [] (str_encode superscript_code).
End MoreSamples.

(** ** Properties *)

Section Properties.
Context `{UnicodeData}.
Variable USER_AGENT : str.
Variable read_barcodes : list Byte.byte -> option (list (list Byte.byte)).

(** *** The error monad *)

Lemma bind_Ok {A B} (r : result A) (k : A -> result B) (b : B) :
  (r ≫= k) = Ok b -> exists a, r = Ok a /\ k a = Ok b.
Proof. destruct r as [a|e]; [exists a; auto | discriminate]. Qed.

(** *** Numbers *)

Lemma pow2_pos (k : Z) : 0 <= k -> 0 < 2 ^ k.
Proof. intros. apply Z.pow_pos_nonneg; lia. Qed.

(** A finite float with a non-zero mantissa is not equal to zero. *)
Lemma finite_nonzero (s : bool) (m : positive) (e : Z) :
  ext_eqb (float_val (S754_finite s m e)) (EFin 0 0) = false.
Proof.
  cbn [float_val ext_eqb]. unfold fin_compare.
  assert (Hp : 0 < 2 ^ (e - Z.min e 0)) by (apply pow2_pos; lia).
  destruct s.
  - assert (Z.neg m * 2 ^ (e - Z.min e 0) < 0) by nia.
    destruct (Z.compare_spec (Z.neg m * 2 ^ (e - Z.min e 0))
                (0 * 2 ^ (0 - Z.min e 0))); auto; lia.
  - assert (0 < Z.pos m * 2 ^ (e - Z.min e 0)) by nia.
    destruct (Z.compare_spec (Z.pos m * 2 ^ (e - Z.min e 0))
                (0 * 2 ^ (0 - Z.min e 0))); auto; lia.
Qed.

(** A number that is falsy (zero, [False]) does not exceed the threshold. *)
Lemma falsy_not_above (v : json) :
  truthy v = false -> exceeds_threshold v = false.
Proof.
  destruct v as [|b|z|f|s|l|d]; try reflexivity.
  - destruct b; [discriminate | reflexivity].
  - cbn. intros Hz. apply negb_false_iff, Z.eqb_eq in Hz. by subst.
  - destruct f as [s|s| |s m e]; try (by destruct s).
    + discriminate.
    + cbn [truthy]. by rewrite finite_nonzero.
Qed.

Lemma gt_float_exceeds (v : json) (b : bool) :
  gt_float v CARBON_THRESHOLD = Ok b -> exceeds_threshold v = b.
Proof.
  unfold gt_float, exceeds_threshold. destruct (num_val v); congruence.
Qed.

(** [float(z)] keeps an int on its side of the threshold. *)
Lemma div_half_even_lower (n d : Z) : 0 <= n -> 0 < d -> n / d <= div_half_even n d.
Proof.
  intros Hn Hd. unfold div_half_even.
  destruct ((d <? 2 * (n mod d)) || ((d =? 2 * (n mod d)) && Z.odd (n / d))); lia.
Qed.

Lemma round_53_above (z : Z) : 0 < z -> 0 < round_53 z /\ (2 < round_53 z <-> 2 < z).
Proof.
  intros Hz. unfold round_53.
  destruct (Z.log2 z + 1 <=? 53) eqn:Hn; [lia|].
  apply Z.leb_gt in Hn.
  set (sh := Z.log2 z + 1 - 53) in *.
  assert (Hsh : 1 <= sh) by lia.
  assert (Hd : 2 <= 2 ^ sh).
  { change 2 with (2 ^ 1) at 1. apply Z.pow_le_mono_r; lia. }
  assert (Hlog : 2 ^ 52 * 2 ^ sh <= z).
  { rewrite <- Z.pow_add_r by lia. replace (52 + sh) with (Z.log2 z) by lia.
    apply Z.log2_spec. lia. }
  assert (Hq : 2 ^ 52 <= z / 2 ^ sh).
  { apply Z.div_le_lower_bound; lia. }
  pose proof (div_half_even_lower z (2 ^ sh)) as Hlow.
  assert (2 ^ 52 <= div_half_even z (2 ^ sh)) by lia.
  assert (2 ^ 52 * 2 <= div_half_even z (2 ^ sh) * 2 ^ sh) by nia.
  assert (0 < 2 ^ 52) by (apply pow2_pos; lia).
  lia.
Qed.

Lemma exceeds_float_of_int (z : Z) (f : spec_float) :
  float_of_int z = Ok f -> exceeds_threshold (JFloat f) = exceeds_threshold (JInt z).
Proof.
  unfold float_of_int. destruct (z =? 0) eqn:Hz.
  - apply Z.eqb_eq in Hz as ->. by intros [= <-].
  - apply Z.eqb_neq in Hz.
    destruct (2 ^ 1024 <=? round_53 (Z.abs z)); [discriminate|]. intros [= <-].
    unfold exceeds_threshold.
    cbn [num_val float_val CARBON_THRESHOLD ext_ltb]. unfold fin_compare.
    change (Z.min (-51) 0) with (-51). change (-51 - -51) with 0. change (0 - -51) with 51.
    destruct (z <? 0) eqn:Hneg.
    + apply Z.ltb_lt in Hneg.
      assert (Hp : 0 < 2 ^ 51) by (apply pow2_pos; lia).
      assert (H1 : Z.neg (Z.to_pos (round_53 (Z.abs z))) * 2 ^ 51 < 0) by nia.
      assert (H2 : z * 2 ^ 51 < 0) by nia.
      assert (H3 : 0 < Z.pos 4503599627370496 * 2 ^ 0) by done.
      destruct (Z.compare_spec (Z.pos 4503599627370496 * 2 ^ 0)
                  (Z.neg (Z.to_pos (round_53 (Z.abs z))) * 2 ^ 51));
        destruct (Z.compare_spec (Z.pos 4503599627370496 * 2 ^ 0) (z * 2 ^ 51));
        try reflexivity; lia.
    + apply Z.ltb_ge in Hneg.
      destruct (round_53_above (Z.abs z)) as [Hpos Hab]; [lia|].
      rewrite Z2Pos.id by done. rewrite Z.abs_eq in * by done.
      change (Z.pos 4503599627370496 * 2 ^ 0) with (2 * 2 ^ 51).
      assert (Hp : 0 < 2 ^ 51) by (apply pow2_pos; lia).
      destruct (Z.compare_spec (2 * 2 ^ 51) (round_53 z * 2 ^ 51));
        destruct (Z.compare_spec (2 * 2 ^ 51) (z * 2 ^ 51));
        try reflexivity; exfalso; nia.
Qed.

(** The threshold is 2: for an int, and for a positive finite float
    [m * 2^e]. *)
Lemma exceeds_threshold_int (z : Z) : exceeds_threshold (JInt z) = true <-> 2 < z.
Proof.
  unfold exceeds_threshold. cbn [num_val float_val CARBON_THRESHOLD ext_ltb].
  unfold fin_compare.
  change (Z.min (-51) 0) with (-51). change (-51 - -51) with 0. change (0 - -51) with 51.
  change (Z.pos 4503599627370496 * 2 ^ 0) with (2 * 2 ^ 51).
  assert (Hp : 0 < 2 ^ 51) by (apply pow2_pos; lia).
  destruct (Z.compare_spec (2 * 2 ^ 51) (z * 2 ^ 51));
    split; intros; try discriminate; try reflexivity; nia.
Qed.

Lemma exceeds_threshold_float (m : positive) (e : Z) :
  exceeds_threshold (JFloat (S754_finite false m e)) = true
  <-> 2 * 2 ^ Z.max (- e) 0 < Z.pos m * 2 ^ Z.max e 0.
Proof.
  unfold exceeds_threshold. cbn [num_val float_val CARBON_THRESHOLD ext_ltb].
  unfold fin_compare.
  set (emin := Z.min (-51) e).
  set (k := 2 ^ (- emin - Z.max (- e) 0)).
  assert (Hk : 0 < k) by (apply pow2_pos; lia).
  assert (HA : Z.pos 4503599627370496 * 2 ^ (-51 - emin)
               = 2 * 2 ^ Z.max (- e) 0 * k).
  { change (Z.pos 4503599627370496) with (2 * 2 ^ 51). unfold k.
    rewrite <- !Z.mul_assoc, <- !Z.pow_add_r by lia. do 2 f_equal. lia. }
  assert (HB : Z.pos m * 2 ^ (e - emin) = Z.pos m * 2 ^ Z.max e 0 * k).
  { unfold k. rewrite <- !Z.mul_assoc, <- !Z.pow_add_r by lia. do 2 f_equal. lia. }
  rewrite HA, HB.
  destruct (Z.compare_spec (2 * 2 ^ Z.max (- e) 0 * k) (Z.pos m * 2 ^ Z.max e 0 * k));
    split; intros; try discriminate; try reflexivity; nia.
Qed.

(** *** Two decimal places *)

Lemma digits_value_cons (d : N) (ds : list N) (acc : Z) :
  (d < 10)%N ->
  digits_value (digit_cp d :: ds) acc = digits_value ds (10 * acc + Z.of_N d).
Proof.
  intros Hd. cbn [digits_value]. unfold digit_cp.
  rewrite (proj2 (N.leb_le 48 (48 + d))), (proj2 (N.leb_le (48 + d) 57)) by lia.
  cbn [andb]. f_equal. lia.
Qed.

Lemma digits_value_acc (u : Decimal.uint) (acc : positive) :
  digits_value (uint_cps u) (Z.pos acc) = Some (Z.pos (Pos.of_uint_acc u acc)).
Proof.
  revert acc.
  induction u as [|u IH|u IH|u IH|u IH|u IH|u IH|u IH|u IH|u IH|u IH]; intros acc;
    cbn [uint_cps Pos.of_uint_acc]; [done|..];
    rewrite digits_value_cons by done; rewrite <- IH; f_equal; lia.
Qed.

Lemma digits_value_of_uint (u : Decimal.uint) :
  digits_value (uint_cps u) 0 = Some (Z.of_N (N.of_uint u)).
Proof.
  unfold N.of_uint.
  induction u as [|u IH|u IH|u IH|u IH|u IH|u IH|u IH|u IH|u IH|u IH];
    cbn [uint_cps Pos.of_uint]; [done|..];
    rewrite digits_value_cons by done; [exact IH|..];
    apply digits_value_acc.
Qed.

(** The digits [decimal] writes denote the number it was given. *)
Lemma decimal_value (n : Z) : 0 <= n -> digits_value (decimal n) 0 = Some n.
Proof.
  intros Hn. unfold decimal.
  rewrite digits_value_of_uint, DecimalN.Unsigned.of_to. f_equal. lia.
Qed.

Lemma decimal_nonempty (n : Z) : decimal n <> [].
Proof.
  unfold decimal. intros Hnil.
  assert (Hu : N.to_uint (Z.to_N n) = Decimal.Nil).
  { by destruct (N.to_uint (Z.to_N n)). }
  pose proof (DecimalN.Unsigned.of_to (Z.to_N n)) as Hof. rewrite Hu in Hof.
  cbn in Hof. rewrite <- Hof in Hu. discriminate.
Qed.

(** Rounding to the nearest integer is at most half a unit off. *)
Lemma div_half_even_near (n d : Z) :
  0 <= n -> 0 < d -> 2 * Z.abs (n - div_half_even n d * d) <= d.
Proof.
  intros Hn Hd. unfold div_half_even.
  pose proof (Z.div_mod n d ltac:(lia)) as Hdiv.
  pose proof (Z.mod_pos_bound n d Hd) as Hmod.
  set (q := n / d) in *. set (r := n mod d) in *.
  destruct ((d <? 2 * r) || ((d =? 2 * r) && Z.odd q)) eqn:Hup.
  - assert (d <= 2 * r).
    { apply orb_true_iff in Hup as [Hlt%Z.ltb_lt|[Heq%Z.eqb_eq _]%andb_true_iff]; lia. }
    replace (n - (q + 1) * d) with (r - d) by lia. lia.
  - apply orb_false_iff in Hup as [Hlt%Z.ltb_ge _].
    replace (n - q * d) with r by lia. lia.
Qed.

Lemma div_half_even_nonneg (n d : Z) : 0 <= n -> 0 < d -> 0 <= div_half_even n d.
Proof.
  intros Hn Hd. pose proof (div_half_even_lower n d Hn Hd).
  pose proof (Z.div_pos n d Hn Hd). lia.
Qed.

Lemma hundredths_nonneg (m : positive) (e : Z) : 0 <= hundredths m e.
Proof.
  unfold hundredths. destruct (0 <=? e) eqn:He.
  - apply Z.leb_le in He. pose proof (pow2_pos e He). nia.
  - apply Z.leb_gt in He. apply div_half_even_nonneg; [lia|]. apply pow2_pos. lia.
Qed.

(** What [:.2f] writes for a finite float shows it to two decimal places. *)
Lemma float_format_shows (s : bool) (m : positive) (e : Z) :
  shows_hundredths s m e (float_format_2f (S754_finite s m e)).
Proof.
  pose proof (hundredths_nonneg m e) as Hh.
  set (h := hundredths m e) in *.
  exists (decimal (h / 100)), (Z.to_N (h mod 100 / 10)), (Z.to_N (h mod 10)), (h / 100).
  pose proof (Z.div_mod h 100 ltac:(lia)) as H100.
  pose proof (Z.mod_pos_bound h 100 ltac:(lia)) as Hm100.
  pose proof (Z.div_mod (h mod 100) 10 ltac:(lia)) as H10.
  pose proof (Z.mod_pos_bound (h mod 100) 10 ltac:(lia)) as Hm10.
  assert (Hmm : (h mod 100) mod 10 = h mod 10).
  { apply Z.mod_mod_divide. by exists 10. }
  assert (0 <= h / 100) by (apply Z.div_pos; lia).
  assert (0 <= h mod 100 / 10 < 10).
  { split; [apply Z.div_pos; lia|]. apply Z.div_lt_upper_bound; lia. }
  split; [reflexivity|]. split; [apply decimal_nonempty|].
  split; [by apply decimal_value|]. split; [lia|]. split; [lia|].
  rewrite !Z2N.id by lia.
  replace (100 * (h / 100) + 10 * (h mod 100 / 10) + h mod 10) with h by lia.
  subst h. unfold hundredths. destruct (0 <=? e) eqn:He.
  - apply Z.leb_le in He. rewrite Z.max_l, Z.max_r by lia.
    replace (100 * Z.pos m * 2 ^ e - Z.pos m * 2 ^ e * 100 * 2 ^ 0) with 0 by lia.
    cbn. lia.
  - apply Z.leb_gt in He. rewrite Z.max_r, Z.max_l by lia.
    pose proof (div_half_even_near (Z.pos m * 100) (2 ^ (- e)) ltac:(lia)
                  ltac:(apply pow2_pos; lia)) as Hnear.
    replace (100 * Z.pos m * 2 ^ 0) with (Z.pos m * 100) by lia. exact Hnear.
Qed.

(** A float above the threshold is positive: finite or infinite. *)
Lemma exceeds_float_shows (f : spec_float) :
  exceeds_threshold (JFloat f) = true -> shows_float f (float_format_2f f).
Proof.
  destruct f as [s|s| |s m e]; try discriminate; try (destruct s; discriminate).
  - destruct s; [discriminate | reflexivity].
  - destruct s; [|intros _; apply float_format_shows].
    unfold exceeds_threshold.
    cbn [num_val float_val CARBON_THRESHOLD ext_ltb]. unfold fin_compare.
    assert (Hp1 : 0 < 2 ^ (-51 - Z.min (-51) e)) by (apply pow2_pos; lia).
    assert (Hp2 : 0 < 2 ^ (e - Z.min (-51) e)) by (apply pow2_pos; lia).
    destruct (Z.compare_spec (Z.pos 4503599627370496 * 2 ^ (-51 - Z.min (-51) e))
                (Z.neg m * 2 ^ (e - Z.min (-51) e))); try discriminate.
    nia.
Qed.

Lemma float_of_int_small (z : Z) :
  0 < z < 2 ^ 53 -> float_of_int z = Ok (S754_finite false (Z.to_pos z) 0).
Proof.
  intros Hz. unfold float_of_int.
  rewrite (proj2 (Z.eqb_neq z 0)) by lia. rewrite Z.abs_eq by lia.
  assert (Hlog : Z.log2 z < 53) by (apply Z.log2_lt_pow2; lia).
  unfold round_53. rewrite (proj2 (Z.leb_le (Z.log2 z + 1) 53)) by lia.
  assert (Hlt : z < 2 ^ 1024).
  { assert (2 ^ 53 < 2 ^ 1024) by (apply Z.pow_lt_mono_r; lia). lia. }
  rewrite (proj2 (Z.leb_gt (2 ^ 1024) z)) by lia.
  by rewrite (proj2 (Z.ltb_ge z 0)) by lia.
Qed.

(** The figure the scorer writes into its text, and the figure the
    response carries *)
Lemma format_2f_shows (figure v : json) :
  exceeds_threshold figure = true ->
  validate_float figure = Ok v ->
  exists t, format_2f figure = Ok t /\ shows_figure figure t /\ shows_figure v t.
Proof.
  destruct figure as [|b|z|f|s|l|d]; try discriminate.
  - by destruct b.
  - intros Hex Hv. cbn [validate_float format_2f] in *.
    destruct (float_of_int z) as [f|] eqn:Hf; [|discriminate]. injection Hv as <-.
    cbn [mbind result_bind]. eexists. split; [reflexivity|].
    pose proof (exceeds_float_of_int _ _ Hf) as Hex'. rewrite Hex in Hex'.
    pose proof (exceeds_float_shows _ Hex') as Hshows.
    split; [|exact Hshows].
    cbn [shows_figure]. destruct (z <? 2 ^ 53) eqn:Hsmall; [|eauto].
    apply Z.ltb_lt in Hsmall.
    assert (Hpos : 0 < z).
    { destruct (Z.ltb_spec 0 z) as [|Hle]; [done|]. exfalso.
      unfold exceeds_threshold in Hex.
      cbn [num_val float_val CARBON_THRESHOLD ext_ltb] in Hex. unfold fin_compare in Hex.
      change (Z.min (-51) 0) with (-51) in Hex.
      change (-51 - -51) with 0 in Hex. change (0 - -51) with 51 in Hex.
      assert (Hp : 0 < 2 ^ 51) by (apply pow2_pos; lia).
      assert (H3 : 0 < Z.pos 4503599627370496 * 2 ^ 0) by done.
      destruct (Z.compare_spec (Z.pos 4503599627370496 * 2 ^ 0) (z * 2 ^ 51));
        try discriminate. nia. }
    split; [done|].
    rewrite float_of_int_small in Hf by lia. injection Hf as <-. exact Hshows.
  - intros Hex [= <-]. cbn [format_2f]. eexists. split; [reflexivity|].
    split; by apply exceeds_float_shows.
Qed.

(** *** Validation of a response *)

Lemma validate_str_Ok (v w : json) :
  validate_str v = Ok w -> w = v /\ (v = JNull \/ is_str v = true).
Proof. destruct v; try discriminate; intros [= <-]; auto. Qed.

Lemma validate_float_exceeds (v w : json) :
  validate_float v = Ok w -> exceeds_threshold w = exceeds_threshold v.
Proof.
  destruct v as [|b|z|f|s|l|d]; try discriminate; cbn [validate_float].
  - by intros [= <-].
  - intros [= <-]. by destruct b.
  - destruct (float_of_int z) as [f|e] eqn:Hf; [|discriminate].
    intros [= <-]. by apply exceeds_float_of_int.
  - by intros [= <-].
Qed.

Lemma validate_float_truthy (v w : json) :
  validate_float v = Ok w -> truthy w = truthy v.
Proof.
  destruct v as [|b|z|f|s|l|d]; try discriminate; cbn [validate_float].
  - by intros [= <-].
  - intros [= <-]. by destruct b.
  - unfold float_of_int. destruct (z =? 0) eqn:Hz.
    { apply Z.eqb_eq in Hz as ->. by intros [= <-]. }
    destruct (2 ^ 1024 <=? round_53 (Z.abs z)); [discriminate|]. intros [= <-].
    cbn [truthy]. by rewrite finite_nonzero, Hz.
  - by intros [= <-].
Qed.

Lemma validate_float_none (v w : json) :
  validate_float v = Ok w -> is_none w = is_none v.
Proof.
  destruct v as [|b|z|f|s|l|d]; try discriminate; cbn [validate_float];
    try (by intros [= <-]).
  destruct (float_of_int z); [by intros [= <-] | discriminate].
Qed.

Lemma model_validate_Ok (args resp : ProductResponse) :
  model_validate args = Ok resp ->
  validate_float (carbon_footprint args) = Ok (carbon_footprint resp) /\
  status resp = status args /\ gtin resp = gtin args /\ name resp = name args /\
  brand resp = brand args /\ image_url resp = image_url args /\
  category resp = category args /\ ingredients_text resp = ingredients_text args /\
  nutri_score resp = nutri_score args /\ eco_score resp = eco_score args /\
  carbon_footprint_unit resp = carbon_footprint_unit args /\
  is_high_carbon resp = is_high_carbon args /\
  recommendations resp = recommendations args /\
  alternatives resp = alternatives args /\
  source resp = source args /\ message resp = message args.
Proof.
  unfold model_validate.
  intros (v1 & [-> _]%validate_str_Ok & Hrest)%bind_Ok.
  apply bind_Ok in Hrest as (v2 & [-> _]%validate_str_Ok & Hrest).
  apply bind_Ok in Hrest as (v3 & [-> _]%validate_str_Ok & Hrest).
  apply bind_Ok in Hrest as (v4 & [-> _]%validate_str_Ok & Hrest).
  apply bind_Ok in Hrest as (v5 & [-> _]%validate_str_Ok & Hrest).
  apply bind_Ok in Hrest as (v6 & [-> _]%validate_str_Ok & Hrest).
  apply bind_Ok in Hrest as (v7 & [-> _]%validate_str_Ok & Hrest).
  apply bind_Ok in Hrest as (v8 & [-> _]%validate_str_Ok & Hrest).
  apply bind_Ok in Hrest as (v9 & Hfloat & Hrest).
  apply bind_Ok in Hrest as (v10 & [-> _]%validate_str_Ok & Hrest).
  apply bind_Ok in Hrest as (v11 & [-> _]%validate_str_Ok & Hrest).
  apply bind_Ok in Hrest as (v12 & [-> _]%validate_str_Ok & [= <-]).
  cbn. by repeat split.
Qed.

(** The str fields of a response are strs or [None]. *)
Lemma model_validate_strs (args resp : ProductResponse) :
  model_validate args = Ok resp ->
  Forall (fun v => v = JNull \/ is_str v = true)
    [gtin resp; name resp; brand resp; image_url resp; category resp;
     ingredients_text resp; nutri_score resp; eco_score resp].
Proof.
  unfold model_validate.
  intros (v1 & [-> H1]%validate_str_Ok & Hrest)%bind_Ok.
  apply bind_Ok in Hrest as (v2 & [-> H2]%validate_str_Ok & Hrest).
  apply bind_Ok in Hrest as (v3 & [-> H3]%validate_str_Ok & Hrest).
  apply bind_Ok in Hrest as (v4 & [-> H4]%validate_str_Ok & Hrest).
  apply bind_Ok in Hrest as (v5 & [-> H5]%validate_str_Ok & Hrest).
  apply bind_Ok in Hrest as (v6 & [-> H6]%validate_str_Ok & Hrest).
  apply bind_Ok in Hrest as (v7 & [-> H7]%validate_str_Ok & Hrest).
  apply bind_Ok in Hrest as (v8 & [-> H8]%validate_str_Ok & Hrest).
  apply bind_Ok in Hrest as (v9 & Hfloat & Hrest).
  apply bind_Ok in Hrest as (v10 & _ & Hrest).
  apply bind_Ok in Hrest as (v11 & _ & Hrest).
  apply bind_Ok in Hrest as (v12 & _ & [= <-]).
  cbn. repeat (constructor; [assumption|]). constructor.
Qed.

(** Validation raises nothing but [ValidationError]. *)
Lemma model_validate_Raise (args : ProductResponse) (e : exn) :
  model_validate args = Raise e -> e = ValidationError.
Proof.
  unfold model_validate.
  assert (Hstr : forall v e', validate_str v = Raise e' -> e' = ValidationError).
  { intros v e'. destruct v; cbn; congruence. }
  assert (Hfloat : forall v e', validate_float v = Raise e' -> e' = ValidationError).
  { intros v e'. destruct v; cbn; try congruence. destruct (float_of_int z); congruence. }
  repeat match goal with
         | |- (?r ≫= _) = Raise _ -> _ =>
           let Hr := fresh "Hr" in
           destruct r eqn:Hr; cbn [mbind result_bind]; [|intros [= <-]; eauto]
         end.
  discriminate.
Qed.

(** A short response is always valid. *)
Lemma model_validate_short (st : str) (g msg : json) :
  validate_str g = Ok g -> validate_str msg = Ok msg ->
  model_validate (short_response st g msg) = Ok (short_response st g msg).
Proof.
  intros Hg Hmsg. unfold model_validate. cbn [short_response gtin message name brand
    image_url category ingredients_text nutri_score eco_score carbon_footprint
    carbon_footprint_unit source status is_high_carbon recommendations alternatives].
  rewrite Hg, Hmsg. reflexivity.
Qed.

(** *** The scorer *)

Lemma in_strs_str (v : json) (l : list str) :
  in_strs v l = true -> exists s, v = JStr s.
Proof.
  destruct v; try (by eexists); intros Hin; exfalso;
    induction l; cbn in Hin; try discriminate; auto.
Qed.

(** What the carbon branch of the scorer appends *)
Lemma carbon_branch (figure : json) (l : list Recommendation) :
  (if truthy figure then
     gt_float figure CARBON_THRESHOLD ≫= fun above : bool =>
       if above then
         format_2f figure ≫= fun t => Ok ([] ++ [carbon_entry t])
       else Ok []
   else Ok []) = Ok l ->
  l = option_list (carbon_rule figure).
Proof.
  unfold carbon_rule, two_decimals.
  destruct (truthy figure) eqn:Ht.
  - intros (above & Hgt & Hl)%bind_Ok.
    rewrite (gt_float_exceeds _ _ Hgt). destruct above.
    + apply bind_Ok in Hl as (t & -> & Hl). by inversion Hl.
    + by inversion Hl.
  - rewrite (falsy_not_above _ Ht). by inversion 1.
Qed.

Lemma generate_recommendations_shape (product : gmap str json) (figure : json)
    (recs : list Recommendation) :
  generate_recommendations (JDict product) figure = Ok recs ->
  exists plastic : bool,
    plastic_found product = Ok plastic /\
    recs = assemble [carbon_rule figure; eco_rule product; nutrition_rule product;
                     if plastic then Some plastic_entry else None].
Proof.
  unfold generate_recommendations, plastic_found, eco_rule, nutrition_rule, attribute.
  cbn [get mbind result_bind].
  intros (l1 & Hcarbon & Hrest)%bind_Ok.
  apply carbon_branch in Hcarbon.
  apply bind_Ok in Hrest as (l2 & Hl2 & Hrest).
  apply bind_Ok in Hrest as (tags & Htags & Hrest).
  apply bind_Ok in Hrest as (plastic & Hplastic & Hrest).
  exists plastic. rewrite Htags. split; [exact Hplastic|].
  inversion Hrest as [Hrecs]. clear Hrest Hrecs recs.
  destruct (in_strs (default (JStr "") (product !! "ecoscore_grade"%py))
              ["d"%py; "e"%py]);
    destruct (in_strs (default (JStr "") (product !! "ecoscore_grade"%py))
                ["a"%py; "b"%py]);
    (destruct (in_strs (default (JStr "") (product !! "nutriscore_grade"%py)) _) eqn:Hn;
     [ destruct (in_strs_str _ _ Hn) as [g Hg]; rewrite Hg in Hl2 |- *
     | ]);
    inversion Hl2; subst;
    destruct (carbon_rule figure), plastic; reflexivity.
Qed.

Lemma carbon_branch_total (figure : json) :
  is_figure figure = true ->
  (if truthy figure then
     gt_float figure CARBON_THRESHOLD ≫= fun above : bool =>
       if above then
         format_2f figure ≫= fun t => Ok ([] ++ [carbon_entry t])
       else Ok []
   else Ok []) = Ok (option_list (carbon_rule figure)).
Proof.
  intros Hfig.
  assert (Hfmt : format_2f figure = Ok (two_decimals figure)).
  { unfold two_decimals. destruct figure as [|b|z|f|s|l|d]; try discriminate.
    - cbn in *. by destruct (float_of_int z).
    - reflexivity. }
  assert (Hgt : gt_float figure CARBON_THRESHOLD = Ok (exceeds_threshold figure)).
  { unfold gt_float, exceeds_threshold.
    destruct figure as [|b|z|f|s|l|d]; try discriminate; reflexivity. }
  unfold carbon_rule. rewrite Hgt.
  destruct (truthy figure) eqn:Ht.
  - cbn [mbind result_bind]. destruct (exceeds_threshold figure); [|done].
    by rewrite Hfmt.
  - by rewrite falsy_not_above.
Qed.

Lemma any_plastic_sound (tags : list json) (b : bool) :
  any_plastic tags = Ok b -> b = existsb mentions_plastic tags.
Proof.
  revert b. induction tags as [|tag tags IH]; intros b;
    cbn [any_plastic existsb mentions_plastic].
  - by inversion 1.
  - destruct tag; try discriminate. cbn [method_lower mbind result_bind mentions_plastic].
    destruct (str_in "plastic" (lower s)); [intros [= <-]; reflexivity | auto].
Qed.

Lemma any_plastic_total (tags : list json) :
  forallb is_str tags = true ->
  any_plastic tags = Ok (existsb mentions_plastic tags).
Proof.
  induction tags as [|tag tags IH];
    cbn [any_plastic existsb mentions_plastic forallb]; [done|].
  intros [Htag Htags]%andb_true_iff. destruct tag; try discriminate.
  cbn [method_lower mbind result_bind mentions_plastic].
  destruct (str_in "plastic" (lower s)); auto.
Qed.

Lemma plastic_found_total (product : gmap str json) :
  tags_well_typed product = true ->
  plastic_found product = Ok (existsb mentions_plastic (packaging_tags product)).
Proof.
  unfold tags_well_typed, plastic_found, packaging_tags.
  destruct (product !! "packaging_tags"%py) as [[]|]; try discriminate; cbn.
  - apply any_plastic_total.
  - done.
Qed.

(** Whatever the carbon figure: when the packaging tags are absent or a
    list and the scorer returns, it returns the entries of the rules. *)
Lemma generate_recommendations_sound (product : gmap str json) (figure : json)
    (recs : list Recommendation) :
  product !! "packaging_tags"%py = None
  \/ (exists tags, product !! "packaging_tags"%py = Some (JList tags)) ->
  generate_recommendations (JDict product) figure = Ok recs ->
  recs = rules_in_order product figure.
Proof.
  intros Htags (plastic & Hplastic & ->)%generate_recommendations_shape.
  unfold rules_in_order, packaging_rule. f_equal. do 3 f_equal.
  assert (plastic = existsb mentions_plastic (packaging_tags product)) as ->; [|done].
  unfold plastic_found, packaging_tags in *.
  destruct Htags as [Htags|[tags Htags]]; rewrite Htags in Hplastic |- *;
    cbn [from_option id iter mbind result_bind] in Hplastic;
    by apply any_plastic_sound.
Qed.

Lemma figure_typed_validates (figure : json) :
  figure_typed figure = true -> exists v, validate_float figure = Ok v.
Proof.
  destruct figure as [|b|z|f|s|l|d]; try discriminate;
    cbn [figure_typed is_figure validate_float]; eauto.
  destruct (float_of_int z); [eauto | discriminate].
Qed.

Lemma carbon_branch_typed (figure : json) :
  figure_typed figure = true ->
  (if truthy figure then
     gt_float figure CARBON_THRESHOLD ≫= fun above : bool =>
       if above then
         format_2f figure ≫= fun t => Ok ([] ++ [carbon_entry t])
       else Ok []
   else Ok []) = Ok (option_list (carbon_rule figure)).
Proof.
  destruct figure as [|b|z|f|s|l|d]; try discriminate.
  - reflexivity.
  - by destruct b.
  - apply carbon_branch_total.
  - apply carbon_branch_total.
Qed.

Lemma nutrition_rule_grades (product : gmap str json) (r : Recommendation) :
  nutrition_rule product = Some r ->
  (product !! "nutriscore_grade"%py = Some (JStr "d") /\ r = nutrition_entry "D")
  \/ (product !! "nutriscore_grade"%py = Some (JStr "e") /\ r = nutrition_entry "E").
Proof.
  unfold nutrition_rule, attribute.
  destruct (product !! "nutriscore_grade"%py) as [[| | | |g| |]|]; try discriminate.
  cbn [from_option id in_strs existsb eq_str].
  destruct (decide (g = "d"%py)) as [->|Hd].
  - intros [= <-]. by left.
  - rewrite (bool_decide_eq_false_2 _ Hd).
    destruct (decide (g = "e"%py)) as [->|He].
    + intros [= <-]. by right.
    + by rewrite (bool_decide_eq_false_2 _ He).
Qed.

(** C2.  On a product-attribute dictionary whose packaging tags are absent
    or a list of strs, and a carbon figure that is a float (or an int that
    converts to one, or [None] or a bool), the scorer returns the entries
    of the four rules carbon, eco grade, nutrition grade, packaging that
    fire, in that order, each at most once, and the single default entry
    when no rule fires.  The carbon entry shows the figure to two decimal
    places, and the nutrition entry the grade as the capital letter D or
    E. *)
Theorem generate_recommendations_rules (product : gmap str json) (figure : json) :
  figure_typed figure = true ->
  tags_well_typed product = true ->
  generate_recommendations (JDict product) figure
  = Ok (rules_in_order product figure)
  /\ (forall r, carbon_rule figure = Some r ->
        exists t, r = carbon_entry t /\ shows_figure figure t)
  /\ (forall r, nutrition_rule product = Some r ->
        (product !! "nutriscore_grade"%py = Some (JStr "d")
         /\ r = nutrition_entry "D")
        \/ (product !! "nutriscore_grade"%py = Some (JStr "e")
            /\ r = nutrition_entry "E")).
Proof.
  intros Hfig Htags. split; [|split; [|apply nutrition_rule_grades]].
  - unfold generate_recommendations, rules_in_order, packaging_rule.
    cbn [get mbind result_bind].
    pose proof (carbon_branch_typed figure Hfig) as Hc.
    pose proof (plastic_found_total product Htags) as Hp.
    unfold plastic_found in Hp.
    unfold carbon_entry in Hc. cbn [mbind result_bind] in Hc.
    rewrite Hc. clear Hc.
    unfold eco_rule, nutrition_rule, attribute.
    destruct (iter (default (JList []) (product !! "packaging_tags"%py)))
      as [tags|e]; [|discriminate].
    cbn [mbind result_bind] in Hp |- *. rewrite Hp. clear Hp.
    destruct (in_strs (default (JStr "") (product !! "ecoscore_grade"%py))
                ["d"%py; "e"%py]);
      destruct (in_strs (default (JStr "") (product !! "ecoscore_grade"%py))
                  ["a"%py; "b"%py]);
      (destruct (in_strs (default (JStr "") (product !! "nutriscore_grade"%py)) _) eqn:Hn;
       [ destruct (in_strs_str _ _ Hn) as [g Hg]; rewrite Hg | ]);
      destruct (carbon_rule figure), (existsb mentions_plastic _); reflexivity.
  - intros r. unfold carbon_rule, two_decimals.
    destruct (exceeds_threshold figure) eqn:Hex; [|discriminate]. intros [= <-].
    destruct (figure_typed_validates _ Hfig) as [v Hv].
    destruct (format_2f_shows _ _ Hex Hv) as (t & -> & Hshows & _). eauto.
Qed.

(** *** Barcode validation *)

Lemma isdigit_spec (b : str) :
  isdigit b = true <-> all_digits b /\ codepoints b <> [].
Proof.
  unfold isdigit, all_digits. destruct (codepoints b) as [|c cs] eqn:Hb.
  - split; [discriminate | intros [_ []]; reflexivity].
  - rewrite forallb_forall, Forall_forall.
    split.
    + intros Hall. split; [|discriminate].
      intros x Hx. apply Hall. by apply list_elem_of_In.
    + intros [Hall _] x Hx. apply Hall. by apply list_elem_of_In.
Qed.

Lemma in_ints_gtin (n : Z) :
  in_ints n [8; 12; 13; 14] = true <-> n = 8 \/ n = 12 \/ n = 13 \/ n = 14.
Proof.
  unfold in_ints. cbn [existsb].
  rewrite !orb_true_iff, !Z.eqb_eq. intuition discriminate.
Qed.

Lemma gtin_check_spec (b : str) :
  isdigit b && in_ints (len b) [8; 12; 13; 14] = true <-> valid_barcode b.
Proof.
  unfold valid_barcode, gtin_length.
  rewrite andb_true_iff, isdigit_spec, in_ints_gtin.
  split; [tauto|]. intros [Hd Hl]. repeat split; auto.
  intros Hnil. unfold len in Hl. rewrite Hnil in Hl. cbn in Hl. lia.
Qed.

Lemma gtin_guard_spec (b : str) :
  negb (isdigit b) || negb (in_ints (len b) [8; 12; 13; 14]) = false
  <-> valid_barcode b.
Proof.
  rewrite <- gtin_check_spec, <- negb_andb, negb_false_iff. done.
Qed.

Lemma valid_barcode_truthy (b : str) : valid_barcode b -> truthy (JStr b) = true.
Proof.
  intros [_ Hl]. cbn. destruct b as [[|c cs]]; [|done].
  unfold gtin_length, len in Hl. cbn in Hl. lia.
Qed.

Lemma extract_gtin_spec (image_data : list Byte.byte) (b : str) :
  extract_gtin_from_image read_barcodes image_data = Some b <->
  (exists payload others,
      read_barcodes image_data = Some (payload :: others) /\
      bytes_decode payload = Some b) /\ valid_barcode b.
Proof.
  unfold extract_gtin_from_image. rewrite <- gtin_check_spec.
  destruct (read_barcodes image_data) as [[|payload others]|].
  - split; [discriminate | intros [(? & ? & [=] & _) _]].
  - destruct (bytes_decode payload) as [g|] eqn:Hdec.
    + destruct (isdigit g && in_ints (len g) [8; 12; 13; 14]) eqn:Hg.
      * split.
        -- intros [= <-]. eauto 6.
        -- intros [(? & ? & [= <- <-] & Hb) _]. congruence.
      * split; [discriminate|].
        intros [(? & ? & [= <- <-] & Hb) Hv]. congruence.
    + split; [discriminate | intros [(? & ? & [= <- <-] & Hb) _]; congruence].
  - split; [discriminate | intros [(? & ? & [=] & _) _]].
Qed.

(** On the ASCII range [str.isdigit] accepts the digits 0 to 9 only. *)
Lemma char_isdigit_ascii (c : N) :
  (c < 128)%N -> (char_isdigit c = true <-> decimal_digit c).
Proof.
  intros Hc. unfold char_isdigit, decimal_digit.
  rewrite (proj2 (N.ltb_lt c 128) Hc), andb_true_iff, !N.leb_le. done.
Qed.

Lemma gtin_format_valid (b : str) : gtin_format b -> valid_barcode b.
Proof.
  intros [Hdigits Hlen]. split; [|done].
  unfold all_digits. eapply Forall_impl; [exact Hdigits|].
  intros c Hc. apply char_isdigit_ascii; [|done]. unfold decimal_digit in Hc. lia.
Qed.

Lemma valid_barcode_ascii (b : str) :
  ascii_only b -> (valid_barcode b <-> gtin_format b).
Proof.
  intros Hascii. split; [|apply gtin_format_valid].
  intros [Hdigits Hlen]. split; [|done].
  unfold all_digits, ascii_only in *. rewrite Forall_forall in Hdigits, Hascii |- *.
  intros c Hc. apply char_isdigit_ascii; auto.
Qed.

Lemma superscript_code_valid :
  uc_isdigit 178 = true -> valid_barcode superscript_code /\ ~ gtin_format superscript_code.
Proof.
  intros Htable. split.
  - split; [|by left].
    unfold all_digits. cbn [superscript_code codepoints].
    repeat (constructor; [first [reflexivity | exact Htable]|]). constructor.
  - intros [Hdigits _]. cbn [superscript_code codepoints] in Hdigits.
    rewrite Forall_forall in Hdigits.
    assert (Hin : 178%N ∈ [49; 50; 51; 52; 53; 54; 55; 178]%N) by set_solver.
    specialize (Hdigits _ Hin). unfold decimal_digit in Hdigits. lia.
Qed.

(** C3.  The superscript two is a digit for [str.isdigit]: the code
    "1234567²", which is not made of the digits 0 to 9, is accepted as a
    barcode by the image extractor and passes the guard of fetch-by-code. *)
Theorem superscript_digit_accepted (image_data payload : list Byte.byte)
    (others : list (list Byte.byte)) :
  uc_isdigit 178 = true ->
  read_barcodes image_data = Some (payload :: others) ->
  bytes_decode payload = Some superscript_code ->
  ~ gtin_format superscript_code
  /\ extract_gtin_from_image read_barcodes image_data = Some superscript_code
  /\ get_product USER_AGENT superscript_code
     <> Ret (Raise (HTTPException 400 "Invalid barcode format")).
Proof.
  intros Htable Hread Hdecode.
  destruct (superscript_code_valid Htable) as [Hvalid Hformat].
  split; [done|]. split.
  - apply extract_gtin_spec. eauto.
  - unfold get_product. apply gtin_guard_spec in Hvalid. by rewrite Hvalid.
Qed.

(** C7.  Given the code "1234567²", which is not made of the digits 0 to
    9, fetch-by-code does not end with its 400 error and no request: it
    sends the lookup for that code, and when the lookup fails, raises the
    500 error of a failed fetch. *)
Theorem superscript_code_looked_up (rest : list (option json)) :
  uc_isdigit 178 = true ->
  ~ gtin_format superscript_code
  /\ (forall replies,
        run (get_product USER_AGENT superscript_code) replies
        <> Some (Raise (HTTPException 400 "Invalid barcode format"), []))
  /\ run (get_product USER_AGENT superscript_code) (None :: rest)
     = Some (Raise (HTTPException 500 "Failed to fetch product data"),
             [lookup_request USER_AGENT superscript_code]).
Proof.
  intros Htable.
  destruct (superscript_code_valid Htable) as [Hvalid Hformat].
  split; [done|].
  apply gtin_guard_spec in Hvalid.
  split.
  - intros replies. unfold get_product. rewrite Hvalid.
    cbn [try_bind fetch_product io_bind run].
    destruct replies as [|reply replies]; [discriminate|].
    match goal with
    | |- context [run ?m replies] => destruct (run m replies) as [[r log]|]
    end; discriminate.
  - unfold get_product. by rewrite Hvalid.
Qed.

(** X24.  For a string of ASCII characters the code's test is the
    specification's: the image extractor and the guard of fetch-by-code
    accept it exactly when it is made of the digits 0 to 9 and has length
    8, 12, 13 or 14.  A string of that format is accepted whatever the
    Unicode tables say. *)
Theorem ascii_barcode_accepted_iff (b : str) :
  ascii_only b ->
  (forall image_data payload others,
      read_barcodes image_data = Some (payload :: others) ->
      bytes_decode payload = Some b ->
      (extract_gtin_from_image read_barcodes image_data = Some b <-> gtin_format b))
  /\ (get_product USER_AGENT b
      <> Ret (Raise (HTTPException 400 "Invalid barcode format"))
      <-> gtin_format b).
Proof.
  intros Hascii. pose proof (valid_barcode_ascii b Hascii) as Hiff. split.
  - intros image_data payload others Hread Hdecode.
    rewrite extract_gtin_spec, Hiff. split; [tauto | eauto 6].
  - rewrite <- Hiff, <- gtin_guard_spec. unfold get_product.
    destruct (negb (isdigit b) || negb (in_ints (len b) [8; 12; 13; 14])).
    + split; [intros Hne; by destruct Hne | discriminate].
    + split; [done | intros _; discriminate].
Qed.

(** X25.  An empty upload to scan-by-image, and a code of ASCII characters
    that is not made of 8, 12, 13 or 14 digits 0 to 9 given to
    fetch-by-code, raise a 400 error, and the endpoint ends there: no
    request is sent, whatever the network would have replied. *)
Theorem malformed_ascii_code_rejected (b : str) (replies : list (option json)) :
  ascii_only b ->
  ~ gtin_format b ->
  scan_product USER_AGENT read_barcodes []
    = Ret (Raise (HTTPException 400 "Empty image file"))
  /\ get_product USER_AGENT b
    = Ret (Raise (HTTPException 400 "Invalid barcode format"))
  /\ run (scan_product USER_AGENT read_barcodes []) replies
    = Some (Raise (HTTPException 400 "Empty image file"), [])
  /\ run (get_product USER_AGENT b) replies
    = Some (Raise (HTTPException 400 "Invalid barcode format"), []).
Proof.
  intros Hascii Hb.
  assert (Hget : get_product USER_AGENT b
                 = Ret (Raise (HTTPException 400 "Invalid barcode format"))).
  { unfold get_product.
    destruct (negb (isdigit b) || negb (in_ints (len b) [8; 12; 13; 14])) eqn:Hg;
      [done|]. apply gtin_guard_spec in Hg. by apply valid_barcode_ascii in Hg. }
  rewrite Hget. repeat split; reflexivity.
Qed.

(** *** The endpoints *)

(** The figure both endpoints extract is the nested field's, [None] when
    it is not there. *)
Lemma extracted_is_nested (product ecoscore_data : json) (co2 : json) :
  get product "ecoscore_data" (JDict ∅) = Ok ecoscore_data ->
  (if truthy ecoscore_data then
     get ecoscore_data "agribalyse" (JDict ∅) ≫= fun agribalyse =>
       get agribalyse "co2_total" JNull
   else Ok JNull) = Ok co2 ->
  co2 = default JNull (nested_co2_total product).
Proof.
  destruct product as [| | | | | |p]; try discriminate.
  cbn [get nested_co2_total]. intros [= <-].
  destruct (p !! "ecoscore_data"%py) as [e|] eqn:He; cbn [from_option id].
  - destruct (truthy e) eqn:Ht.
    + destruct e as [| | | | | |ed]; cbn [get mbind result_bind]; try discriminate.
      destruct (ed !! "agribalyse"%py) as [a|]; cbn [from_option id].
      * destruct a as [| | | | | |ad]; cbn [get]; try discriminate.
        intros [= <-]. by destruct (ad !! "co2_total"%py) as [[]|].
      * cbn [get]. rewrite lookup_empty. by intros [= <-].
    + intros [= <-]. destruct e as [| | | | | |ed]; try reflexivity.
      assert (ed = ∅) as ->.
      { cbn in Ht. apply negb_false_iff, bool_decide_eq_true in Ht. done. }
      by rewrite lookup_empty.
  - cbn. by intros [= <-].
Qed.

Lemma run_try_pure {A B} (r : result A) (k : A -> io (result B))
    (replies : list (option json)) (b : B) (log : list request) :
  run (try_bind (pure r) k) replies = Some (Ok b, log) ->
  exists a, r = Ok a /\ run (k a) replies = Some (Ok b, log).
Proof. destruct r as [a|e]; [eauto | discriminate]. Qed.

Lemma run_fetch_alternatives_ok (category grade : json) (replies : list (option json))
    (B : Type) (k : list (gmap str json) -> io (result B)) (b : B) (log : list request) :
  run (try_bind (io_bind (fetch_alternatives USER_AGENT category grade)
                   (fun l => Ret (Ok l))) k) replies = Some (Ok b, log) ->
  exists alts replies' log', run (k alts) replies' = Some (Ok b, log').
Proof.
  unfold fetch_alternatives.
  destruct (negb (truthy category)); [cbn; eauto|].
  destruct (first_tag category); [|cbn; eauto].
  cbn [try_bind io_bind run]. destruct replies as [|reply rest]; [discriminate|].
  destruct reply as [data|]; [destruct (rank_alternatives data grade)|]; cbn [io_bind];
    match goal with
    | |- context [run ?m rest] => destruct (run m rest) as [[r l]|] eqn:Hr
    end; try discriminate; intros [= -> <-]; eauto.
Qed.

Lemma flag_value (co2 : json) (flag : bool) :
  (if negb (is_none co2) then gt_float co2 CARBON_THRESHOLD else Ok false) = Ok flag ->
  flag = negb (is_none co2) && exceeds_threshold co2.
Proof.
  destruct (negb (is_none co2)); [|by intros [= <-]].
  intros Hgt. by rewrite (gt_float_exceeds _ _ Hgt).
Qed.

Ltac next_step H :=
  let a := fresh "a" in
  let Ha := fresh "Ha" in
  apply run_try_pure in H as (a & Ha & H).

Lemma get_product_inv (code : str) (replies : list (option json))
    (resp : ProductResponse) (log : list request) :
  run (get_product USER_AGENT code) replies = Some (Ok resp, log) ->
  bare_not_found resp \/
  exists data rest, replies = Some data :: rest /\ reports_on data resp.
Proof.
  unfold get_product.
  destruct (negb (isdigit code) || negb (in_ints (len code) [8; 12; 13; 14]));
    [discriminate|].
  destruct replies as [|[data|] rest]; try discriminate.
  cbn [try_bind fetch_product io_bind run].
  match goal with
  | |- context [run ?m rest] => destruct (run m rest) as [[r l]|] eqn:Hrun
  end; [|discriminate].
  intros [= -> <-].
  next_step Hrun. destruct a as [|].
  { unfold pure in Hrun. rewrite model_validate_short in Hrun by done.
    injection Hrun as [= <- _]. left. by repeat split. }
  apply run_try_pure in Hrun as (product & Hproduct & Hrun).
  apply run_try_pure in Hrun as (ecoscore_data & Heco & Hrun).
  apply run_try_pure in Hrun as (co2 & Hco2 & Hrun).
  apply run_try_pure in Hrun as (flag & Hflag & Hrun).
  apply run_try_pure in Hrun as (recs & Hrecs & Hrun).
  destruct product as [| | | | | |p]; try discriminate.
  assert (Hfinal : exists args,
             model_validate args = Ok resp /\
             carbon_footprint args = co2 /\ is_high_carbon args = flag /\
             recommendations args = recs /\ status args = "success"%py).
  { destruct flag.
    - cbn [get pure try_bind io_bind] in Hrun.
      apply run_fetch_alternatives_ok in Hrun as (alts & replies' & log' & Hrun).
      injection Hrun as Hv _. eexists. split; [exact Hv|]. done.
    - injection Hrun as Hv _. eexists. split; [exact Hv|]. done. }
  destruct Hfinal as (args & Hv & Hcf & Hhigh & Hrs & Hst).
  apply model_validate_Ok in Hv
    as (Hfloat & Hst' & _ & _ & _ & _ & _ & _ & _ & _ & _ & Hhigh' & Hrs' & _).
  right. exists data, rest. split; [done|]. exists (JDict p), co2.
  rewrite Hst', Hhigh', Hrs', Hst, Hhigh, Hrs. rewrite Hcf in Hfloat.
  repeat split; auto using flag_value.
  eapply extracted_is_nested; eauto.
Qed.

Lemma scan_extraction (ecoscore_data : json) (carbon : json * json) :
  (if truthy ecoscore_data then
     get ecoscore_data "agribalyse" (JDict ∅) ≫= fun agribalyse =>
       get agribalyse "co2_total" JNull ≫= fun co2 =>
         Ok (co2, JStr "kg CO2e/kg")
   else Ok (JNull, JNull)) = Ok carbon ->
  (if truthy ecoscore_data then
     get ecoscore_data "agribalyse" (JDict ∅) ≫= fun agribalyse =>
       get agribalyse "co2_total" JNull
   else Ok JNull) = Ok carbon.1.
Proof.
  destruct (truthy ecoscore_data); [|by intros [= <-]].
  intros (agribalyse & -> & Hco2)%bind_Ok. cbn [mbind result_bind].
  apply bind_Ok in Hco2 as (co2 & -> & [= <-]). reflexivity.
Qed.

Lemma scan_product_inv (image_data : list Byte.byte) (replies : list (option json))
    (resp : ProductResponse) (log : list request) :
  run (scan_product USER_AGENT read_barcodes image_data) replies = Some (Ok resp, log) ->
  bare_not_found resp \/
  exists data rest, replies = Some data :: rest /\ reports_on data resp.
Proof.
  unfold scan_product.
  destruct (bool_decide (image_data = [])); [discriminate|].
  assert (Hnone : forall rs (l : list request),
             run (pure (model_validate (short_response "not_found" JNull
               (JStr "No barcode detected. Please ensure the barcode is clearly visible."))))
               rs = Some (Ok resp, l) -> bare_not_found resp).
  { intros rs l. unfold pure. rewrite model_validate_short by done.
    intros [= <- _]. by repeat split. }
  destruct (extract_gtin_from_image read_barcodes image_data) as [code|];
    [|intros Hrun; left; eauto].
  destruct (negb (truthy (JStr code))); [intros Hrun; left; eauto|].
  clear Hnone.
  destruct replies as [|[data|] rest]; try discriminate.
  cbn [try_bind fetch_product io_bind run].
  match goal with
  | |- context [run ?m rest] => destruct (run m rest) as [[r l]|] eqn:Hrun
  end; [|discriminate].
  intros [= -> <-].
  next_step Hrun. destruct a as [|].
  { unfold pure in Hrun. rewrite model_validate_short in Hrun by done.
    injection Hrun as [= <- _]. left. by repeat split. }
  apply run_try_pure in Hrun as (product & Hproduct & Hrun).
  apply run_try_pure in Hrun as (ecoscore_data & Heco & Hrun).
  apply run_try_pure in Hrun as (carbon & Hco2 & Hrun).
  apply scan_extraction in Hco2.
  apply run_try_pure in Hrun as (flag & Hflag & Hrun).
  apply run_try_pure in Hrun as (recs & Hrecs & Hrun).
  destruct product as [| | | | | |p]; try discriminate.
  assert (Hfinal : exists args,
             model_validate args = Ok resp /\
             carbon_footprint args = carbon.1 /\ is_high_carbon args = flag /\
             recommendations args = recs /\ status args = "success"%py).
  { destruct flag.
    - cbn [get pure try_bind io_bind] in Hrun.
      apply run_fetch_alternatives_ok in Hrun as (alts & replies' & log' & Hrun).
      injection Hrun as Hv _. eexists. split; [exact Hv|]. done.
    - injection Hrun as Hv _. eexists. split; [exact Hv|]. done. }
  destruct Hfinal as (args & Hv & Hcf & Hhigh & Hrs & Hst).
  apply model_validate_Ok in Hv
    as (Hfloat & Hst' & _ & _ & _ & _ & _ & _ & _ & _ & _ & Hhigh' & Hrs' & _).
  right. exists data, rest. split; [done|]. exists (JDict p), carbon.1.
  rewrite Hst', Hhigh', Hrs', Hst, Hhigh, Hrs. rewrite Hcf in Hfloat.
  repeat split; auto using flag_value.
  eapply extracted_is_nested; eauto.
Qed.

Lemma nested_co2_total_nonnull (product figure : json) :
  nested_co2_total product = Some figure -> figure <> JNull.
Proof.
  unfold nested_co2_total.
  destruct product as [| | | | | |p]; try discriminate.
  destruct (p !! "ecoscore_data"%py) as [[| | | | | |e]|]; try discriminate.
  destruct (e !! "agribalyse"%py) as [[| | | | | |a]|]; try discriminate.
  destruct (a !! "co2_total"%py) as [[]|]; try discriminate; by intros [= <-].
Qed.

(** C1.  In every response either endpoint builds, [is_high_carbon] is
    true exactly when the response carries a carbon figure and that figure
    exceeds 2.0.  In a success response the flag is true exactly when the
    product's nested [ecoscore_data.agribalyse.co2_total] holds a figure
    that exceeds 2.0; the response carries that figure, as a float, and no
    figure when the nested field holds none.  A not-found response carries
    no figure and is not flagged.  To exceed 2.0 is, for an int [z], that
    [2 < z], and for a positive float [m * 2^e], that [2 < m * 2^e]. *)
Theorem carbon_flag_invariant (image_data : list Byte.byte) (code : str)
    (replies : list (option json)) (resp : ProductResponse) (log : list request) :
  run (scan_product USER_AGENT read_barcodes image_data) replies = Some (Ok resp, log)
  \/ run (get_product USER_AGENT code) replies = Some (Ok resp, log) ->
  (is_high_carbon resp = true <->
   carbon_footprint resp <> JNull /\ exceeds_threshold (carbon_footprint resp) = true)
  /\ (status resp = "success"%py ->
      exists data product,
        head replies = Some (Some data) /\
        getitem data "product" = Ok product /\
        (is_high_carbon resp = true <->
         exists figure, nested_co2_total product = Some figure /\
                        exceeds_threshold figure = true) /\
        (carbon_footprint resp = JNull <-> nested_co2_total product = None) /\
        (forall f, nested_co2_total product = Some (JFloat f) ->
                   carbon_footprint resp = JFloat f) /\
        (forall z, nested_co2_total product = Some (JInt z) ->
                   exists f, float_of_int z = Ok f /\ carbon_footprint resp = JFloat f))
  /\ (status resp = "not_found"%py ->
      carbon_footprint resp = JNull /\ is_high_carbon resp = false)
  /\ (forall z, exceeds_threshold (JInt z) = true <-> 2 < z)
  /\ (forall m e, exceeds_threshold (JFloat (S754_finite false m e)) = true
                  <-> 2 * 2 ^ Z.max (- e) 0 < Z.pos m * 2 ^ Z.max e 0).
Proof.
  intros Hrun.
  assert (Hinv : bare_not_found resp \/
                 exists data rest, replies = Some data :: rest /\ reports_on data resp).
  { destruct Hrun as [Hrun|Hrun]; eauto using scan_product_inv, get_product_inv. }
  clear Hrun.
  cut ((is_high_carbon resp = true <->
        carbon_footprint resp <> JNull
        /\ exceeds_threshold (carbon_footprint resp) = true)
       /\ (status resp = "success"%py ->
           exists data product,
             head replies = Some (Some data) /\
             getitem data "product" = Ok product /\
             (is_high_carbon resp = true <->
              exists figure, nested_co2_total product = Some figure /\
                             exceeds_threshold figure = true) /\
             (carbon_footprint resp = JNull <-> nested_co2_total product = None) /\
             (forall f, nested_co2_total product = Some (JFloat f) ->
                        carbon_footprint resp = JFloat f) /\
             (forall z, nested_co2_total product = Some (JInt z) ->
                        exists f, float_of_int z = Ok f /\
                                  carbon_footprint resp = JFloat f))
       /\ (status resp = "not_found"%py ->
           carbon_footprint resp = JNull /\ is_high_carbon resp = false)).
  { intros (H1 & H2 & H3).
    auto using exceeds_threshold_int, exceeds_threshold_float. }
  destruct Hinv as [(Hst & Hcf & Hhigh & _)|(data & rest & -> & Hrep)].
  - rewrite Hst, Hcf, Hhigh. repeat split; try done. by intros [? _].
  - destruct Hrep as (product & co2 & Hproduct & Hst & Hco2 & Hfloat & Hhigh & _).
    rewrite Hhigh, Hst. split; [|split; [|discriminate]].
    + rewrite <- (validate_float_none _ _ Hfloat), <- (validate_float_exceeds _ _ Hfloat).
      split.
      * intros [Hnone Hgt]%andb_true_iff. split; [|done].
        by destruct (carbon_footprint resp).
      * intros [Hnone ->]. by destruct (carbon_footprint resp).
    + intros _. exists data, product. split; [done|]. split; [done|].
      destruct (nested_co2_total product) as [figure|] eqn:Hnested;
        cbn [from_option id] in Hco2; subst co2.
      * pose proof (nested_co2_total_nonnull _ _ Hnested) as Hnonnull.
        pose proof (validate_float_none _ _ Hfloat) as Hnone.
        assert (Hn : is_none figure = false) by by destruct figure.
        rewrite Hn in Hnone |- *. cbn [negb andb].
        split; [|split; [|split]].
        -- split; [eauto|]. by intros (? & [= <-] & ?).
        -- split; [|done]. intros Hcf. by rewrite Hcf in Hnone.
        -- intros f [= ->]. by injection Hfloat as <-.
        -- intros z [= ->]. cbn [validate_float] in Hfloat.
           destruct (float_of_int z) as [f|]; [|discriminate].
           injection Hfloat as <-. eauto.
      * injection Hfloat as <-. cbn [is_none negb andb].
        split; [|split; [|split]]; try done.
        split; [done|]. by intros (? & [=] & _).
Qed.

(** *** The high-carbon recommendation *)

Lemma exceeds_py_or (co2 : json) :
  exceeds_threshold (py_or co2 (JInt 0))
  = negb (is_none co2) && exceeds_threshold co2.
Proof.
  unfold py_or. destruct (truthy co2) eqn:Ht.
  - by destruct co2.
  - rewrite (falsy_not_above _ Ht). by rewrite andb_false_r.
Qed.

(** Among the entries the rules produce, only the carbon rule's is the
    high-carbon recommendation. *)
Lemma high_carbon_entry_fired (product : gmap str json) (figure : json) (plastic : bool) :
  existsb is_high_carbon_entry
    (assemble [carbon_rule figure; eco_rule product; nutrition_rule product;
               if plastic then Some plastic_entry else None])
  = exceeds_threshold figure.
Proof.
  unfold carbon_rule, eco_rule, nutrition_rule.
  destruct (exceeds_threshold figure),
    (in_strs (attribute product "ecoscore_grade") ["d"%py; "e"%py]),
    (in_strs (attribute product "ecoscore_grade") ["a"%py; "b"%py]),
    (in_strs (attribute product "nutriscore_grade") ["d"%py; "e"%py]),
    plastic; reflexivity.
Qed.

Lemma reports_on_high_carbon (data : json) (resp : ProductResponse) :
  reports_on data resp ->
  existsb is_high_carbon_entry (recommendations resp) = is_high_carbon resp.
Proof.
  intros (product & co2 & _ & _ & _ & _ & -> & Hrecs).
  destruct product as [| | | | | |p]; try discriminate.
  apply generate_recommendations_shape in Hrecs as (plastic & _ & ->).
  rewrite high_carbon_entry_fired. apply exceeds_py_or.
Qed.

(** C10.  The recommendations of a response contain the high-carbon
    recommendation (priority high, text beginning "High carbon
    footprint") exactly when its [is_high_carbon] flag is true. *)
Theorem high_carbon_recommendation_iff (image_data : list Byte.byte) (code : str)
    (replies : list (option json)) (resp : ProductResponse) (log : list request) :
  run (scan_product USER_AGENT read_barcodes image_data) replies = Some (Ok resp, log)
  \/ run (get_product USER_AGENT code) replies = Some (Ok resp, log) ->
  (exists r, r ∈ recommendations resp /\ priority r = "high"%py /\
             startswith (text r) "High carbon footprint" = true)
  <-> is_high_carbon resp = true.
Proof.
  intros Hrun.
  assert (Hflag : existsb is_high_carbon_entry (recommendations resp)
                  = is_high_carbon resp).
  { assert (Hinv : bare_not_found resp \/
                   exists data rest, replies = Some data :: rest /\ reports_on data resp).
    { destruct Hrun as [Hrun|Hrun]; eauto using scan_product_inv, get_product_inv. }
    destruct Hinv as [(_ & _ & -> & -> & _)|(data & rest & _ & Hrep)];
      [done | eauto using reports_on_high_carbon]. }
  rewrite <- Hflag, existsb_exists. unfold is_high_carbon_entry.
  split.
  - intros (r & Hin & Hp & Ht). exists r. split; [by apply list_elem_of_In|].
    by rewrite Hp, Ht, bool_decide_eq_true_2.
  - intros (r & Hin & [Hp Ht]%andb_true_iff). exists r.
    split; [by apply list_elem_of_In|]. by apply bool_decide_eq_true in Hp.
Qed.

(** *** Products the upstream database does not know *)

Lemma product_missing_spec (data : gmap str json) :
  status_is_zero data \/ product_falsy data ->
  product_missing (JDict data) = Ok true.
Proof.
  unfold product_missing, product_falsy. cbn [get mbind result_bind].
  intros [(st & Hst & Hzero)|Hlacks].
  - destruct (negb (truthy _)); [done|]. by rewrite Hst; cbn; rewrite Hzero.
  - by rewrite Hlacks.
Qed.

(** C6.  When the upstream reply is a JSON object whose status field
    equals 0, or whose product field is absent or falsy, both endpoints
    return a normal response with status "not_found", the queried barcode
    in [gtin] and the message "Product with barcode <code> not found in
    database." (scan-by-image) or "Product with barcode <code> not found."
    (fetch-by-code), without product data; the lookup is the only request
    sent. *)
Theorem upstream_not_found (data : gmap str json) (code : str)
    (image_data : list Byte.byte) (rest : list (option json)) :
  status_is_zero data \/ product_falsy data ->
  (image_data <> [] ->
   extract_gtin_from_image read_barcodes image_data = Some code ->
   exists resp,
     run (scan_product USER_AGENT read_barcodes image_data) (Some (JDict data) :: rest)
     = Some (Ok resp, [lookup_request USER_AGENT code]) /\
     status resp = "not_found"%py /\
     gtin resp = JStr code /\
     message resp
     = JStr ("Product with barcode " +++ code +++ " not found in database.")%py /\
     bare_not_found resp)
  /\ (valid_barcode code ->
      exists resp,
        run (get_product USER_AGENT code) (Some (JDict data) :: rest)
        = Some (Ok resp, [lookup_request USER_AGENT code]) /\
        status resp = "not_found"%py /\
        gtin resp = JStr code /\
        message resp = JStr ("Product with barcode " +++ code +++ " not found.")%py /\
        bare_not_found resp).
Proof.
  intros Hmissing%product_missing_spec. split.
  - intros Himg Hcode. unfold scan_product.
    rewrite bool_decide_eq_false_2 by done. rewrite Hcode.
    apply extract_gtin_spec in Hcode as [_ Hvalid].
    rewrite (valid_barcode_truthy _ Hvalid).
    cbn [negb try_bind fetch_product io_bind run pure].
    rewrite Hmissing. eexists. split; [reflexivity|]. by repeat split.
  - intros Hvalid. unfold get_product.
    apply gtin_guard_spec in Hvalid as ->.
    cbn [negb try_bind fetch_product io_bind run pure].
    rewrite Hmissing. eexists. split; [reflexivity|]. by repeat split.
Qed.

(** *** Alternatives *)

Lemma alternative_eco_score (p : gmap str json) :
  alternative_of (JDict p) !! "eco_score"%py
  = Some (default (JStr "") (p !! "ecoscore_grade"%py)).
Proof. unfold alternative_of. by simplify_map_eq. Qed.

Lemma collect_alternatives_spec (products : list json) (current_score : Z)
    (acc out : list (gmap str json)) :
  collect_alternatives products current_score acc = Ok out ->
  exists chosen,
    chosen `sublist_of` products /\
    out = acc ++ (alternative_of <$> chosen) /\
    Forall (scores_better current_score) chosen.
Proof.
  revert acc. induction products as [|product rest IH]; intros acc.
  - intros [= <-]. exists []. by rewrite app_nil_r.
  - cbn [collect_alternatives].
    intros (alt_eco & Heco & Hrest)%bind_Ok.
    destruct product as [| | | | | |p]; try discriminate.
    cbn [get] in Heco. injection Heco as <-.
    apply bind_Ok in Hrest as (score & Hscore & Hrest).
    destruct (current_score <? score) eqn:Hlt.
    + cbn [get mbind result_bind] in Hrest.
      apply IH in Hrest as (chosen & Hsub & -> & Hbetter).
      exists (JDict p :: chosen). split; [by constructor|].
      split; [by rewrite <- app_assoc|].
      constructor; [|done].
      exists (default (JStr "") (p !! "ecoscore_grade"%py)), score.
      rewrite alternative_eco_score. repeat split; [done|lia].
    + apply IH in Hrest as (chosen & Hsub & -> & Hbetter).
      exists chosen. split; [by constructor|done].
Qed.

Lemma rank_alternatives_spec (data current : json) (alts : list (gmap str json)) :
  rank_alternatives data current = Ok alts ->
  exists current_score chosen,
    get_eco_score_value current = Ok current_score /\
    chosen `sublist_of` search_results (Some data) /\
    alts = alternative_of <$> chosen /\
    Forall (scores_better current_score) chosen.
Proof.
  unfold rank_alternatives.
  intros (current_score & Hcur & Hrest)%bind_Ok.
  apply bind_Ok in Hrest as (found & Hfound & Hrest).
  apply bind_Ok in Hrest as (first & Hfirst & Hrest).
  apply bind_Ok in Hrest as (products & Hproducts & Hrest).
  apply bind_Ok in Hrest as (out & Hout & [= <-]).
  exists current_score.
  apply collect_alternatives_spec in Hout as (chosen & Hsub & -> & Hbetter).
  destruct data as [| | | | | |d]; try discriminate.
  cbn [get] in Hfound. injection Hfound as <-.
  cbn [app search_results].
  destruct (d !! "products"%py) as [found|]; cbn [from_option id] in Hfirst.
  - destruct found as [| | | |s|l|]; try discriminate;
      cbn [slice_to] in Hfirst; injection Hfirst as <-;
      cbn [iter] in Hproducts; injection Hproducts as <-.
    + (* a str in place of the list: no element of it is a dict *)
      assert (chosen = []) as ->.
      { destruct chosen as [|candidate chosen]; [done|].
        apply Forall_cons in Hbetter as [(g & sc & Hg & _) _].
        apply sublist_cons_l in Hsub as (k1 & k2 & Hk & _).
        assert (Hin : candidate ∈ (λ c : N, JStr (Str [c])) <$> take 5 (codepoints s)).
        { change (map ?f ?l) with (f <$> l) in Hk. rewrite Hk. set_solver. }
        apply list_elem_of_fmap in Hin as (c & -> & _). discriminate. }
      exists []. split; [done|]. split; [apply sublist_nil_l|]. by split.
    + exists (take 3 chosen). split; [done|]. split; [|split].
      * etrans; [apply sublist_take|]. etrans; [exact Hsub|]. apply sublist_take.
      * by rewrite fmap_take.
      * by apply Forall_take.
  - cbn in Hfirst. injection Hfirst as <-. cbn in Hproducts. injection Hproducts as <-.
    apply sublist_nil_r in Hsub as ->.
    exists []. split; [done|]. split; [apply sublist_nil_l|]. by split.
Qed.

Lemma fetch_alternatives_spec (category current : json) (replies : list (option json))
    (alts : list (gmap str json)) (log : list request) :
  run (fetch_alternatives USER_AGENT category current) replies = Some (alts, log) ->
  alts = [] \/
  exists data rest, replies = Some data :: rest /\
                    rank_alternatives data current = Ok alts.
Proof.
  unfold fetch_alternatives.
  destruct (negb (truthy category)); [intros [= <- _]; by left|].
  destruct (first_tag category); [|intros [= <- _]; by left].
  destruct replies as [|[data|] rest]; cbn [run]; try discriminate.
  - destruct (rank_alternatives data current) eqn:Hrank; intros [= <- _]; eauto.
  - intros [= <- _]. by left.
Qed.

(** C4.  Every alternative [fetch_alternatives] returns has a mapped
    eco-score strictly above the mapped eco-score of the current product,
    and the alternatives are made, in order, from a sub-sequence of the
    search results. *)
Theorem alternatives_strictly_better (category current : json)
    (replies : list (option json)) (alts : list (gmap str json)) (log : list request) :
  run (fetch_alternatives USER_AGENT category current) replies = Some (alts, log) ->
  (forall alt, alt ∈ alts ->
     exists grade score current_score,
       alt !! "eco_score"%py = Some grade /\
       get_eco_score_value grade = Ok score /\
       get_eco_score_value current = Ok current_score /\
       current_score < score)
  /\ exists chosen,
       chosen `sublist_of` search_results (head replies ≫= id) /\
       alts = alternative_of <$> chosen.
Proof.
  intros [->|(data & rest & -> & Hrank)]%fetch_alternatives_spec.
  - split; [intros alt Hin; by apply elem_of_nil in Hin|].
    exists []. split; [apply sublist_nil_l | done].
  - apply rank_alternatives_spec in Hrank
      as (current_score & chosen & Hcur & Hsub & -> & Hbetter).
    split; [|by exists chosen].
    intros alt (candidate & -> & Hin)%list_elem_of_fmap.
    rewrite Forall_forall in Hbetter.
    destruct (Hbetter candidate Hin) as (grade & score & Hg & Hs & Hlt).
    by exists grade, score, current_score.
Qed.

Lemma run_fetch_alternatives_total (category current : json) (reply : option json)
    (rest : list (option json)) :
  is_Some (run (fetch_alternatives USER_AGENT category current) (reply :: rest)).
Proof.
  unfold fetch_alternatives.
  destruct (negb (truthy category)); [by eexists|].
  destruct (first_tag category); [|by eexists].
  cbn [run]. destruct reply as [data|]; [|by eexists].
  destruct (rank_alternatives data current); by eexists.
Qed.

(** C5.  [fetch_alternatives] always returns, with at most 3
    alternatives; when the category is absent or empty it returns the
    empty list, without a request. *)
Theorem alternatives_at_most_three (category current : json)
    (replies : list (option json)) (alts : list (gmap str json)) (log : list request) :
  run (fetch_alternatives USER_AGENT category current) replies = Some (alts, log) ->
  (length alts <= 3)%nat
  /\ (forall reply rest,
        is_Some (run (fetch_alternatives USER_AGENT category current) (reply :: rest)))
  /\ fetch_alternatives USER_AGENT JNull current = Ret []
  /\ fetch_alternatives USER_AGENT (JStr "") current = Ret [].
Proof.
  intros Hrun. split; [|split; [|split]].
  - apply fetch_alternatives_spec in Hrun as [->|(data & rest & _ & Hrank)];
      [cbn; lia|].
    unfold rank_alternatives in Hrank.
    apply bind_Ok in Hrank as (? & _ & Hrank).
    apply bind_Ok in Hrank as (? & _ & Hrank).
    apply bind_Ok in Hrank as (? & _ & Hrank).
    apply bind_Ok in Hrank as (? & _ & Hrank).
    apply bind_Ok in Hrank as (out & _ & [= <-]).
    rewrite length_take. lia.
  - intros. apply run_fetch_alternatives_total.
  - reflexivity.
  - reflexivity.
Qed.

Lemma unknown_grade_score (grade : json) :
  grade_unknown grade -> get_eco_score_value grade = Ok 50.
Proof.
  unfold get_eco_score_value. intros [->|(s & -> & Hs)]; [reflexivity|].
  destruct (truthy (JStr s)); cbn [method_lower mbind result_bind].
  - by rewrite Hs.
  - reflexivity.
Qed.

Lemma collect_alternatives_total (products : list json) (current_score : Z)
    (acc : list (gmap str json)) :
  forallb candidate_well_typed products = true ->
  exists out, collect_alternatives products current_score acc = Ok out.
Proof.
  revert acc. induction products as [|candidate rest IH]; intros acc; [by eexists|].
  cbn [forallb collect_alternatives]. intros [Hc Hrest]%andb_true_iff.
  destruct candidate as [| | | | | |p]; try discriminate.
  cbn [get mbind result_bind]. cbn [candidate_well_typed] in Hc.
  assert (Hscore : exists score,
             get_eco_score_value (default (JStr "") (p !! "ecoscore_grade"%py))
             = Ok score).
  { unfold get_eco_score_value.
    destruct (p !! "ecoscore_grade"%py) as [[]|]; try discriminate; cbn [from_option id].
    - by eexists.
    - destruct (truthy (JStr s)); by eexists.
    - by eexists. }
  destruct Hscore as [score ->]. cbn [mbind result_bind].
  destruct (current_score <? score); eauto.
Qed.

(** C8.  When the current grade is "d" or "e", a search result whose
    grade is missing or unknown maps to 50, which is strictly better, so
    it is returned as an alternative, with that grade in [eco_score]. *)
Theorem unknown_grade_alternative (current : json) (p data : gmap str json)
    (others : list json) (category : str) (rest : list (option json)) :
  current = JStr "d" \/ current = JStr "e" ->
  grade_unknown (attribute p "ecoscore_grade") ->
  codepoints category <> [] ->
  data !! "products"%py = Some (JList (JDict p :: others)) ->
  forallb candidate_well_typed others = true ->
  get_eco_score_value (attribute p "ecoscore_grade") = Ok 50
  /\ (exists current_score,
        get_eco_score_value current = Ok current_score /\ current_score < 50)
  /\ exists alts log,
       run (fetch_alternatives USER_AGENT (JStr category) current)
           (Some (JDict data) :: rest) = Some (alts, log) /\
       head alts = Some (alternative_of (JDict p)) /\
       alternative_of (JDict p) !! "eco_score"%py
       = Some (attribute p "ecoscore_grade").
Proof.
  intros Hcur Hunknown Hcat Hdata Hothers.
  pose proof (unknown_grade_score _ Hunknown) as Hscore.
  assert (Hlow : exists current_score,
             get_eco_score_value current = Ok current_score /\ current_score < 50).
  { destruct Hcur as [->| ->]; [exists 45 | exists 20]; by split. }
  split; [done|]. split; [done|].
  destruct Hlow as (current_score & Hcs & Hlt).
  unfold fetch_alternatives.
  assert (truthy (JStr category) = true) as ->.
  { cbn. by rewrite bool_decide_eq_false_2. }
  cbn [negb first_tag run].
  assert (Hrank : exists more,
             rank_alternatives (JDict data) current
             = Ok (take 3 (alternative_of (JDict p) :: more))).
  { unfold rank_alternatives. rewrite Hcs. cbn [get mbind result_bind].
    rewrite Hdata. cbn [from_option id slice_to iter mbind result_bind take].
    cbn [collect_alternatives get mbind result_bind].
    unfold attribute in Hscore. rewrite Hscore. cbn [mbind result_bind].
    apply Z.ltb_lt in Hlt as ->.
    destruct (collect_alternatives_total (take 4 others) current_score
                ([] ++ [alternative_of (JDict p)])) as [out Hout].
    { apply forallb_forall. intros x Hx%list_elem_of_In.
      rewrite forallb_forall in Hothers. apply Hothers, list_elem_of_In.
      eapply elem_of_sublist; [exact Hx | apply sublist_take]. }
    unfold alternative_of in Hout at 1. rewrite Hout. cbn [mbind result_bind].
    apply collect_alternatives_spec in Hout as (chosen & _ & -> & _).
    by eexists. }
  destruct Hrank as [more ->].
  eexists _, _. split; [reflexivity|]. split; [reflexivity|].
  apply alternative_eco_score.
Qed.

(** *** Uppercase grades *)

Lemma uppercase_not_listed (letter : N) :
  (65 <= letter <= 90)%N ->
  in_strs (JStr (Str [letter])) ["d"; "e"]%py = false
  /\ in_strs (JStr (Str [letter])) ["a"; "b"]%py = false.
Proof.
  intros Hletter. cbn [in_strs existsb eq_str].
  rewrite !bool_decide_eq_false_2; [done | intros [= ->]; lia ..].
Qed.

Lemma uppercase_lowered (letter : N) :
  (65 <= letter <= 90)%N ->
  get_eco_score_value (JStr (Str [letter]))
  = get_eco_score_value (JStr (Str [(letter + 32)%N])).
Proof.
  intros Hletter. unfold get_eco_score_value.
  assert (lower (Str [letter]) = lower (Str [(letter + 32)%N])) as Hlower.
  { unfold lower, char_lower. cbn [codepoints map concat app].
    repeat match goal with
           | |- context [(?a <? ?b)%N] => destruct (N.ltb_spec a b); try lia
           | |- context [(?a <=? ?b)%N] => destruct (N.leb_spec a b); try lia
           end; cbn [andb]; reflexivity. }
  cbn [truthy codepoints]. rewrite !bool_decide_eq_false_2 by done.
  cbn [negb method_lower mbind result_bind]. by rewrite Hlower.
Qed.

(** C9.  For a product whose eco grade is an uppercase letter, the scorer
    appends neither eco-grade recommendation, although
    [get_eco_score_value] lowercases the grade (and so maps "D" to 45). *)
Theorem uppercase_grade_no_eco_entry (product : gmap str json) (letter : N)
    (figure : json) (recs : list Recommendation) :
  (65 <= letter <= 90)%N ->
  product !! "ecoscore_grade"%py = Some (JStr (Str [letter])) ->
  generate_recommendations (JDict product) figure = Ok recs ->
  (low_eco_entry ∉ recs) /\ (good_eco_entry ∉ recs)
  /\ get_eco_score_value (JStr (Str [letter]))
     = get_eco_score_value (JStr (Str [(letter + 32)%N]))
  /\ get_eco_score_value (JStr "D") = Ok 45.
Proof.
  intros Hletter Hgrade Hrecs.
  split; [|split; [|split; [by apply uppercase_lowered | reflexivity]]].
  all: apply generate_recommendations_shape in Hrecs as (plastic & _ & ->).
  all: unfold eco_rule, attribute; rewrite Hgrade; cbn [from_option id].
  all: destruct (uppercase_not_listed letter Hletter) as [-> ->].
  all: unfold carbon_rule, nutrition_rule.
  all: destruct (exceeds_threshold figure),
         (in_strs (attribute product "nutriscore_grade") ["d"%py; "e"%py]),
         plastic; cbv [assemble omap list_omap id].
  all: rewrite ?elem_of_cons, elem_of_nil; intros Hin.
  all: repeat (destruct Hin as [Hin|Hin]; [discriminate Hin|]); try done.
Qed.

(** *** What the entries of the rules say *)

Lemma prefix_of_app (t post : list N) : prefix_of t (t ++ post) = true.
Proof. induction t as [|c t IH]; [done|]. cbn. by rewrite N.eqb_refl. Qed.

Lemma infix_of_app (pre t post : list N) : infix_of t (pre ++ t ++ post) = true.
Proof.
  induction pre as [|c pre IH].
  - cbn [app]. destruct (t ++ post) eqn:Happ; cbn [infix_of];
      by rewrite <- Happ, prefix_of_app.
  - cbn [app infix_of]. rewrite IH. apply orb_true_r.
Qed.

(** The carbon entry has priority high and shows the figure to two
    decimal places. *)
Lemma carbon_rule_entry (figure : json) (r : Recommendation) :
  carbon_rule figure = Some r ->
  priority r = "high"%py /\ str_in (two_decimals figure) (text r) = true.
Proof.
  unfold carbon_rule. destruct (exceeds_threshold figure); [|discriminate].
  intros [= <-]. split; [reflexivity|].
  unfold str_in, carbon_entry, text, str_app. cbn [codepoints].
  apply infix_of_app.
Qed.

(** The nutrition entry has priority medium and shows the grade uppercased. *)
Lemma nutrition_rule_entry (product : gmap str json) (r : Recommendation) :
  nutrition_rule product = Some r ->
  priority r = "medium"%py
  /\ str_in (uppercased (attribute product "nutriscore_grade")) (text r) = true.
Proof.
  unfold nutrition_rule. destruct (in_strs _ _); [|discriminate].
  intros [= <-]. split; [reflexivity|].
  unfold str_in, nutrition_entry, text, str_app. cbn [codepoints].
  apply infix_of_app.
Qed.

(** The eco-grade and packaging entries and the default entry *)
Lemma fixed_entries_priority :
  priority low_eco_entry = "high"%py /\ priority good_eco_entry = "low"%py
  /\ priority plastic_entry = "medium"%py /\ priority default_entry = "low"%py
  /\ str_in "acceptable" (text default_entry) = true.
Proof. repeat split. Qed.

(** Every int below 2^53 in absolute value is a carbon figure. *)
Lemma small_int_is_figure (z : Z) : Z.abs z < 2 ^ 53 -> is_figure (JInt z) = true.
Proof.
  intros Hz. unfold is_figure, float_of_int.
  destruct (z =? 0) eqn:Hzero; [done|]. apply Z.eqb_neq in Hzero.
  assert (Hlog : Z.log2 (Z.abs z) < 53) by (apply Z.log2_lt_pow2; lia).
  unfold round_53. destruct (Z.leb_spec (Z.log2 (Z.abs z) + 1) 53); [|lia].
  destruct (Z.leb_spec (2 ^ 1024) (Z.abs z)); [|done].
  assert (2 ^ 53 < 2 ^ 1024) by (apply Z.pow_lt_mono_r; lia). lia.
Qed.
End Properties.

(** ** Further properties of the endpoints, the scorer and the ranker *)

Section MoreProperties.
Context `{UnicodeData}.
Variable USER_AGENT : str.
Variable read_barcodes : list Byte.byte -> option (list (list Byte.byte)).

(** *** Running sequenced code *)

Lemma run_io_bind {A B} (m : io A) (k : A -> io B) (replies : list (option json)) :
  run (io_bind m k) replies
  = match run m replies with
    | Some (a, log1) =>
      match run (k a) (drop (length log1) replies) with
      | Some (b, log2) => Some (b, log1 ++ log2)
      | None => None
      end
    | None => None
    end.
Proof.
  revert replies. induction m as [a|rq c IH]; intros replies; cbn [io_bind run].
  - cbn [length app]. rewrite drop_0.
    destruct (run (k a) replies) as [[b log2]|]; reflexivity.
  - destruct replies as [|reply rest]; [done|]. rewrite IH.
    destruct (run (c reply) rest) as [[a log1]|]; [|done]. cbn [length drop].
    destruct (run (k a) (drop (length log1) rest)) as [[b log2]|]; reflexivity.
Qed.

Lemma run_log_length {A} (m : io A) (replies : list (option json)) (a : A)
    (log : list request) :
  run m replies = Some (a, log) -> (length log <= length replies)%nat.
Proof.
  revert replies log. induction m as [a'|rq c IH]; intros replies log; cbn [run].
  - intros [= _ <-]. cbn. lia.
  - destruct replies as [|reply rest]; [discriminate|].
    destruct (run (c reply) rest) as [[a' log']|] eqn:Hrun; [|discriminate].
    intros [= -> <-]. apply IH in Hrun. cbn. lia.
Qed.

Lemma run_try_pure_eq {A B} (r : result A) (k : A -> io (result B))
    (replies : list (option json)) :
  run (try_bind (pure r) k) replies
  = match r with
    | Ok a => run (k a) replies
    | Raise e => Some (Raise e, [])
    end.
Proof. by destruct r. Qed.

(** The search of [fetch_alternatives] needs one reply at most. *)
Lemma fetch_alternatives_run (category grade : json) (replies : list (option json)) :
  run (fetch_alternatives USER_AGENT category grade) replies
  = if negb (truthy category) then Some ([], [])
    else match first_tag category with
         | Raise _ => Some ([], [])
         | Ok tag =>
           match replies with
           | [] => None
           | reply :: _ =>
             Some (match reply with
                   | Some data =>
                     match rank_alternatives data grade with
                     | Ok alts => alts
                     | Raise _ => []
                     end
                   | None => []
                   end, [search_request USER_AGENT tag])
           end
         end.
Proof.
  unfold fetch_alternatives.
  destruct (negb (truthy category)); [done|].
  destruct (first_tag category); [|done].
  destruct replies as [|[data|] rest]; cbn [run]; [done| |done].
  by destruct (rank_alternatives data grade).
Qed.

(** *** The endpoints, run *)

Lemma get_product_run (code : str) (reply : option json) (rest : list (option json)) :
  valid_barcode code ->
  run (get_product USER_AGENT code) (reply :: rest)
  = match reply with
    | None => Some (Raise (HTTPException 500 "Failed to fetch product data"),
                    [lookup_request USER_AGENT code])
    | Some data => conclude USER_AGENT code "." (assess false data) rest
    end.
Proof.
  intros Hvalid. unfold get_product.
  apply gtin_guard_spec in Hvalid as ->.
  cbn [try_bind fetch_product io_bind run]. destruct reply as [data|]; [|reflexivity].
  cbn [io_bind]. fold (@pure bool). unfold assess.
  rewrite run_try_pure_eq.
  destruct (product_missing data) as [[|]|e]; cbn [mbind result_bind conclude];
    [reflexivity| |reflexivity].
  rewrite run_try_pure_eq.
  destruct (getitem data "product") as [product|e]; cbn [mbind result_bind conclude];
    [|reflexivity].
  rewrite run_try_pure_eq.
  destruct product as [| | | | | |p]; try reflexivity.
  cbn [get mbind result_bind].
  rewrite run_try_pure_eq.
  match goal with
  | |- context [match ?r with Ok _ => _ | Raise _ => _ end] =>
    destruct r as [co2|e] eqn:Hco2; cbn [mbind result_bind conclude]; [|reflexivity]
  end.
  rewrite run_try_pure_eq.
  destruct (if negb (is_none co2) then _ else _) as [flag|e];
    cbn [mbind result_bind conclude]; [|reflexivity].
  rewrite run_try_pure_eq.
  destruct (generate_recommendations _ _) as [recs|e];
    cbn [mbind result_bind conclude]; [|reflexivity].
  destruct flag.
  - cbn [pure try_bind io_bind]. rewrite !run_io_bind. cbn [field].
    destruct (run (fetch_alternatives _ _ _) rest) as [[alts log]|]; [|reflexivity].
    cbn [run pure]. by rewrite !app_nil_r.
  - reflexivity.
Qed.

Lemma scan_product_run (image_data : list Byte.byte) (code : str)
    (reply : option json) (rest : list (option json)) :
  image_data <> [] ->
  extract_gtin_from_image read_barcodes image_data = Some code ->
  run (scan_product USER_AGENT read_barcodes image_data) (reply :: rest)
  = match reply with
    | None => Some (Raise (HTTPException 500 "Failed to fetch product data"),
                    [lookup_request USER_AGENT code])
    | Some data => conclude USER_AGENT code " in database." (assess true data) rest
    end.
Proof.
  intros Himg Hcode. unfold scan_product.
  rewrite bool_decide_eq_false_2 by done. rewrite Hcode.
  apply extract_gtin_spec in Hcode as [_ Hvalid].
  rewrite (valid_barcode_truthy _ Hvalid).
  cbn [negb try_bind fetch_product io_bind run]. destruct reply as [data|]; [|reflexivity].
  cbn [io_bind]. fold (@pure bool). unfold assess.
  rewrite run_try_pure_eq.
  destruct (product_missing data) as [[|]|e]; cbn [mbind result_bind conclude];
    [reflexivity| |reflexivity].
  rewrite run_try_pure_eq.
  destruct (getitem data "product") as [product|e]; cbn [mbind result_bind conclude];
    [|reflexivity].
  rewrite run_try_pure_eq.
  destruct product as [| | | | | |p]; try reflexivity.
  cbn [get mbind result_bind].
  rewrite run_try_pure_eq.
  destruct (truthy (default (JDict ∅) (p !! "ecoscore_data"%py))).
  - destruct (get (default (JDict ∅) (p !! "ecoscore_data"%py)) "agribalyse" (JDict ∅))
      as [agribalyse|e]; cbn [mbind result_bind conclude]; [|reflexivity].
    destruct (get agribalyse "co2_total" JNull) as [co2|e];
      cbn [mbind result_bind conclude fst snd]; [|reflexivity].
    rewrite run_try_pure_eq.
    destruct (if negb (is_none co2) then _ else _) as [flag|e];
      cbn [mbind result_bind conclude]; [|reflexivity].
    rewrite run_try_pure_eq.
    destruct (generate_recommendations _ _) as [recs|e];
      cbn [mbind result_bind conclude]; [|reflexivity].
    destruct flag.
    + cbn [pure try_bind io_bind]. rewrite !run_io_bind. cbn [field].
      destruct (run (fetch_alternatives _ _ _) rest) as [[alts log]|]; [|reflexivity].
      cbn [run pure]. by rewrite !app_nil_r.
    + reflexivity.
  - cbn [mbind result_bind conclude fst snd is_none negb].
    rewrite !run_try_pure_eq.
    destruct (generate_recommendations _ _) as [recs|e];
      cbn [mbind result_bind conclude]; reflexivity.
Qed.

Lemma get_product_run_nil (code : str) :
  valid_barcode code -> run (get_product USER_AGENT code) [] = None.
Proof.
  intros Hvalid. unfold get_product. by apply gtin_guard_spec in Hvalid as ->.
Qed.

Lemma scan_product_run_nil (image_data : list Byte.byte) (code : str) :
  image_data <> [] ->
  extract_gtin_from_image read_barcodes image_data = Some code ->
  run (scan_product USER_AGENT read_barcodes image_data) [] = None.
Proof.
  intros Himg Hcode. unfold scan_product.
  rewrite bool_decide_eq_false_2 by done. rewrite Hcode.
  apply extract_gtin_spec in Hcode as [_ Hvalid].
  by rewrite (valid_barcode_truthy _ Hvalid).
Qed.

(** X1.  When the lookup fails (network error, timeout, a body that is
    not JSON), both endpoints raise HTTP 500 "Failed to fetch product
    data" after that one request; nothing is retried. *)
Theorem primary_fetch_failure (image_data : list Byte.byte) (code : str)
    (rest : list (option json)) :
  image_data <> [] ->
  extract_gtin_from_image read_barcodes image_data = Some code ->
  run (scan_product USER_AGENT read_barcodes image_data) (None :: rest)
  = Some (Raise (HTTPException 500 "Failed to fetch product data"),
          [lookup_request USER_AGENT code])
  /\ run (get_product USER_AGENT code) (None :: rest)
     = Some (Raise (HTTPException 500 "Failed to fetch product data"),
             [lookup_request USER_AGENT code]).
Proof.
  intros Himg Hcode. split.
  - by rewrite (scan_product_run _ code).
  - apply extract_gtin_spec in Hcode as [_ Hvalid]. by rewrite get_product_run.
Qed.


(** X3.  A lookup reply that is JSON but not an object makes both endpoints
    raise AttributeError after the lookup: neither a not-found response nor
    an HTTPException. *)
Theorem non_object_reply_raises (image_data : list Byte.byte) (code : str)
    (data : json) (rest : list (option json)) :
  image_data <> [] ->
  extract_gtin_from_image read_barcodes image_data = Some code ->
  is_object data = false ->
  run (scan_product USER_AGENT read_barcodes image_data) (Some data :: rest)
  = Some (Raise AttributeError, [lookup_request USER_AGENT code])
  /\ run (get_product USER_AGENT code) (Some data :: rest)
     = Some (Raise AttributeError, [lookup_request USER_AGENT code]).
Proof.
  intros Himg Hcode Hdata.
  assert (Hassess : forall scanning, assess scanning data = Raise AttributeError).
  { intros scanning. by destruct data. }
  split.
  - by rewrite (scan_product_run _ code), Hassess.
  - apply extract_gtin_spec in Hcode as [_ Hvalid].
    by rewrite get_product_run, Hassess.
Qed.

Lemma fetch_alternatives_log (category grade : json) (replies : list (option json))
    (alts : list (gmap str json)) (log : list request) :
  run (fetch_alternatives USER_AGENT category grade) replies = Some (alts, log) ->
  (log = [] /\ alts = [] /\ (truthy category = false \/ is_str category = false))
  \/ (exists tag, log = [search_request USER_AGENT tag] /\
                  first_tag category = Ok tag /\
                  truthy category = true /\ is_str category = true).
Proof.
  rewrite fetch_alternatives_run.
  destruct (truthy category) eqn:Ht; cbn [negb]; [|intros [= <- <-]; left; auto].
  destruct category; cbn [first_tag is_str]; try (intros [= <- <-]; left; by auto).
  destruct replies; [discriminate|]. intros [= <- <-]. right. eauto.
Qed.

(** Validating the arguments of a success response changes the figure
    only. *)
Lemma model_validate_success (code : str) (product co2 unit : json) (flag : bool)
    (recs : list Recommendation) (alts : list (gmap str json)) (resp : ProductResponse) :
  model_validate (success_response code product co2 unit flag recs alts) = Ok resp ->
  exists v, validate_float co2 = Ok v /\
            resp = success_response code product v unit flag recs alts.
Proof.
  intros Hv. apply model_validate_Ok in Hv.
  destruct resp.
  cbn [success_response status gtin name brand image_url category ingredients_text
       nutri_score eco_score carbon_footprint carbon_footprint_unit is_high_carbon
       recommendations alternatives source message] in Hv.
  destruct Hv as (Hf & -> & -> & -> & -> & -> & -> & -> & -> & -> & -> & -> & -> & -> & -> & ->).
  eexists. split; [exact Hf | reflexivity].
Qed.

(** Validation does not look at the alternatives. *)
Lemma model_validate_alternatives (args resp : ProductResponse)
    (alts : list (gmap str json)) :
  model_validate args = Ok resp ->
  model_validate (with_alternatives alts args) = Ok (with_alternatives alts resp).
Proof.
  unfold model_validate.
  cbn [with_alternatives status gtin name brand image_url category ingredients_text
       nutri_score eco_score carbon_footprint carbon_footprint_unit is_high_carbon
       recommendations alternatives source message].
  repeat match goal with
         | |- context [validate_str ?v] =>
           destruct (validate_str v); cbn [mbind result_bind]; [|discriminate]
         | |- context [validate_float ?v] =>
           destruct (validate_float v); cbn [mbind result_bind]; [|discriminate]
         end.
  by intros [= <-].
Qed.

(** Nor does its outcome depend on the unit, which is always valid. *)
Lemma model_validate_units (code : str) (product co2 u1 u2 : json) (flag : bool)
    (recs : list Recommendation) (alts : list (gmap str json)) (log : list request) :
  validate_str u1 = Ok u1 -> validate_str u2 = Ok u2 ->
  agree (Some (model_validate (success_response code product co2 u1 flag recs alts), log))
        (Some (model_validate (success_response code product co2 u2 flag recs alts), log)).
Proof.
  intros Hu1 Hu2. unfold model_validate.
  cbn [success_response status gtin name brand image_url category ingredients_text
       nutri_score eco_score carbon_footprint carbon_footprint_unit is_high_carbon
       recommendations alternatives source message].
  rewrite Hu1, Hu2.
  repeat match goal with
         | |- context [validate_str (py_or ?a ?b)] =>
           destruct (validate_str (py_or a b)); cbn [mbind result_bind];
           [|constructor]
         | |- context [validate_str (field ?a ?b ?c)] =>
           destruct (validate_str (field a b c)); cbn [mbind result_bind];
           [|constructor]
         | |- context [validate_float ?v] =>
           destruct (validate_float v); cbn [mbind result_bind]; [|constructor]
         end.
  cbn. constructor. by repeat split.
Qed.

(** What [conclude] yields *)
Lemma conclude_inv (code ending : str) (a : result assessed) (rest : list (option json))
    (r : result ProductResponse) (log : list request) :
  conclude USER_AGENT code ending a rest = Some (r, log) ->
  (exists e, a = Raise e /\ r = Raise e /\ log = [lookup_request USER_AGENT code])
  \/ (a = Ok Absent /\ r = Ok (not_found_response code ending) /\
      log = [lookup_request USER_AGENT code])
  \/ (exists product co2 unit flag recs alts search,
        a = Ok (Present product co2 unit flag recs) /\
        r = model_validate (success_response code product co2 unit flag recs alts) /\
        log = lookup_request USER_AGENT code :: search /\
        if flag then
          run (fetch_alternatives USER_AGENT (field product "categories" JNull)
                 (field product "ecoscore_grade" (JStr ""))) rest
          = Some (alts, search)
        else alts = [] /\ search = []).
Proof.
  destruct a as [[|product co2 unit flag recs]|e]; cbn [conclude].
  - intros [= <- <-]. right. left. auto.
  - destruct flag.
    + destruct (run _ rest) as [[alts search]|] eqn:Hrun; [|discriminate].
      intros [= <- <-]. right. right.
      exists product, co2, unit, true, recs, alts, search. auto.
    + intros [= <- <-]. right. right.
      exists product, co2, unit, false, recs, [], []. auto.
  - intros [= <- <-]. left. eauto.
Qed.

(** What [conclude] yields when it ends in a response *)
Lemma conclude_response (code ending : str) (a : result assessed)
    (rest : list (option json)) (resp : ProductResponse) (log : list request) :
  conclude USER_AGENT code ending a rest = Some (Ok resp, log) ->
  (a = Ok Absent /\ resp = not_found_response code ending /\
   log = [lookup_request USER_AGENT code])
  \/ (exists product co2 v unit flag recs alts search,
        a = Ok (Present product co2 unit flag recs) /\
        validate_float co2 = Ok v /\
        resp = success_response code product v unit flag recs alts /\
        log = lookup_request USER_AGENT code :: search /\
        if flag then
          run (fetch_alternatives USER_AGENT (field product "categories" JNull)
                 (field product "ecoscore_grade" (JStr ""))) rest
          = Some (alts, search)
        else alts = [] /\ search = []).
Proof.
  intros [(e & _ & [=] & _)|[(Ha & [= ->] & Hlog)|
      (product & co2 & unit & flag & recs & alts & search & Ha & Hv & Hlog & Hsearch)]]
    %conclude_inv.
  - left. auto.
  - right. symmetry in Hv. apply model_validate_success in Hv as (v & Hf & ->).
    exists product, co2, v, unit, flag, recs, alts, search. auto.
Qed.

(** Either endpoint, once past its input checks, ends as [conclude] says. *)
Lemma endpoint_run (image_data : list Byte.byte) (code : str)
    (replies : list (option json)) (r : result ProductResponse) (log : list request) :
  run (scan_product USER_AGENT read_barcodes image_data) replies = Some (r, log)
  \/ run (get_product USER_AGENT code) replies = Some (r, log) ->
  (log = [] /\
   r <> Raise ValidationError /\
   forall resp, r = Ok resp ->
     resp = short_response "not_found" JNull
       (JStr "No barcode detected. Please ensure the barcode is clearly visible."))
  \/ exists c reply rest,
       (c = code \/ extract_gtin_from_image read_barcodes image_data = Some c) /\
       replies = reply :: rest /\
       match reply with
       | None => r = Raise (HTTPException 500 "Failed to fetch product data") /\
                 log = [lookup_request USER_AGENT c]
       | Some data =>
         exists scanning ending,
           conclude USER_AGENT c ending (assess scanning data) rest = Some (r, log)
       end.
Proof.
  intros [Hrun|Hrun].
  - destruct (decide (image_data = [])) as [->|Himg];
      [injection Hrun as <- <-; left; by repeat split|].
    destruct (extract_gtin_from_image read_barcodes image_data) as [c|] eqn:Hc.
    + destruct replies as [|reply rest];
        [by rewrite (scan_product_run_nil _ c) in Hrun|].
      rewrite (scan_product_run _ c) in Hrun by done.
      right. exists c, reply, rest. split; [by right|]. split; [done|].
      destruct reply; [eauto | by injection Hrun as <- <-].
    + unfold scan_product in Hrun. rewrite bool_decide_eq_false_2, Hc in Hrun by done.
      injection Hrun as <- <-. left. split; [done|]. split; [done|].
      by intros resp [= <-].
  - destruct (negb (isdigit code) || negb (in_ints (len code) [8; 12; 13; 14]))
      eqn:Hguard.
    + unfold get_product in Hrun. rewrite Hguard in Hrun.
      injection Hrun as <- <-. left. by repeat split.
    + apply gtin_guard_spec in Hguard.
      destruct replies as [|reply rest]; [by rewrite get_product_run_nil in Hrun|].
      rewrite get_product_run in Hrun by done.
      right. exists code, reply, rest. split; [by left|]. split; [done|].
      destruct reply; [eauto | by injection Hrun as <- <-].
Qed.

(** X4.  Whatever the replies and however it ends, an endpoint sends no
    request, or the lookup for the barcode, or the lookup followed by one
    search; each request carries the configured User-Agent.  An exception
    ends the endpoint before the search, except for the ValidationError of
    a response whose arguments are refused, which comes last. *)
Theorem requests_sent (image_data : list Byte.byte) (code : str)
    (replies : list (option json)) (r : result ProductResponse) (log : list request) :
  run (scan_product USER_AGENT read_barcodes image_data) replies = Some (r, log)
  \/ run (get_product USER_AGENT code) replies = Some (r, log) ->
  (log = []
   \/ exists c, (c = code \/ extract_gtin_from_image read_barcodes image_data = Some c)
                /\ sends USER_AGENT c log)
  /\ Forall (fun rq => headers rq = [("User-Agent"%py, USER_AGENT)]) log
  /\ (forall e, r = Raise e -> e <> ValidationError -> (length log <= 1)%nat)
  /\ (r = Raise ValidationError -> log <> []).
Proof.
  intros [(-> & Hne & _)|(c & reply & rest & Hc & -> & Hend)]%endpoint_run.
  { split; [by left|]. split; [constructor|]. split; [cbn; lia | done]. }
  assert (Hsends : sends USER_AGENT c log /\
                   (forall e, r = Raise e -> e <> ValidationError ->
                              (length log <= 1)%nat)).
  { destruct reply as [data|]; [|destruct Hend as [-> ->]; split; [by left | cbn; lia]].
    destruct Hend as (scanning & ending & Hend).
    apply conclude_inv in Hend
      as [(e & _ & -> & ->)|[(_ & -> & ->)|
          (product & co2 & unit & flag & recs & alts & search & _ & -> & -> & Hsearch)]].
    - split; [by left | cbn; lia].
    - split; [by left | discriminate].
    - split.
      + destruct flag.
        * apply fetch_alternatives_log in Hsearch
            as [(-> & _)|(tag & -> & _)]; [by left | right; eauto].
        * destruct Hsearch as [_ ->]. by left.
      + intros e He%model_validate_Raise Hne. done. }
  destruct Hsends as [Hsends Hraise]. split; [right; eauto|]. split; [|split; [done|]].
  - destruct Hsends as [->|[tag ->]]; repeat constructor.
  - intros _. by destruct Hsends as [->|[tag ->]].
Qed.


Lemma conclude_degrades (code ending : str) (a : result assessed)
    (reply : option json) (rest : list (option json))
    (resp : ProductResponse) (log : list request) :
  conclude USER_AGENT code ending a (reply :: rest) = Some (Ok resp, log) ->
  forall reply' rest',
  exists alts',
    conclude USER_AGENT code ending a (reply' :: rest')
    = Some (Ok (with_alternatives alts' resp), log)
    /\ (reply' = None -> alts' = []).
Proof.
  destruct a as [[|product co2 unit flag recs]|e]; cbn [conclude]; [| |discriminate].
  - intros [= <- <-] reply' rest'. by exists [].
  - assert (Hsame : forall alts alts',
               model_validate (success_response code product co2 unit flag recs alts)
               = Ok resp ->
               model_validate (success_response code product co2 unit flag recs alts')
               = Ok (with_alternatives alts' resp)).
    { intros alts alts' Hv. exact (model_validate_alternatives _ _ alts' Hv). }
    destruct flag.
    + rewrite !fetch_alternatives_run. intros Hrun reply' rest'.
      rewrite fetch_alternatives_run.
      destruct (negb (truthy (field product "categories" JNull)));
        [injection Hrun as Hv <-; exists []; by rewrite (Hsame _ [] Hv)|].
      destruct (first_tag (field product "categories" JNull));
        [|injection Hrun as Hv <-; exists []; by rewrite (Hsame _ [] Hv)].
      injection Hrun as Hv <-. eexists. split; [by rewrite (Hsame _ _ Hv)|]. by intros ->.
    + intros [= Hv <-] reply' rest'. exists []. by rewrite (Hsame _ [] Hv).
Qed.

(** X6.  The outcome of the search changes nothing but the alternatives:
    with any other search reply the endpoint sends the same requests and
    returns the same response with other alternatives, and with a failed
    search it returns it with none. *)
Theorem search_failure_degrades (endpoint : io (result ProductResponse))
    (image_data : list Byte.byte) (code : str) (data : json) (reply : option json)
    (rest : list (option json)) (resp : ProductResponse) (log : list request) :
  endpoint = scan_product USER_AGENT read_barcodes image_data
  \/ endpoint = get_product USER_AGENT code ->
  run endpoint (Some data :: reply :: rest) = Some (Ok resp, log) ->
  forall reply' rest',
  exists alts',
    run endpoint (Some data :: reply' :: rest')
    = Some (Ok (with_alternatives alts' resp), log)
    /\ (reply' = None -> alts' = []).
Proof.
  intros [-> | ->] Hrun reply' rest'.
  - destruct (decide (image_data = [])) as [->|Himg]; [discriminate|].
    destruct (extract_gtin_from_image read_barcodes image_data) as [c|] eqn:Hc.
    + rewrite (scan_product_run _ c) in Hrun |- * by done.
      by eapply conclude_degrades.
    + unfold scan_product in Hrun |- *.
      rewrite bool_decide_eq_false_2, Hc in Hrun |- * by done.
      injection Hrun as <- <-. by exists [].
  - destruct (negb (isdigit code) || negb (in_ints (len code) [8; 12; 13; 14]))
      eqn:Hguard.
    + unfold get_product in Hrun. rewrite Hguard in Hrun. discriminate.
    + apply gtin_guard_spec in Hguard.
      rewrite get_product_run in Hrun |- * by done. by eapply conclude_degrades.
Qed.

(** What a [Present] assessment holds *)
Lemma assess_present (scanning : bool) (data product co2 unit : json) (flag : bool)
    (recs : list Recommendation) :
  assess scanning data = Ok (Present product co2 unit flag recs) ->
  exists p,
    product = JDict p /\
    getitem data "product" = Ok product /\
    co2 = default JNull (nested_co2_total product) /\
    unit = (if truthy (if scanning then field product "ecoscore_data" (JDict ∅) else co2)
            then JStr "kg CO2e/kg" else JNull) /\
    (co2 <> JNull -> truthy (field product "ecoscore_data" (JDict ∅)) = true) /\
    generate_recommendations product (py_or co2 (JInt 0)) = Ok recs.
Proof.
  unfold assess. intros (missing & _ & Hrest)%bind_Ok.
  destruct missing; [discriminate|].
  apply bind_Ok in Hrest as (product' & Hproduct & Hrest).
  apply bind_Ok in Hrest as (ecoscore_data & Heco & Hrest).
  apply bind_Ok in Hrest as (co2' & Hco2 & Hrest).
  apply bind_Ok in Hrest as (flag' & _ & Hrest).
  apply bind_Ok in Hrest as (recs' & Hrecs & [= <- <- <- <- <-]).
  destruct product' as [| | | | | |p]; try discriminate.
  exists p. cbn [get field] in *. injection Heco as <-.
  pose proof (extracted_is_nested (JDict p) _ co2' eq_refl Hco2) as Hnested.
  repeat split; try done.
  intros Hnonnull. destruct (truthy (default (JDict ∅) (p !! "ecoscore_data"%py)));
    [done|]. by injection Hco2 as <-.
Qed.

Lemma assess_agree (data : json) :
  match assess true data, assess false data with
  | Raise e1, Raise e2 => e1 = e2
  | Ok Absent, Ok Absent => True
  | Ok (Present p1 c1 u1 f1 r1), Ok (Present p2 c2 u2 f2 r2) =>
    p1 = p2 /\ c1 = c2 /\ f1 = f2 /\ r1 = r2 /\
    validate_str u1 = Ok u1 /\ validate_str u2 = Ok u2
  | _, _ => False
  end.
Proof.
  unfold assess.
  destruct (product_missing data) as [[|]|e]; cbn [mbind result_bind]; [done| |done].
  destruct (getitem data "product") as [product|e]; cbn [mbind result_bind]; [|done].
  destruct (get product "ecoscore_data" (JDict ∅)) as [ecoscore_data|e];
    cbn [mbind result_bind]; [|done].
  destruct (if truthy ecoscore_data then _ else Ok JNull) as [co2|e];
    cbn [mbind result_bind]; [|done].
  destruct (if negb (is_none co2) then _ else Ok false) as [flag|e];
    cbn [mbind result_bind]; [|done].
  destruct (generate_recommendations product (py_or co2 (JInt 0))); [|done].
  cbn [mbind result_bind]. repeat split; try done.
  - by destruct (truthy ecoscore_data).
  - by destruct (truthy co2).
Qed.

(** X7.  Scanning an image whose barcode is [code] does what fetching
    [code] does: for the same replies both endpoints send the same requests
    and either run short of replies, raise the same exception, or return
    responses that differ at most in the message and the carbon unit. *)
Theorem endpoints_agree (image_data : list Byte.byte) (code : str)
    (replies : list (option json)) :
  image_data <> [] ->
  extract_gtin_from_image read_barcodes image_data = Some code ->
  agree (run (scan_product USER_AGENT read_barcodes image_data) replies)
        (run (get_product USER_AGENT code) replies).
Proof.
  intros Himg Hcode.
  pose proof Hcode as [_ Hvalid]%extract_gtin_spec.
  destruct replies as [|[data|] rest].
  - rewrite (scan_product_run_nil _ code), get_product_run_nil by done. constructor.
  - rewrite (scan_product_run _ code), get_product_run by done.
    pose proof (assess_agree data) as Hagree.
    destruct (assess true data) as [[|p1 c1 u1 f1 r1]|e1],
      (assess false data) as [[|p2 c2 u2 f2 r2]|e2]; try done; cbn [conclude].
    + constructor. by repeat split.
    + destruct Hagree as (-> & -> & -> & -> & Hu1 & Hu2). destruct f2.
      * destruct (run _ rest) as [[alts log]|]; [|constructor].
        by apply model_validate_units.
      * by apply model_validate_units.
    + subst. constructor.
  - rewrite (scan_product_run _ code), get_product_run by done. constructor.
Qed.

(** A success response of either endpoint, taken apart *)
Lemma conclude_success (c ending : str) (a : result assessed) (rest : list (option json))
    (resp : ProductResponse) (log : list request) :
  conclude USER_AGENT c ending a rest = Some (Ok resp, log) ->
  status resp = "success"%py ->
  exists product co2 v unit flag recs alts,
    a = Ok (Present product co2 unit flag recs) /\
    validate_float co2 = Ok v /\
    resp = success_response c product v unit flag recs alts.
Proof.
  intros Hconclude Hstatus.
  apply conclude_response in Hconclude
    as [(_ & -> & _)|
        (product & co2 & v & unit & flag & recs & alts & search & Ha & Hv & -> & _)];
    [discriminate|].
  by exists product, co2, v, unit, flag, recs, alts.
Qed.

Lemma scan_success_inv (image_data : list Byte.byte) (data : json)
    (rest : list (option json)) (resp : ProductResponse) (log : list request) :
  run (scan_product USER_AGENT read_barcodes image_data) (Some data :: rest)
  = Some (Ok resp, log) ->
  status resp = "success"%py ->
  exists c product co2 v unit flag recs alts,
    extract_gtin_from_image read_barcodes image_data = Some c /\
    assess true data = Ok (Present product co2 unit flag recs) /\
    validate_float co2 = Ok v /\
    resp = success_response c product v unit flag recs alts.
Proof.
  intros Hrun Hstatus.
  destruct (decide (image_data = [])) as [->|Himg]; [discriminate|].
  destruct (extract_gtin_from_image read_barcodes image_data) as [c|] eqn:Hc.
  - rewrite (scan_product_run _ c) in Hrun by done.
    apply conclude_success in Hrun
      as (product & co2 & v & unit & flag & recs & alts & Ha & Hv & ->); [|done].
    by exists c, product, co2, v, unit, flag, recs, alts.
  - unfold scan_product in Hrun.
    rewrite bool_decide_eq_false_2, Hc in Hrun by done.
    injection Hrun as <- <-. discriminate.
Qed.

Lemma get_success_inv (code : str) (data : json)
    (rest : list (option json)) (resp : ProductResponse) (log : list request) :
  run (get_product USER_AGENT code) (Some data :: rest) = Some (Ok resp, log) ->
  status resp = "success"%py ->
  exists product co2 v unit flag recs alts,
    assess false data = Ok (Present product co2 unit flag recs) /\
    validate_float co2 = Ok v /\
    resp = success_response code product v unit flag recs alts.
Proof.
  intros Hrun Hstatus.
  destruct (negb (isdigit code) || negb (in_ints (len code) [8; 12; 13; 14]))
    eqn:Hguard.
  - unfold get_product in Hrun. rewrite Hguard in Hrun. discriminate.
  - apply gtin_guard_spec in Hguard. rewrite get_product_run in Hrun by done.
    by apply conclude_success in Hrun.
Qed.

(** X8.  The two endpoints set the carbon unit differently: scan-by-image
    reports "kg CO2e/kg" as soon as the product's [ecoscore_data] is
    truthy, even without a figure; fetch-by-code reports it only when the
    figure itself is truthy, so not for a figure of 0.  A figure other than
    [None] always comes with a unit from scan-by-image. *)
Theorem carbon_unit_reported (image_data : list Byte.byte) (code : str) (data : json)
    (rest1 rest2 : list (option json)) (r1 r2 : ProductResponse)
    (log1 log2 : list request) :
  run (scan_product USER_AGENT read_barcodes image_data) (Some data :: rest1)
  = Some (Ok r1, log1) ->
  run (get_product USER_AGENT code) (Some data :: rest2) = Some (Ok r2, log2) ->
  status r1 = "success"%py ->
  exists product,
    getitem data "product" = Ok product /\
    carbon_footprint_unit r1
    = (if truthy (field product "ecoscore_data" (JDict ∅))
       then JStr "kg CO2e/kg" else JNull) /\
    carbon_footprint_unit r2
    = (if truthy (carbon_footprint r2) then JStr "kg CO2e/kg" else JNull) /\
    (carbon_footprint r1 <> JNull -> carbon_footprint_unit r1 = JStr "kg CO2e/kg").
Proof.
  intros Hscan Hget Hstatus.
  apply scan_success_inv in Hscan
    as (c1 & product & co2 & v & unit & flag & recs & alts & Hc1 & Ha1 & Hv & ->);
    [|done].
  pose proof (assess_agree data) as Hagree. rewrite Ha1 in Hagree.
  destruct (assess false data) as [[|p2 c2 u2 f2 rs2]|e] eqn:Ha2; try done.
  destruct Hagree as (<- & <- & <- & <- & _).
  assert (r2 = success_response code product v u2 flag recs (alternatives r2)) as ->.
  { destruct (negb (isdigit code) || negb (in_ints (len code) [8; 12; 13; 14]))
      eqn:Hguard.
    - unfold get_product in Hget. rewrite Hguard in Hget. discriminate.
    - apply gtin_guard_spec in Hguard. rewrite get_product_run, Ha2 in Hget by done.
      apply conclude_response in Hget
        as [([=] & _)|
            (? & ? & v' & ? & ? & ? & ? & ? & [= <- <- <- <- <-] & Hv' & -> & _)].
      rewrite Hv in Hv'. injection Hv' as <-. reflexivity. }
  apply assess_present in Ha1 as (p & -> & Hproduct & _ & -> & Hco2 & _).
  apply assess_present in Ha2 as (p' & _ & _ & _ & -> & _).
  exists (JDict p). cbn [success_response carbon_footprint carbon_footprint_unit].
  rewrite (validate_float_truthy _ _ Hv).
  repeat split; try done. intros Hnonnull. rewrite Hco2; [done|].
  intros ->. by injection Hv as <-.
Qed.

(** X9.  A success response echoes the queried barcode and the product's
    attributes: the name is [product_name], or when that is missing or
    empty [product_name_en], or when that key is missing "Unknown Product";
    the brand is [brands], "Unknown Brand" only when the key is missing;
    the other attributes are passed on, [None] when missing; the source is
    "OpenFoodFacts" and there is no message. *)
Theorem success_response_fields (image_data : list Byte.byte) (code : str) (data : json)
    (rest : list (option json)) (resp : ProductResponse) (log : list request) :
  run (scan_product USER_AGENT read_barcodes image_data) (Some data :: rest)
  = Some (Ok resp, log)
  \/ run (get_product USER_AGENT code) (Some data :: rest) = Some (Ok resp, log) ->
  status resp = "success"%py ->
  exists c p,
    (c = code \/ extract_gtin_from_image read_barcodes image_data = Some c) /\
    getitem data "product" = Ok (JDict p) /\
    gtin resp = JStr c /\
    name resp = py_or (default JNull (p !! "product_name"%py))
                      (default (JStr "Unknown Product") (p !! "product_name_en"%py)) /\
    brand resp = default (JStr "Unknown Brand") (p !! "brands"%py) /\
    image_url resp = default JNull (p !! "image_front_url"%py) /\
    category resp = default JNull (p !! "categories"%py) /\
    ingredients_text resp = default JNull (p !! "ingredients_text_en"%py) /\
    nutri_score resp = default JNull (p !! "nutriscore_grade"%py) /\
    eco_score resp = default JNull (p !! "ecoscore_grade"%py) /\
    source resp = JStr "OpenFoodFacts" /\
    message resp = JNull.
Proof.
  intros Hrun Hstatus.
  assert (Hinv : exists c scanning product co2 v unit flag recs alts,
             (c = code \/ extract_gtin_from_image read_barcodes image_data = Some c) /\
             assess scanning data = Ok (Present product co2 unit flag recs) /\
             resp = success_response c product v unit flag recs alts).
  { destruct Hrun as [Hrun|Hrun].
    - apply scan_success_inv in Hrun
        as (c & product & co2 & v & unit & flag & recs & alts & Hc & Ha & _ & ->);
        [|done].
      exists c, true, product, co2, v, unit, flag, recs, alts. auto.
    - apply get_success_inv in Hrun
        as (product & co2 & v & unit & flag & recs & alts & Ha & _ & ->); [|done].
      exists code, false, product, co2, v, unit, flag, recs, alts. auto. }
  destruct Hinv as (c & scanning & product & co2 & v & unit & flag & recs & alts
                    & Hc & Ha & ->).
  apply assess_present in Ha as (p & -> & Hproduct & _).
  exists c, p. by repeat split.
Qed.

(** *** More on the scorer *)

(** With a well-typed figure the scorer ends as its packaging test does. *)
Lemma generate_recommendations_packaging (product : gmap str json) (figure : json) :
  is_figure figure = true ->
  generate_recommendations (JDict product) figure
  = match plastic_found product with
    | Ok plastic =>
      Ok (assemble [carbon_rule figure; eco_rule product; nutrition_rule product;
                    if plastic then Some plastic_entry else None])
    | Raise e => Raise e
    end.
Proof.
  intros Hfig.
  unfold generate_recommendations, plastic_found.
  cbn [get mbind result_bind].
  pose proof (carbon_branch_total figure Hfig) as Hc.
  unfold carbon_entry in Hc. cbn [mbind result_bind] in Hc.
  rewrite Hc. clear Hc.
  unfold eco_rule, nutrition_rule, attribute.
  destruct (in_strs (default (JStr "") (product !! "ecoscore_grade"%py))
              ["d"%py; "e"%py]);
    destruct (in_strs (default (JStr "") (product !! "ecoscore_grade"%py))
                ["a"%py; "b"%py]);
    (destruct (in_strs (default (JStr "") (product !! "nutriscore_grade"%py)) _) eqn:Hn;
     [ destruct (in_strs_str _ _ Hn) as [g Hg]; rewrite Hg | ]);
    cbn [method_upper mbind result_bind];
    (destruct (iter (default (JList []) (product !! "packaging_tags"%py)))
       as [tags|e]; cbn [mbind result_bind]; [|reflexivity]);
    (destruct (any_plastic tags) as [plastic|e]; cbn [mbind result_bind];
     [|reflexivity]);
    destruct (carbon_rule figure), plastic; reflexivity.
Qed.

Lemma recommendations_length (product : gmap str json) (figure : json)
    (recs : list Recommendation) :
  generate_recommendations (JDict product) figure = Ok recs ->
  (1 <= length recs <= 4)%nat.
Proof.
  intros (plastic & _ & ->)%generate_recommendations_shape.
  unfold carbon_rule, eco_rule, nutrition_rule.
  destruct (exceeds_threshold figure),
    (in_strs (attribute product "ecoscore_grade") ["d"%py; "e"%py]),
    (in_strs (attribute product "ecoscore_grade") ["a"%py; "b"%py]),
    (in_strs (attribute product "nutriscore_grade") ["d"%py; "e"%py]),
    plastic; cbv [assemble omap list_omap id]; cbn [length]; lia.
Qed.

(** X10.  Whenever the scorer returns, it returns between one and four
    recommendations, without repetition, each with priority low, medium or
    high. *)
Theorem recommendations_bounds (product : gmap str json) (figure : json)
    (recs : list Recommendation) :
  generate_recommendations (JDict product) figure = Ok recs ->
  (1 <= length recs <= 4)%nat
  /\ NoDup recs
  /\ Forall (fun r => priority r = "low"%py \/ priority r = "medium"%py
                      \/ priority r = "high"%py) recs.
Proof.
  intros (plastic & _ & ->)%generate_recommendations_shape.
  unfold carbon_rule, eco_rule, nutrition_rule.
  destruct (exceeds_threshold figure),
    (in_strs (attribute product "ecoscore_grade") ["d"%py; "e"%py]),
    (in_strs (attribute product "ecoscore_grade") ["a"%py; "b"%py]),
    (in_strs (attribute product "nutriscore_grade") ["d"%py; "e"%py]),
    plastic; cbv [assemble omap list_omap id].
  all: split; [cbn [length]; lia|].
  all: split;
         [|repeat (apply Forall_cons_2;
                   [first [by left | by right; left | by right; right]|]);
           apply Forall_nil_2].
  all: repeat (apply NoDup_cons_2;
               [rewrite ?elem_of_cons, elem_of_nil; intros Hin;
                repeat (destruct Hin as [Hin|Hin]; [discriminate Hin|]); done|]).
  all: apply NoDup_nil_2.
Qed.

(** X11.  The default "acceptable" recommendation is returned only on its
    own, and the two eco-grade recommendations never come together. *)
Theorem default_entry_alone (product : gmap str json) (figure : json)
    (recs : list Recommendation) :
  generate_recommendations (JDict product) figure = Ok recs ->
  (default_entry ∈ recs -> recs = [default_entry])
  /\ ~ (low_eco_entry ∈ recs /\ good_eco_entry ∈ recs).
Proof.
  intros (plastic & _ & ->)%generate_recommendations_shape.
  unfold carbon_rule, eco_rule, nutrition_rule.
  destruct (exceeds_threshold figure),
    (in_strs (attribute product "ecoscore_grade") ["d"%py; "e"%py]),
    (in_strs (attribute product "ecoscore_grade") ["a"%py; "b"%py]),
    (in_strs (attribute product "nutriscore_grade") ["d"%py; "e"%py]),
    plastic; cbv [assemble omap list_omap id].
  all: split;
         [rewrite ?elem_of_cons, elem_of_nil; intros Hin;
          repeat (destruct Hin as [Hin|Hin]; [discriminate Hin|]); done
         |rewrite ?elem_of_cons, ?elem_of_nil; intros [Hlow Hgood]].
  all: try (repeat (destruct Hgood as [Hgood|Hgood]; [discriminate Hgood|]); done).
  all: repeat (destruct Hlow as [Hlow|Hlow]; [discriminate Hlow|]); done.
Qed.

(** X12.  A product whose [packaging_tags] is present but is null, a bool
    or a number makes the scorer raise TypeError (the default [[]] only
    replaces a missing key). *)
Theorem packaging_not_iterable (product : gmap str json) (figure v : json) :
  is_figure figure = true ->
  product !! "packaging_tags"%py = Some v ->
  not_iterable v = true ->
  generate_recommendations (JDict product) figure = Raise TypeError.
Proof.
  intros Hfig Htags Hv. rewrite generate_recommendations_packaging by done.
  unfold plastic_found. rewrite Htags. by destruct v.
Qed.

Lemma any_plastic_hit (pre post : list json) (hit : json) :
  forallb is_str pre = true ->
  mentions_plastic hit = true ->
  any_plastic (pre ++ hit :: post) = Ok true.
Proof.
  intros Hpre Hhit. induction pre as [|tag pre IH]; cbn [app any_plastic].
  - destruct hit; try discriminate. cbn [method_lower mbind result_bind].
    cbn [mentions_plastic] in Hhit. by rewrite Hhit.
  - cbn [forallb] in Hpre. apply andb_true_iff in Hpre as [Htag Hpre].
    destruct tag; try discriminate. cbn [method_lower mbind result_bind].
    rewrite (IH Hpre). by destruct (str_in "plastic" (lower s)).
Qed.

Lemma any_plastic_bad (pre post : list json) (bad : json) :
  forallb is_str pre = true ->
  existsb mentions_plastic pre = false ->
  is_str bad = false ->
  any_plastic (pre ++ bad :: post) = Raise AttributeError.
Proof.
  intros Hpre Hnone Hbad. induction pre as [|tag pre IH]; cbn [app any_plastic].
  - by destruct bad.
  - cbn [forallb existsb] in Hpre, Hnone.
    apply andb_true_iff in Hpre as [Htag Hpre].
    apply orb_false_iff in Hnone as [Htag' Hnone].
    destruct tag; try discriminate. cbn [method_lower mbind result_bind].
    cbn [mentions_plastic] in Htag'. rewrite Htag'. auto.
Qed.

(** X13.  The packaging test stops at the first tag that mentions plastic:
    the plastic recommendation is then returned whatever follows that tag,
    even values that are not strs; a value that is not a str before any
    such tag makes the scorer raise AttributeError. *)
Theorem packaging_short_circuit (product : gmap str json) (figure : json)
    (pre post : list json) (tag : json) :
  is_figure figure = true ->
  product !! "packaging_tags"%py = Some (JList (pre ++ tag :: post)) ->
  forallb is_str pre = true ->
  (mentions_plastic tag = true ->
   exists recs, generate_recommendations (JDict product) figure = Ok recs
                /\ plastic_entry ∈ recs)
  /\ (existsb mentions_plastic pre = false -> is_str tag = false ->
      generate_recommendations (JDict product) figure = Raise AttributeError).
Proof.
  intros Hfig Htags Hpre. rewrite generate_recommendations_packaging by done.
  unfold plastic_found. rewrite Htags. cbn [from_option id iter mbind result_bind].
  split.
  - intros Hhit. rewrite any_plastic_hit by done. eexists. split; [reflexivity|].
    unfold carbon_rule, eco_rule, nutrition_rule.
    destruct (exceeds_threshold figure),
      (in_strs (attribute product "ecoscore_grade") ["d"%py; "e"%py]),
      (in_strs (attribute product "ecoscore_grade") ["a"%py; "b"%py]),
      (in_strs (attribute product "nutriscore_grade") ["d"%py; "e"%py]);
      cbv [assemble omap list_omap id]; rewrite ?elem_of_cons; tauto.
  - intros Hnone Hbad. by rewrite any_plastic_bad.
Qed.

(** *** More on the ranker *)

Lemma rank_alternatives_take (d : gmap str json) (l : list json) (current : json) :
  d !! "products"%py = Some (JList l) ->
  rank_alternatives (JDict d) current
  = rank_alternatives (JDict (<["products"%py := JList (take 5 l)]> d)) current.
Proof.
  intros Hd. unfold rank_alternatives. cbn [get].
  rewrite Hd, lookup_insert_eq.
  cbn [from_option id slice_to iter mbind result_bind].
  by rewrite take_take.
Qed.

(** X14.  Only the first five search results count: cutting the list of
    the reply down to them changes neither the alternatives nor the
    requests. *)
Theorem only_first_five (category current : json) (d : gmap str json)
    (l : list json) (rest : list (option json)) :
  d !! "products"%py = Some (JList l) ->
  run (fetch_alternatives USER_AGENT category current) (Some (JDict d) :: rest)
  = run (fetch_alternatives USER_AGENT category current)
        (Some (JDict (<["products"%py := JList (take 5 l)]> d)) :: rest).
Proof.
  intros Hd. rewrite !fetch_alternatives_run.
  by rewrite (rank_alternatives_take d l current Hd).
Qed.

Lemma collect_alternatives_raises (products : list json) (q : json)
    (current_score : Z) (acc : list (gmap str json)) :
  q ∈ products -> is_object q = false ->
  exists e, collect_alternatives products current_score acc = Raise e.
Proof.
  intros Hin Hq. revert acc.
  induction products as [|product rest IH]; intros acc; [by apply elem_of_nil in Hin|].
  cbn [collect_alternatives].
  destruct (get product "ecoscore_grade" (JStr "")) as [alt_eco|e] eqn:Hget;
    cbn [mbind result_bind]; [|by eexists].
  destruct product as [| | | | | |p]; try discriminate.
  apply elem_of_cons in Hin as [->|Hin]; [discriminate|].
  destruct (get_eco_score_value alt_eco) as [score|e]; cbn [mbind result_bind];
    [|by eexists].
  destruct (current_score <? score); cbn [get mbind result_bind]; by apply IH.
Qed.

(** X15.  One search result among the first five that is not a JSON object
    loses all alternatives, also those found before it. *)
Theorem malformed_candidate_empties (category current : json) (d : gmap str json)
    (l : list json) (q : json) (rest : list (option json)) :
  d !! "products"%py = Some (JList l) ->
  q ∈ take 5 l ->
  is_object q = false ->
  exists log,
    run (fetch_alternatives USER_AGENT category current) (Some (JDict d) :: rest)
    = Some ([], log).
Proof.
  intros Hd Hin Hq. rewrite fetch_alternatives_run.
  destruct (negb (truthy category)); [by eexists|].
  destruct (first_tag category); [|by eexists].
  assert (Hrank : exists e, rank_alternatives (JDict d) current = Raise e).
  { unfold rank_alternatives.
    destruct (get_eco_score_value current) as [c|e]; cbn [mbind result_bind];
      [|by eexists].
    cbn [get mbind result_bind]. rewrite Hd.
    cbn [from_option id slice_to iter mbind result_bind].
    destruct (collect_alternatives_raises (take 5 l) q c [] Hin Hq) as [e ->].
    by eexists. }
  destruct Hrank as [e ->]. by eexists.
Qed.

Lemma scores_values (key : str) (v : Z) :
  scores !! key = Some v -> v = 95 \/ v = 80 \/ v = 65 \/ v = 45 \/ v = 20.
Proof.
  unfold scores. rewrite !lookup_insert_Some, lookup_singleton_Some. intuition.
Qed.

Lemma eco_score_cases (grade : json) (v : Z) :
  get_eco_score_value grade = Ok v ->
  v = 50 \/ exists s, grade = JStr s /\ scores !! lower s = Some v.
Proof.
  unfold get_eco_score_value.
  destruct (truthy grade) eqn:Ht; cbn [mbind result_bind]; [|intros [= <-]; by left].
  destruct grade; try discriminate. cbn [method_lower mbind result_bind].
  destruct (scores !! lower s) as [v'|] eqn:Hs; intros [= <-]; [right; eauto | by left].
Qed.

(** X16.  [get_eco_score_value] never fails on a str, on [None] or on any
    other falsy value, and then returns a score between 20 and 95 (50 for a
    falsy value); on a truthy value that is not a str it raises
    AttributeError. *)
Theorem eco_score_value_behaviour (grade : json) :
  (is_str grade = true \/ truthy grade = false ->
   exists v, get_eco_score_value grade = Ok v /\ 20 <= v <= 95)
  /\ (truthy grade = false -> get_eco_score_value grade = Ok 50)
  /\ (truthy grade = true -> is_str grade = false ->
      get_eco_score_value grade = Raise AttributeError).
Proof.
  split; [|split].
  - intros Hgrade.
    assert (Hok : exists v, get_eco_score_value grade = Ok v).
    { unfold get_eco_score_value. destruct (truthy grade) eqn:Ht; [|by eexists].
      destruct Hgrade as [Hs|]; [|done]. destruct grade; try discriminate. by eexists. }
    destruct Hok as [v Hv]. exists v. split; [done|].
    apply eco_score_cases in Hv as [->|(s & _ & Hs)]; [lia|].
    apply scores_values in Hs. lia.
  - intros Ht. unfold get_eco_score_value. by rewrite Ht.
  - intros Ht Hs. unfold get_eco_score_value. rewrite Ht. by destruct grade.
Qed.

(** X17.  A product whose grade maps to the top score 95 (grade a, in
    either case) never gets alternatives, and for a product whose grade maps
    to 50 or more every alternative has a grade the score table knows. *)
Theorem alternatives_for_good_grades (category current : json)
    (replies : list (option json)) (alts : list (gmap str json)) (log : list request)
    (current_score : Z) :
  get_eco_score_value current = Ok current_score ->
  run (fetch_alternatives USER_AGENT category current) replies = Some (alts, log) ->
  (current_score = 95 -> alts = [])
  /\ (50 <= current_score ->
      forall alt, alt ∈ alts ->
        exists s score,
          alt !! "eco_score"%py = Some (JStr s) /\
          scores !! lower s = Some score /\ current_score < score).
Proof.
  intros Hcur [->|(data & rest & _ & Hrank)]%fetch_alternatives_spec.
  { split; [done|]. intros _ alt Hin. by apply elem_of_nil in Hin. }
  apply rank_alternatives_spec in Hrank as (c & chosen & Hc & _ & -> & Hbetter).
  rewrite Hcur in Hc. injection Hc as <-.
  assert (Hgrades : forall alt, alt ∈ alternative_of <$> chosen ->
            exists grade score,
              alt !! "eco_score"%py = Some grade /\
              get_eco_score_value grade = Ok score /\ current_score < score).
  { intros alt (candidate & -> & Hin)%list_elem_of_fmap.
    rewrite Forall_forall in Hbetter. exact (Hbetter candidate Hin). }
  split.
  - intros ->. destruct chosen as [|candidate chosen]; [done|].
    destruct (Hgrades (alternative_of candidate)) as (grade & score & _ & Hscore & Hlt);
      [set_solver|].
    apply eco_score_cases in Hscore as [->|(s & _ & Hs)]; [lia|].
    apply scores_values in Hs. lia.
  - intros Hge alt Hin.
    destruct (Hgrades alt Hin) as (grade & score & Hgrade & Hscore & Hlt).
    apply eco_score_cases in Hscore as [->|(s & -> & Hs)]; [lia|]. eauto.
Qed.

(** X18.  Every alternative returned has exactly the five keys name,
    brand, eco_score, image_url and gtin. *)
Theorem alternative_keys (category current : json)
    (replies : list (option json)) (alts : list (gmap str json)) (log : list request) :
  run (fetch_alternatives USER_AGENT category current) replies = Some (alts, log) ->
  forall alt, alt ∈ alts ->
    dom alt = ({[ "name"; "brand"; "eco_score"; "image_url"; "gtin" ]}%py : gset str).
Proof.
  intros [->|(data & rest & _ & Hrank)]%fetch_alternatives_spec alt Hin;
    [by apply elem_of_nil in Hin|].
  apply rank_alternatives_spec in Hrank as (c & chosen & _ & _ & -> & Hbetter).
  apply list_elem_of_fmap in Hin as (candidate & -> & Hin).
  rewrite Forall_forall in Hbetter.
  destruct (Hbetter candidate Hin) as (grade & score & Hgrade & _).
  destruct candidate as [| | | | | |p]; cbn [alternative_of] in Hgrade |- *;
    try (by rewrite lookup_empty in Hgrade).
  rewrite !dom_insert_L, dom_singleton_L. set_solver.
Qed.

(** *** The search tag *)

Lemma split_cps_head (sep : N) (l : list N) :
  exists w ws post,
    split_cps sep l = w :: ws /\ l = w ++ post /\ sep ∉ w.
Proof.
  induction l as [|c l (w & ws & post & Hsplit & Hl & Hsep)]; cbn [split_cps].
  - exists [], [], []. repeat split. apply not_elem_of_nil.
  - destruct (N.eqb_spec c sep) as [->|Hne].
    + exists [], (split_cps sep l), (sep :: l). repeat split. apply not_elem_of_nil.
    + rewrite Hsplit. exists (c :: w), ws, post. repeat split.
      * by rewrite Hl.
      * intros [?|?]%elem_of_cons; congruence.
Qed.

Lemma lstrip_cps_spec (l : list N) :
  (exists ws, l = ws ++ lstrip_cps l)
  /\ (forall c, head (lstrip_cps l) = Some c -> char_isspace c = false).
Proof.
  induction l as [|c l [[ws Hws] Hhead]]; cbn [lstrip_cps].
  - split; [by exists [] | discriminate].
  - destruct (char_isspace c) eqn:Hc.
    + split; [exists (c :: ws); by rewrite <- app_comm_cons, <- Hws | done].
    + split; [by exists [] | by intros ? [= <-]].
Qed.

Lemma strip_spec (l : list N) :
  let r := rev (lstrip_cps (rev (lstrip_cps l))) in
  (exists pre post, l = pre ++ r ++ post)
  /\ (forall c, head r = Some c -> char_isspace c = false)
  /\ (forall c, last r = Some c -> char_isspace c = false).
Proof.
  intros r.
  destruct (lstrip_cps_spec l) as [[ws1 Hl] Hhead1].
  destruct (lstrip_cps_spec (rev (lstrip_cps l))) as [[ws2 Hm] Hhead2].
  assert (Hmid : lstrip_cps l = r ++ rev ws2).
  { unfold r. rewrite <- rev_app_distr, <- Hm. by rewrite rev_involutive. }
  split; [|split].
  - exists ws1, (rev ws2). by rewrite <- Hmid.
  - intros c Hc. apply Hhead1. rewrite Hmid. by destruct r.
  - intros c Hc. apply Hhead2. unfold r in Hc. rewrite rev_alt in Hc.
    change (rev_append ?x []) with (reverse x) in Hc. by rewrite last_reverse in Hc.
Qed.

(** X19.  The tag the search asks for is a piece of the category that
    holds no comma and neither starts nor ends with whitespace. *)
Theorem search_tag_clean (category : str) :
  exists tag,
    first_tag (JStr category) = Ok tag
    /\ (exists pre post, codepoints category = pre ++ codepoints tag ++ post)
    /\ (44%N ∉ codepoints tag)
    /\ (forall c, head (codepoints tag) = Some c -> char_isspace c = false)
    /\ (forall c, last (codepoints tag) = Some c -> char_isspace c = false).
Proof.
  eexists. split; [reflexivity|].
  unfold split. destruct (split_cps_head 44 (codepoints category))
    as (w & ws & rest & -> & Hcat & Hcomma).
  cbn [map hd strip codepoints].
  destruct (strip_spec w) as [(pre & post & Hw) [Hhead Hlast]].
  split; [|split; [|by split]].
  - exists pre, (post ++ rest). rewrite Hcat, Hw at 1. by rewrite <- !app_assoc.
  - intros Hin. apply Hcomma. rewrite Hw. set_solver.
Qed.


(** *** Responses as a whole *)

Lemma endpoint_inv (image_data : list Byte.byte) (code : str)
    (replies : list (option json)) (resp : ProductResponse) (log : list request) :
  run (scan_product USER_AGENT read_barcodes image_data) replies = Some (Ok resp, log)
  \/ run (get_product USER_AGENT code) replies = Some (Ok resp, log) ->
  bare_not_found resp \/
  exists data rest, replies = Some data :: rest /\ reports_on data resp.
Proof. intros [Hrun|Hrun]; eauto using scan_product_inv, get_product_inv. Qed.

(** X20.  In a response flagged high-carbon the first recommendation is
    the high-carbon one: its priority is high and its text shows the
    figure the response carries, to two decimal places ("inf" for an
    infinite figure). *)
Theorem high_carbon_entry_first (image_data : list Byte.byte) (code : str)
    (replies : list (option json)) (resp : ProductResponse) (log : list request) :
  run (scan_product USER_AGENT read_barcodes image_data) replies = Some (Ok resp, log)
  \/ run (get_product USER_AGENT code) replies = Some (Ok resp, log) ->
  is_high_carbon resp = true ->
  exists r t,
    head (recommendations resp) = Some r /\
    priority r = "high"%py /\
    text r = ("High carbon footprint (" +++ t
              +++ " kg CO2e). Consider eco-friendly alternatives below.")%py /\
    shows_figure (carbon_footprint resp) t.
Proof.
  intros [(_ & _ & -> & _)|(data & rest & _ & Hrep)]%endpoint_inv Hflag; [done|].
  destruct Hrep as (product & co2 & _ & _ & _ & Hfloat & Hhigh & Hrecs).
  rewrite Hflag in Hhigh. symmetry in Hhigh.
  apply andb_true_iff in Hhigh as [_ Hexceeds].
  assert (Hor : py_or co2 (JInt 0) = co2).
  { unfold py_or. destruct (truthy co2) eqn:Ht; [done|].
    apply falsy_not_above in Ht. congruence. }
  rewrite Hor in Hrecs.
  destruct product as [| | | | | |p]; try discriminate.
  apply generate_recommendations_shape in Hrecs as (plastic & _ & ->).
  destruct (format_2f_shows _ _ Hexceeds Hfloat) as (t & Hfmt & _ & Hshows).
  exists (carbon_entry t), t.
  unfold carbon_rule, two_decimals. rewrite Hexceeds, Hfmt.
  split; [by destruct (eco_rule p), (nutrition_rule p), plastic|]. done.
Qed.

Lemma default_grade_score (product : json) (c : Z) :
  get_eco_score_value (field product "ecoscore_grade" (JStr "")) = Ok c ->
  get_eco_score_value (field product "ecoscore_grade" JNull) = Ok c.
Proof.
  destruct product as [| | | | | |p]; try done. cbn [field].
  by destruct (p !! "ecoscore_grade"%py).
Qed.

Lemma conclude_alternatives (c ending : str) (a : result assessed)
    (rest : list (option json)) (resp : ProductResponse) (log : list request) :
  conclude USER_AGENT c ending a rest = Some (Ok resp, log) ->
  (length (alternatives resp) <= 3)%nat
  /\ forall alt, alt ∈ alternatives resp ->
       exists grade score current_score,
         alt !! "eco_score"%py = Some grade /\
         get_eco_score_value grade = Ok score /\
         get_eco_score_value (eco_score resp) = Ok current_score /\
         current_score < score.
Proof.
  intros Hconclude.
  assert (Hempty : alternatives resp = [] ->
            (length (alternatives resp) <= 3)%nat
            /\ forall alt, alt ∈ alternatives resp ->
                 exists grade score current_score,
                   alt !! "eco_score"%py = Some grade /\
                   get_eco_score_value grade = Ok score /\
                   get_eco_score_value (eco_score resp) = Ok current_score /\
                   current_score < score).
  { intros ->. split; [cbn; lia|]. intros alt Hin. by apply elem_of_nil in Hin. }
  apply conclude_response in Hconclude
    as [(_ & -> & _)|
        (product & co2 & v & unit & flag & recs & alts & search & Ha & _ & -> & _ & Hsearch)];
    [by apply Hempty|].
  destruct flag; [|destruct Hsearch as [-> _]; by apply Hempty].
  apply fetch_alternatives_spec in Hsearch as [->|(data & rest' & _ & Hrank)];
    [by apply Hempty|].
  clear Hempty. cbn [success_response alternatives eco_score].
  split.
  - unfold rank_alternatives in Hrank.
    apply bind_Ok in Hrank as (? & _ & Hrank).
    apply bind_Ok in Hrank as (? & _ & Hrank).
    apply bind_Ok in Hrank as (? & _ & Hrank).
    apply bind_Ok in Hrank as (? & _ & Hrank).
    apply bind_Ok in Hrank as (out & _ & [= <-]).
    rewrite length_take. lia.
  - apply rank_alternatives_spec in Hrank as (cs & chosen & Hcs & _ & -> & Hbetter).
    intros alt (candidate & -> & Hin)%list_elem_of_fmap.
    rewrite Forall_forall in Hbetter.
    destruct (Hbetter candidate Hin) as (grade & score & Hgrade & Hscore & Hlt).
    exists grade, score, cs. eauto using default_grade_score.
Qed.

(** X21.  A response carries at most three alternatives, and each of them
    maps to a strictly better eco-score than the grade the response itself
    reports in [eco_score]. *)
Theorem response_alternatives_better (image_data : list Byte.byte) (code : str)
    (replies : list (option json)) (resp : ProductResponse) (log : list request) :
  run (scan_product USER_AGENT read_barcodes image_data) replies = Some (Ok resp, log)
  \/ run (get_product USER_AGENT code) replies = Some (Ok resp, log) ->
  (length (alternatives resp) <= 3)%nat
  /\ forall alt, alt ∈ alternatives resp ->
       exists grade score current_score,
         alt !! "eco_score"%py = Some grade /\
         get_eco_score_value grade = Ok score /\
         get_eco_score_value (eco_score resp) = Ok current_score /\
         current_score < score.
Proof.
  intros [(_ & _ & Hresp)|(c & reply & rest & _ & -> & Hend)]%endpoint_run.
  { rewrite (Hresp resp eq_refl). split; [cbn; lia|].
    intros alt Hin. by apply elem_of_nil in Hin. }
  destruct reply as [data|]; [|by destruct Hend].
  destruct Hend as (scanning & ending & Hend). by eapply conclude_alternatives.
Qed.

(** X22.  A success response has between one and four recommendations; a
    not-found response has no recommendation, no alternative and no
    product attribute, and there is no third status. *)
Theorem response_status (image_data : list Byte.byte) (code : str)
    (replies : list (option json)) (resp : ProductResponse) (log : list request) :
  run (scan_product USER_AGENT read_barcodes image_data) replies = Some (Ok resp, log)
  \/ run (get_product USER_AGENT code) replies = Some (Ok resp, log) ->
  (status resp = "success"%py /\ (1 <= length (recommendations resp) <= 4)%nat
   /\ message resp = JNull)
  \/ (status resp = "not_found"%py /\ recommendations resp = []
      /\ alternatives resp = [] /\ is_high_carbon resp = false
      /\ name resp = JNull /\ brand resp = JNull /\ carbon_footprint resp = JNull
      /\ exists text, message resp = JStr text).
Proof.
  intros [(_ & _ & Hresp)|(c & reply & rest & _ & -> & Hend)]%endpoint_run.
  { rewrite (Hresp resp eq_refl). right. repeat split. by eexists. }
  destruct reply as [data|]; [|by destruct Hend].
  destruct Hend as (scanning & ending & Hend).
  apply conclude_response in Hend
    as [(_ & -> & _)|
        (product & co2 & v & unit & flag & recs & alts & search & Ha & _ & -> & _)].
  - right. repeat split. by eexists.
  - left. apply assess_present in Ha as (p & -> & _ & _ & _ & _ & Hrecs).
    apply recommendations_length in Hrecs as Hlen.
    split; [done|]. split; [exact Hlen | done].
Qed.

(** X23.  When the product's nested [co2_total] is present but is not a
    number (a str, a list, an object), the comparison with the threshold
    raises: both endpoints end in TypeError after the lookup, without a
    response. *)
Theorem non_numeric_figure_raises (image_data : list Byte.byte) (code : str)
    (data product v : json) (rest : list (option json)) :
  image_data <> [] ->
  extract_gtin_from_image read_barcodes image_data = Some code ->
  product_missing data = Ok false ->
  getitem data "product" = Ok product ->
  nested_co2_total product = Some v ->
  num_val v = None ->
  run (scan_product USER_AGENT read_barcodes image_data) (Some data :: rest)
  = Some (Raise TypeError, [lookup_request USER_AGENT code])
  /\ run (get_product USER_AGENT code) (Some data :: rest)
     = Some (Raise TypeError, [lookup_request USER_AGENT code]).
Proof.
  intros Himg Hcode Hmissing Hproduct Hnested Hnum.
  assert (Hassess : forall scanning, assess scanning data = Raise TypeError).
  { intros scanning. unfold assess. rewrite Hmissing. cbn [mbind result_bind].
    rewrite Hproduct. cbn [mbind result_bind].
    destruct product as [| | | | | |p]; try discriminate.
    cbn [nested_co2_total get mbind result_bind] in Hnested |- *.
    destruct (p !! "ecoscore_data"%py) as [[| | | | | |e]|] eqn:He; try discriminate.
    destruct (e !! "agribalyse"%py) as [[| | | | | |a]|] eqn:Ha; try discriminate.
    cbn [from_option id].
    assert (truthy (JDict e) = true) as ->.
    { cbn. rewrite bool_decide_eq_false_2; [done|]. intros ->.
      by rewrite lookup_empty in Ha. }
    cbn [get mbind result_bind]. rewrite Ha. cbn [from_option id get].
    assert (default JNull (a !! "co2_total"%py) = v) as ->.
    { destruct (a !! "co2_total"%py) as [[]|]; try discriminate;
        by injection Hnested as <-. }
    cbn [mbind result_bind].
    assert (negb (is_none v) = true) as ->.
    { destruct v; try done.
      destruct (a !! "co2_total"%py) as [[]|]; discriminate. }
    unfold gt_float. by rewrite Hnum. }
  split.
  - by rewrite (scan_product_run _ code), Hassess.
  - apply extract_gtin_spec in Hcode as [_ Hvalid].
    by rewrite get_product_run, Hassess.
Qed.

End MoreProperties.

(** ** Examples on the sample environment *)

Section Examples.
#[local] Existing Instance sample_unicode.

(** Scenario 3 of the specification: three entries, high, high, medium. *)
Example scenario_3 :
  generate_recommendations (JDict sample_product_d) (JFloat float_3_5)
  = Ok [carbon_entry "3.50"; low_eco_entry; plastic_entry]
  /\ priority <$> [carbon_entry "3.50"; low_eco_entry; plastic_entry]
     = ["high"; "high"; "medium"]%py.
Proof. split; vm_compute; reflexivity. Qed.

(** Scenario 4: the single entry of the eco-grade rule. *)
Example scenario_4 :
  generate_recommendations (JDict sample_product_a) (JFloat float_0_5)
  = Ok [good_eco_entry].
Proof. vm_compute. reflexivity. Qed.

Example scenario_4_response :
  let resp := (outcome (run (get_product sample_agent sample_code)
                            [Some (sample_lookup_reply 1 sample_product_a)])).1 in
  (status resp, is_high_carbon resp, alternatives resp, priority <$> recommendations resp)
  = ("success"%py, false, [], ["low"%py]).
Proof. vm_compute. reflexivity. Qed.

(** Scenario 2: status 0 upstream. *)
Example scenario_2 :
  let resp := (outcome (run (scan_product sample_agent sample_reader sample_image)
                            [Some (JDict sample_unknown_data)])).1 in
  (status resp, gtin resp, message resp)
  = ("not_found"%py, JStr "3017620422003",
     JStr "Product with barcode 3017620422003 not found in database.").
Proof. vm_compute. reflexivity. Qed.

(** The success response of the sample run: one lookup, one search. *)
Example sample_success_fields :
  (status sample_success.1, is_high_carbon sample_success.1,
   carbon_footprint sample_success.1, length (alternatives sample_success.1),
   url <$> sample_success.2)
  = ("success"%py, true, JFloat float_3_5, 3%nat,
     ["https://world.openfoodfacts.org/api/v2/product/3017620422003";
      "https://world.openfoodfacts.org/cgi/search.pl"]%py).
Proof. vm_compute. reflexivity. Qed.

(** Of the first five candidates, those better than "d" (45): "b", the
    ungraded one and "A"; the one graded "unknown" is cut by the limit of 3. *)
Example sample_alternatives_names :
  (fun alt => (alt !! "name"%py, alt !! "eco_score"%py)) <$> sample_alternatives.1
  = [(Some (JStr "Alpha"), Some (JStr "b"));
     (Some (JStr "Gamma"), Some (JStr ""));
     (Some (JStr "Delta"), Some (JStr "A"))].
Proof. vm_compute. reflexivity. Qed.

(** The search asks for the first comma-segment of the category, stripped. *)
Example sample_search_tag :
  first_tag (JStr "  Spreads , Sweet spreads") = Ok "Spreads"%py.
Proof. vm_compute. reflexivity. Qed.

(** Rounding to two decimals goes by the exact binary value, ties to even:
    0.125 gives 0.12, 0.375 gives 0.38, and an int is shown as a float. *)
Example format_examples :
  format_2f (JFloat (S754_finite false 1 (-3))) = Ok "0.12"%py
  /\ format_2f (JFloat (S754_finite false 3 (-3))) = Ok "0.38"%py
  /\ format_2f (JFloat (S754_finite true 1 (-10))) = Ok "-0.00"%py
  /\ format_2f (JInt 3) = Ok "3.00"%py
  /\ format_2f (JInt (2 ^ 60 + 1)) = Ok "1152921504606846976.00"%py
  /\ format_2f (JInt (2 ^ 1024)) = Raise OverflowError.
Proof. repeat split; vm_compute; reflexivity. Qed.

(** The code's digits are those of [str.isdigit]: eight characters ending
    in a superscript two pass the guard of fetch-by-code, seven digits do
    not. *)
Example isdigit_examples :
  isdigit (Str [49; 50; 51; 52; 53; 54; 55; 178]%N) = true
  /\ (outcome (run (get_product sample_agent (Str [49; 50; 51; 52; 53; 54; 55; 178]%N))
                   [Some (JDict sample_unknown_data)])).2
     = [lookup_request sample_agent (Str [49; 50; 51; 52; 53; 54; 55; 178]%N)]
  /\ isdigit "1234567" = true
  /\ get_product sample_agent "1234567"
     = Ret (Raise (HTTPException 400 "Invalid barcode format")).
Proof. repeat split; vm_compute; reflexivity. Qed.

(** The primary fetch fails with a 500, the search degrades to no
    alternatives. *)
Example fetch_failures :
  run (get_product sample_agent sample_code) [None]
  = Some (Raise (HTTPException 500 "Failed to fetch product data"),
          [lookup_request sample_agent sample_code])
  /\ (fun o => (length (alternatives o.1), length o.2))
       (outcome (run (get_product sample_agent sample_code)
                     [Some (sample_lookup_reply 1 sample_product_d); None]))
     = (0%nat, 2%nat).
Proof. split; vm_compute; reflexivity. Qed.

(** ** The theorems at work on the sample environment *)

Lemma generate_recommendations_rules_witness :
  figure_typed (JFloat float_3_5) = true
  /\ tags_well_typed sample_product_d = true
  /\ generate_recommendations (JDict sample_product_d) (JFloat float_3_5)
     = Ok (rules_in_order sample_product_d (JFloat float_3_5))
  /\ (forall r, carbon_rule (JFloat float_3_5) = Some r ->
        exists t, r = carbon_entry t /\ shows_figure (JFloat float_3_5) t)
  /\ (forall r, nutrition_rule sample_product_d = Some r ->
        (sample_product_d !! "nutriscore_grade"%py = Some (JStr "d")
         /\ r = nutrition_entry "D")
        \/ (sample_product_d !! "nutriscore_grade"%py = Some (JStr "e")
            /\ r = nutrition_entry "E")).
Proof.
  assert (Hfig : figure_typed (JFloat float_3_5) = true) by reflexivity.
  assert (Htags : tags_well_typed sample_product_d = true) by (vm_compute; reflexivity).
  split; [exact Hfig|]. split; [exact Htags|].
  exact (generate_recommendations_rules sample_product_d (JFloat float_3_5) Hfig Htags).
Defined.

(** The scorer raises, instead of returning the entries of the rules, on
    packaging tags that are null or hold a number, and on a figure that is
    an int beyond the floats or a str. *)
Lemma ill_typed_input_raises :
  generate_recommendations (JDict sample_product_null_tags) (JFloat float_0_5)
  = Raise TypeError
  /\ generate_recommendations (JDict sample_product_null_tags) (JFloat float_0_5)
     <> Ok (rules_in_order sample_product_null_tags (JFloat float_0_5))
  /\ generate_recommendations (JDict sample_product_number_tag) (JFloat float_0_5)
     = Raise AttributeError
  /\ generate_recommendations (JDict ∅) (JInt (2 ^ 1024)) = Raise OverflowError
  /\ generate_recommendations (JDict ∅) (JStr "3.5") = Raise TypeError.
Proof.
  split; [vm_compute; reflexivity|]. split; [vm_compute; discriminate|].
  repeat split; vm_compute; reflexivity.
Qed.

Lemma sample_superscript_digit : uc_isdigit 178 = true.
Proof. reflexivity. Defined.

Lemma sample_superscript_read :
  sample_reader sample_superscript_image = Some [sample_superscript_image].
Proof. reflexivity. Defined.

Lemma sample_superscript_decode :
  bytes_decode sample_superscript_image = Some superscript_code.
Proof. vm_compute. reflexivity. Defined.

Lemma superscript_digit_accepted_witness :
  uc_isdigit 178 = true
  /\ sample_reader sample_superscript_image = Some [sample_superscript_image]
  /\ bytes_decode sample_superscript_image = Some superscript_code
  /\ ~ gtin_format superscript_code
  /\ extract_gtin_from_image sample_reader sample_superscript_image
     = Some superscript_code
  /\ get_product sample_agent superscript_code
     <> Ret (Raise (HTTPException 400 "Invalid barcode format")).
Proof.
  split; [exact sample_superscript_digit|].
  split; [exact sample_superscript_read|].
  split; [exact sample_superscript_decode|].
  exact (superscript_digit_accepted sample_agent sample_reader
           sample_superscript_image sample_superscript_image []
           sample_superscript_digit sample_superscript_read
           sample_superscript_decode).
Defined.

Lemma superscript_code_looked_up_witness :
  uc_isdigit 178 = true
  /\ ~ gtin_format superscript_code
  /\ (forall replies,
        run (get_product sample_agent superscript_code) replies
        <> Some (Raise (HTTPException 400 "Invalid barcode format"), []))
  /\ run (get_product sample_agent superscript_code) [None]
     = Some (Raise (HTTPException 500 "Failed to fetch product data"),
             [lookup_request sample_agent superscript_code]).
Proof.
  split; [exact sample_superscript_digit|].
  exact (superscript_code_looked_up sample_agent [] sample_superscript_digit).
Defined.

Lemma sample_code_ascii : ascii_only sample_code.
Proof. unfold ascii_only. cbn. repeat (constructor; [lia|]). constructor. Defined.

Lemma ascii_barcode_accepted_iff_witness :
  ascii_only sample_code
  /\ (forall image_data payload others,
        sample_reader image_data = Some (payload :: others) ->
        bytes_decode payload = Some sample_code ->
        (extract_gtin_from_image sample_reader image_data = Some sample_code
         <-> gtin_format sample_code))
  /\ (get_product sample_agent sample_code
      <> Ret (Raise (HTTPException 400 "Invalid barcode format"))
      <-> gtin_format sample_code).
Proof.
  split; [exact sample_code_ascii|].
  exact (ascii_barcode_accepted_iff sample_agent sample_reader sample_code
           sample_code_ascii).
Defined.

Lemma short_code_ascii : ascii_only "123".
Proof. unfold ascii_only. cbn. repeat (constructor; [lia|]). constructor. Defined.

Lemma short_code_malformed : ~ gtin_format "123".
Proof. intros [_ Hlen]. unfold gtin_length, len in Hlen. cbn in Hlen. lia. Defined.

Lemma malformed_ascii_code_rejected_witness :
  ascii_only "123"
  /\ ~ gtin_format "123"
  /\ scan_product sample_agent sample_reader []
     = Ret (Raise (HTTPException 400 "Empty image file"))
  /\ get_product sample_agent "123"
     = Ret (Raise (HTTPException 400 "Invalid barcode format"))
  /\ run (scan_product sample_agent sample_reader []) [Some sample_search_reply]
     = Some (Raise (HTTPException 400 "Empty image file"), [])
  /\ run (get_product sample_agent "123") [Some sample_search_reply]
     = Some (Raise (HTTPException 400 "Invalid barcode format"), []).
Proof.
  split; [exact short_code_ascii|]. split; [exact short_code_malformed|].
  exact (malformed_ascii_code_rejected sample_agent sample_reader "123"
           [Some sample_search_reply] short_code_ascii short_code_malformed).
Defined.

Lemma sample_success_run :
  run (scan_product sample_agent sample_reader sample_image) sample_replies
  = Some (Ok sample_success.1, sample_success.2)
  \/ run (get_product sample_agent sample_code) sample_replies
     = Some (Ok sample_success.1, sample_success.2).
Proof. right. vm_compute. reflexivity. Defined.

Lemma sample_int_success_run :
  run (scan_product sample_agent sample_reader sample_image) sample_int_replies
  = Some (Ok sample_int_success.1, sample_int_success.2)
  \/ run (get_product sample_agent sample_code) sample_int_replies
     = Some (Ok sample_int_success.1, sample_int_success.2).
Proof. right. vm_compute. reflexivity. Defined.

Lemma carbon_flag_invariant_witness :
  (run (scan_product sample_agent sample_reader sample_image) sample_int_replies
   = Some (Ok sample_int_success.1, sample_int_success.2)
   \/ run (get_product sample_agent sample_code) sample_int_replies
      = Some (Ok sample_int_success.1, sample_int_success.2))
  /\ (is_high_carbon sample_int_success.1 = true <->
      carbon_footprint sample_int_success.1 <> JNull
      /\ exceeds_threshold (carbon_footprint sample_int_success.1) = true)
  /\ (status sample_int_success.1 = "success"%py ->
      exists data product,
        head sample_int_replies = Some (Some data) /\
        getitem data "product" = Ok product /\
        (is_high_carbon sample_int_success.1 = true <->
         exists figure, nested_co2_total product = Some figure /\
                        exceeds_threshold figure = true) /\
        (carbon_footprint sample_int_success.1 = JNull
         <-> nested_co2_total product = None) /\
        (forall f, nested_co2_total product = Some (JFloat f) ->
                   carbon_footprint sample_int_success.1 = JFloat f) /\
        (forall z, nested_co2_total product = Some (JInt z) ->
                   exists f, float_of_int z = Ok f /\
                             carbon_footprint sample_int_success.1 = JFloat f))
  /\ (status sample_int_success.1 = "not_found"%py ->
      carbon_footprint sample_int_success.1 = JNull
      /\ is_high_carbon sample_int_success.1 = false)
  /\ (forall z, exceeds_threshold (JInt z) = true <-> 2 < z)
  /\ (forall m e, exceeds_threshold (JFloat (S754_finite false m e)) = true
                  <-> 2 * 2 ^ Z.max (- e) 0 < Z.pos m * 2 ^ Z.max e 0).
Proof.
  split; [exact sample_int_success_run|].
  exact (carbon_flag_invariant sample_agent sample_reader sample_image sample_code
           sample_int_replies sample_int_success.1 sample_int_success.2
           sample_int_success_run).
Defined.

(** The int 3 the upstream reply gives for the figure is reported as the
    float 3.0, flagged, and shown as "3.00". *)
Example int_figure_as_float :
  nested_co2_total (JDict sample_product_int) = Some (JInt 3)
  /\ carbon_footprint sample_int_success.1 = JFloat (S754_finite false 3 0)
  /\ is_high_carbon sample_int_success.1 = true
  /\ text <$> head (recommendations sample_int_success.1)
     = Some ("High carbon footprint (3.00 kg CO2e). "
             +++ "Consider eco-friendly alternatives below.")%py.
Proof. repeat split; vm_compute; reflexivity. Qed.

Lemma high_carbon_recommendation_iff_witness :
  (run (scan_product sample_agent sample_reader sample_image) sample_replies
   = Some (Ok sample_success.1, sample_success.2)
   \/ run (get_product sample_agent sample_code) sample_replies
      = Some (Ok sample_success.1, sample_success.2))
  /\ ((exists r, r ∈ recommendations sample_success.1 /\ priority r = "high"%py /\
                 startswith (text r) "High carbon footprint" = true)
      <-> is_high_carbon sample_success.1 = true).
Proof.
  split; [exact sample_success_run|].
  exact (high_carbon_recommendation_iff sample_agent sample_reader sample_image
           sample_code sample_replies sample_success.1 sample_success.2
           sample_success_run).
Defined.

Lemma sample_status_zero : status_is_zero sample_unknown_data \/ product_falsy sample_unknown_data.
Proof. left. exists (JInt 0). split; vm_compute; reflexivity. Defined.

Lemma upstream_not_found_witness :
  (status_is_zero sample_unknown_data \/ product_falsy sample_unknown_data)
  /\ (sample_image <> [] ->
      extract_gtin_from_image sample_reader sample_image = Some sample_code ->
      exists resp,
        run (scan_product sample_agent sample_reader sample_image)
            [Some (JDict sample_unknown_data)]
        = Some (Ok resp, [lookup_request sample_agent sample_code]) /\
        status resp = "not_found"%py /\
        gtin resp = JStr sample_code /\
        message resp
        = JStr ("Product with barcode " +++ sample_code +++ " not found in database.")%py /\
        bare_not_found resp)
  /\ (valid_barcode sample_code ->
      exists resp,
        run (get_product sample_agent sample_code) [Some (JDict sample_unknown_data)]
        = Some (Ok resp, [lookup_request sample_agent sample_code]) /\
        status resp = "not_found"%py /\
        gtin resp = JStr sample_code /\
        message resp
        = JStr ("Product with barcode " +++ sample_code +++ " not found.")%py /\
        bare_not_found resp).
Proof.
  split; [exact sample_status_zero|].
  exact (upstream_not_found sample_agent sample_reader sample_unknown_data sample_code
           sample_image [] sample_status_zero).
Defined.

(** A reply whose product is a list has no product object, and yet gets no
    not-found response: both endpoints raise after the lookup. *)
Lemma list_product_reply_raises :
  is_object sample_list_product = false
  /\ getitem sample_list_product_data "product" = Ok sample_list_product
  /\ run (scan_product sample_agent sample_reader sample_image)
         [Some sample_list_product_data]
     = Some (Raise AttributeError, [lookup_request sample_agent sample_code])
  /\ run (get_product sample_agent sample_code) [Some sample_list_product_data]
     = Some (Raise AttributeError, [lookup_request sample_agent sample_code]).
Proof. repeat split; vm_compute; reflexivity. Qed.

Lemma sample_alternatives_run :
  run (fetch_alternatives sample_agent sample_category (JStr "d"))
      [Some sample_search_reply]
  = Some (sample_alternatives.1, sample_alternatives.2).
Proof. vm_compute. reflexivity. Defined.

Lemma alternatives_strictly_better_witness :
  run (fetch_alternatives sample_agent sample_category (JStr "d"))
      [Some sample_search_reply]
  = Some (sample_alternatives.1, sample_alternatives.2)
  /\ (forall alt, alt ∈ sample_alternatives.1 ->
        exists grade score current_score,
          alt !! "eco_score"%py = Some grade /\
          get_eco_score_value grade = Ok score /\
          get_eco_score_value (JStr "d") = Ok current_score /\
          current_score < score)
  /\ exists chosen,
       chosen `sublist_of` search_results (head [Some sample_search_reply] ≫= id) /\
       sample_alternatives.1 = alternative_of <$> chosen.
Proof.
  split; [exact sample_alternatives_run|].
  exact (alternatives_strictly_better sample_agent sample_category (JStr "d")
           [Some sample_search_reply] sample_alternatives.1 sample_alternatives.2
           sample_alternatives_run).
Defined.

Lemma alternatives_at_most_three_witness :
  run (fetch_alternatives sample_agent sample_category (JStr "d"))
      [Some sample_search_reply]
  = Some (sample_alternatives.1, sample_alternatives.2)
  /\ (length sample_alternatives.1 <= 3)%nat
  /\ (forall reply rest,
        is_Some (run (fetch_alternatives sample_agent sample_category (JStr "d"))
                     (reply :: rest)))
  /\ fetch_alternatives sample_agent JNull (JStr "d") = Ret []
  /\ fetch_alternatives sample_agent (JStr "") (JStr "d") = Ret [].
Proof.
  split; [exact sample_alternatives_run|].
  exact (alternatives_at_most_three sample_agent sample_category (JStr "d")
           [Some sample_search_reply] sample_alternatives.1 sample_alternatives.2
           sample_alternatives_run).
Defined.

Lemma unknown_grade_alternative_witness :
  (JStr "d" = JStr "d" \/ JStr "d" = JStr "e")
  /\ grade_unknown (attribute sample_ungraded "ecoscore_grade")
  /\ codepoints "Spreads" <> []
  /\ sample_search_data !! "products"%py
     = Some (JList (JDict sample_ungraded :: sample_others))
  /\ forallb candidate_well_typed sample_others = true
  /\ get_eco_score_value (attribute sample_ungraded "ecoscore_grade") = Ok 50
  /\ (exists current_score,
        get_eco_score_value (JStr "d") = Ok current_score /\ current_score < 50)
  /\ exists alts log,
       run (fetch_alternatives sample_agent (JStr "Spreads") (JStr "d"))
           [Some (JDict sample_search_data)] = Some (alts, log) /\
       head alts = Some (alternative_of (JDict sample_ungraded)) /\
       alternative_of (JDict sample_ungraded) !! "eco_score"%py
       = Some (attribute sample_ungraded "ecoscore_grade").
Proof.
  assert (Hcur : JStr "d" = JStr "d" \/ JStr "d" = JStr "e") by (left; reflexivity).
  assert (Hunknown : grade_unknown (attribute sample_ungraded "ecoscore_grade"))
    by (left; vm_compute; reflexivity).
  assert (Hcat : codepoints "Spreads" <> []) by discriminate.
  assert (Hdata : sample_search_data !! "products"%py
                  = Some (JList (JDict sample_ungraded :: sample_others)))
    by (vm_compute; reflexivity).
  assert (Hothers : forallb candidate_well_typed sample_others = true)
    by (vm_compute; reflexivity).
  repeat (split; [assumption|]).
  exact (unknown_grade_alternative sample_agent (JStr "d") sample_ungraded
           sample_search_data sample_others "Spreads" [] Hcur Hunknown Hcat Hdata
           Hothers).
Defined.

Lemma uppercase_grade_no_eco_entry_witness :
  (65 <= 68 <= 90)%N
  /\ sample_product_upper !! "ecoscore_grade"%py = Some (JStr (Str [68%N]))
  /\ generate_recommendations (JDict sample_product_upper) (JFloat float_0_5)
     = Ok sample_upper_recommendations
  /\ (low_eco_entry ∉ sample_upper_recommendations)
  /\ (good_eco_entry ∉ sample_upper_recommendations)
  /\ get_eco_score_value (JStr (Str [68%N])) = get_eco_score_value (JStr (Str [(68 + 32)%N]))
  /\ get_eco_score_value (JStr "D") = Ok 45.
Proof.
  assert (Hletter : (65 <= 68 <= 90)%N) by lia.
  assert (Hgrade : sample_product_upper !! "ecoscore_grade"%py = Some (JStr (Str [68%N])))
    by (vm_compute; reflexivity).
  assert (Hrecs : generate_recommendations (JDict sample_product_upper) (JFloat float_0_5)
                  = Ok sample_upper_recommendations)
    by (vm_compute; reflexivity).
  repeat (split; [assumption|]).
  exact (uppercase_grade_no_eco_entry sample_product_upper 68 (JFloat float_0_5)
           sample_upper_recommendations Hletter Hgrade Hrecs).
Defined.

(** ** The further properties at work on the sample environment *)

Lemma sample_image_nonempty : sample_image <> [].
Proof. vm_compute. discriminate. Defined.

Lemma sample_image_code :
  extract_gtin_from_image sample_reader sample_image = Some sample_code.
Proof. vm_compute. reflexivity. Defined.

Lemma primary_fetch_failure_witness :
  sample_image <> []
  /\ extract_gtin_from_image sample_reader sample_image = Some sample_code
  /\ run (scan_product sample_agent sample_reader sample_image) [None]
     = Some (Raise (HTTPException 500 "Failed to fetch product data"),
             [lookup_request sample_agent sample_code])
  /\ run (get_product sample_agent sample_code) [None]
     = Some (Raise (HTTPException 500 "Failed to fetch product data"),
             [lookup_request sample_agent sample_code]).
Proof.
  split; [exact sample_image_nonempty|]. split; [exact sample_image_code|].
  exact (primary_fetch_failure sample_agent sample_reader sample_image sample_code []
           sample_image_nonempty sample_image_code).
Defined.




Lemma non_object_reply_raises_witness :
  sample_image <> []
  /\ extract_gtin_from_image sample_reader sample_image = Some sample_code
  /\ is_object (JList []) = false
  /\ run (scan_product sample_agent sample_reader sample_image) [Some (JList [])]
     = Some (Raise AttributeError, [lookup_request sample_agent sample_code])
  /\ run (get_product sample_agent sample_code) [Some (JList [])]
     = Some (Raise AttributeError, [lookup_request sample_agent sample_code]).
Proof.
  split; [exact sample_image_nonempty|]. split; [exact sample_image_code|].
  split; [reflexivity|].
  exact (non_object_reply_raises sample_agent sample_reader sample_image sample_code
           (JList []) [] sample_image_nonempty sample_image_code eq_refl).
Defined.

Lemma sample_badbrand_run :
  run (scan_product sample_agent sample_reader sample_image) sample_badbrand_replies
  = Some (Raise ValidationError, sample_badbrand_log)
  \/ run (get_product sample_agent sample_code) sample_badbrand_replies
     = Some (Raise ValidationError, sample_badbrand_log).
Proof. right. vm_compute. reflexivity. Defined.

Lemma requests_sent_witness :
  (run (scan_product sample_agent sample_reader sample_image) sample_badbrand_replies
   = Some (Raise ValidationError, sample_badbrand_log)
   \/ run (get_product sample_agent sample_code) sample_badbrand_replies
      = Some (Raise ValidationError, sample_badbrand_log))
  /\ (sample_badbrand_log = []
      \/ exists c, (c = sample_code
                    \/ extract_gtin_from_image sample_reader sample_image = Some c)
                   /\ sends sample_agent c sample_badbrand_log)
  /\ Forall (fun rq => headers rq = [("User-Agent"%py, sample_agent)])
            sample_badbrand_log
  /\ (forall e, @Raise ProductResponse ValidationError = Raise e ->
                e <> ValidationError -> (length sample_badbrand_log <= 1)%nat)
  /\ (@Raise ProductResponse ValidationError = Raise ValidationError ->
      sample_badbrand_log <> []).
Proof.
  split; [exact sample_badbrand_run|].
  exact (requests_sent sample_agent sample_reader sample_image sample_code
           sample_badbrand_replies (Raise ValidationError) sample_badbrand_log
           sample_badbrand_run).
Defined.

(** A brand that is a number is refused when the response is built, after
    the lookup and the search. *)
Example validation_error_last :
  run (get_product sample_agent sample_code) sample_badbrand_replies
  = Some (Raise ValidationError,
          [lookup_request sample_agent sample_code;
           search_request sample_agent "Spreads"])
  /\ run (scan_product sample_agent sample_reader sample_image) sample_badbrand_replies
     = Some (Raise ValidationError,
             [lookup_request sample_agent sample_code;
              search_request sample_agent "Spreads"]).
Proof. split; vm_compute; reflexivity. Qed.


Lemma sample_endpoint :
  get_product sample_agent sample_code
  = scan_product sample_agent sample_reader sample_image
  \/ get_product sample_agent sample_code = get_product sample_agent sample_code.
Proof. right. reflexivity. Defined.

Lemma sample_get_run :
  run (get_product sample_agent sample_code)
      (Some sample_lookup_data :: Some sample_search_reply :: [])
  = Some (Ok sample_success.1, sample_success.2).
Proof. vm_compute. reflexivity. Defined.

Lemma search_failure_degrades_witness :
  (get_product sample_agent sample_code
   = scan_product sample_agent sample_reader sample_image
   \/ get_product sample_agent sample_code = get_product sample_agent sample_code)
  /\ run (get_product sample_agent sample_code)
         (Some sample_lookup_data :: Some sample_search_reply :: [])
     = Some (Ok sample_success.1, sample_success.2)
  /\ forall reply' rest',
     exists alts',
       run (get_product sample_agent sample_code)
           (Some sample_lookup_data :: reply' :: rest')
       = Some (Ok (with_alternatives alts' sample_success.1), sample_success.2)
       /\ (reply' = None -> alts' = []).
Proof.
  split; [exact sample_endpoint|]. split; [exact sample_get_run|].
  exact (search_failure_degrades sample_agent sample_reader
           (get_product sample_agent sample_code) sample_image sample_code
           sample_lookup_data (Some sample_search_reply) [] sample_success.1
           sample_success.2 sample_endpoint sample_get_run).
Defined.

Lemma endpoints_agree_witness :
  sample_image <> []
  /\ extract_gtin_from_image sample_reader sample_image = Some sample_code
  /\ agree (run (scan_product sample_agent sample_reader sample_image) sample_replies)
           (run (get_product sample_agent sample_code) sample_replies).
Proof.
  split; [exact sample_image_nonempty|]. split; [exact sample_image_code|].
  exact (endpoints_agree sample_agent sample_reader sample_image sample_code
           sample_replies sample_image_nonempty sample_image_code).
Defined.

Lemma sample_scan_nofigure_run :
  run (scan_product sample_agent sample_reader sample_image) [Some sample_nofigure_data]
  = Some (Ok sample_scan_nofigure.1, sample_scan_nofigure.2).
Proof. vm_compute. reflexivity. Defined.

Lemma sample_get_nofigure_run :
  run (get_product sample_agent sample_code) [Some sample_nofigure_data]
  = Some (Ok sample_get_nofigure.1, sample_get_nofigure.2).
Proof. vm_compute. reflexivity. Defined.

Lemma sample_scan_nofigure_status : status sample_scan_nofigure.1 = "success"%py.
Proof. vm_compute. reflexivity. Defined.

Lemma carbon_unit_reported_witness :
  run (scan_product sample_agent sample_reader sample_image) [Some sample_nofigure_data]
  = Some (Ok sample_scan_nofigure.1, sample_scan_nofigure.2)
  /\ run (get_product sample_agent sample_code) [Some sample_nofigure_data]
     = Some (Ok sample_get_nofigure.1, sample_get_nofigure.2)
  /\ status sample_scan_nofigure.1 = "success"%py
  /\ exists product,
       getitem sample_nofigure_data "product" = Ok product /\
       carbon_footprint_unit sample_scan_nofigure.1
       = (if truthy (field product "ecoscore_data" (JDict ∅))
          then JStr "kg CO2e/kg" else JNull) /\
       carbon_footprint_unit sample_get_nofigure.1
       = (if truthy (carbon_footprint sample_get_nofigure.1)
          then JStr "kg CO2e/kg" else JNull) /\
       (carbon_footprint sample_scan_nofigure.1 <> JNull ->
        carbon_footprint_unit sample_scan_nofigure.1 = JStr "kg CO2e/kg").
Proof.
  split; [exact sample_scan_nofigure_run|]. split; [exact sample_get_nofigure_run|].
  split; [exact sample_scan_nofigure_status|].
  exact (carbon_unit_reported sample_agent sample_reader sample_image sample_code
           sample_nofigure_data [] [] sample_scan_nofigure.1 sample_get_nofigure.1
           sample_scan_nofigure.2 sample_get_nofigure.2 sample_scan_nofigure_run
           sample_get_nofigure_run sample_scan_nofigure_status).
Defined.

(** The same product reported by the two endpoints: only the unit differs. *)
Example sample_unit_difference :
  (carbon_footprint sample_scan_nofigure.1, carbon_footprint_unit sample_scan_nofigure.1)
  = (JNull, JStr "kg CO2e/kg")
  /\ (carbon_footprint sample_get_nofigure.1, carbon_footprint_unit sample_get_nofigure.1)
     = (JNull, JNull).
Proof. split; vm_compute; reflexivity. Qed.

Lemma sample_success_status : status sample_success.1 = "success"%py.
Proof. vm_compute. reflexivity. Defined.

Lemma sample_success_data_run :
  run (scan_product sample_agent sample_reader sample_image)
      (Some sample_lookup_data :: [Some sample_search_reply])
  = Some (Ok sample_success.1, sample_success.2)
  \/ run (get_product sample_agent sample_code)
         (Some sample_lookup_data :: [Some sample_search_reply])
     = Some (Ok sample_success.1, sample_success.2).
Proof. right. vm_compute. reflexivity. Defined.

Lemma success_response_fields_witness :
  (run (scan_product sample_agent sample_reader sample_image)
       (Some sample_lookup_data :: [Some sample_search_reply])
   = Some (Ok sample_success.1, sample_success.2)
   \/ run (get_product sample_agent sample_code)
          (Some sample_lookup_data :: [Some sample_search_reply])
      = Some (Ok sample_success.1, sample_success.2))
  /\ status sample_success.1 = "success"%py
  /\ exists c p,
       (c = sample_code \/ extract_gtin_from_image sample_reader sample_image = Some c) /\
       getitem sample_lookup_data "product" = Ok (JDict p) /\
       gtin sample_success.1 = JStr c /\
       name sample_success.1
       = py_or (default JNull (p !! "product_name"%py))
               (default (JStr "Unknown Product") (p !! "product_name_en"%py)) /\
       brand sample_success.1 = default (JStr "Unknown Brand") (p !! "brands"%py) /\
       image_url sample_success.1 = default JNull (p !! "image_front_url"%py) /\
       category sample_success.1 = default JNull (p !! "categories"%py) /\
       ingredients_text sample_success.1
       = default JNull (p !! "ingredients_text_en"%py) /\
       nutri_score sample_success.1 = default JNull (p !! "nutriscore_grade"%py) /\
       eco_score sample_success.1 = default JNull (p !! "ecoscore_grade"%py) /\
       source sample_success.1 = JStr "OpenFoodFacts" /\
       message sample_success.1 = JNull.
Proof.
  split; [exact sample_success_data_run|]. split; [exact sample_success_status|].
  exact (success_response_fields sample_agent sample_reader sample_image sample_code
           sample_lookup_data [Some sample_search_reply] sample_success.1
           sample_success.2 sample_success_data_run sample_success_status).
Defined.

Lemma sample_recommendations_d_run :
  generate_recommendations (JDict sample_product_d) (JFloat float_3_5)
  = Ok sample_recommendations_d.
Proof. vm_compute. reflexivity. Defined.

Lemma recommendations_bounds_witness :
  generate_recommendations (JDict sample_product_d) (JFloat float_3_5)
  = Ok sample_recommendations_d
  /\ (1 <= length sample_recommendations_d <= 4)%nat
  /\ NoDup sample_recommendations_d
  /\ Forall (fun r => priority r = "low"%py \/ priority r = "medium"%py
                       \/ priority r = "high"%py) sample_recommendations_d.
Proof.
  split; [exact sample_recommendations_d_run|].
  exact (recommendations_bounds sample_product_d (JFloat float_3_5)
           sample_recommendations_d sample_recommendations_d_run).
Defined.

Lemma default_entry_alone_witness :
  generate_recommendations (JDict sample_product_d) (JFloat float_3_5)
  = Ok sample_recommendations_d
  /\ (default_entry ∈ sample_recommendations_d ->
      sample_recommendations_d = [default_entry])
  /\ ~ (low_eco_entry ∈ sample_recommendations_d
        /\ good_eco_entry ∈ sample_recommendations_d).
Proof.
  split; [exact sample_recommendations_d_run|].
  exact (default_entry_alone sample_product_d (JFloat float_3_5)
           sample_recommendations_d sample_recommendations_d_run).
Defined.

Lemma sample_null_tags : sample_product_null_tags !! "packaging_tags"%py = Some JNull.
Proof. vm_compute. reflexivity. Defined.

Lemma packaging_not_iterable_witness :
  is_figure (JFloat float_0_5) = true
  /\ sample_product_null_tags !! "packaging_tags"%py = Some JNull
  /\ not_iterable JNull = true
  /\ generate_recommendations (JDict sample_product_null_tags) (JFloat float_0_5)
     = Raise TypeError.
Proof.
  split; [reflexivity|]. split; [exact sample_null_tags|]. split; [reflexivity|].
  exact (packaging_not_iterable sample_product_null_tags (JFloat float_0_5) JNull
           eq_refl sample_null_tags eq_refl).
Defined.

Lemma sample_mixed_tags :
  sample_product_mixed_tags !! "packaging_tags"%py
  = Some (JList ([JStr "cardboard"] ++ JStr "Plastic film" :: [JInt 7])).
Proof. vm_compute. reflexivity. Defined.

Lemma packaging_short_circuit_witness :
  is_figure (JFloat float_0_5) = true
  /\ sample_product_mixed_tags !! "packaging_tags"%py
     = Some (JList ([JStr "cardboard"] ++ JStr "Plastic film" :: [JInt 7]))
  /\ forallb is_str [JStr "cardboard"] = true
  /\ (mentions_plastic (JStr "Plastic film") = true ->
      exists recs,
        generate_recommendations (JDict sample_product_mixed_tags) (JFloat float_0_5)
        = Ok recs /\ plastic_entry ∈ recs)
  /\ (existsb mentions_plastic [JStr "cardboard"] = false ->
      is_str (JStr "Plastic film") = false ->
      generate_recommendations (JDict sample_product_mixed_tags) (JFloat float_0_5)
      = Raise AttributeError).
Proof.
  split; [reflexivity|]. split; [exact sample_mixed_tags|]. split; [reflexivity|].
  exact (packaging_short_circuit sample_product_mixed_tags (JFloat float_0_5)
           [JStr "cardboard"] [JInt 7] (JStr "Plastic film") eq_refl
           sample_mixed_tags eq_refl).
Defined.

(** The tag after the hit is never looked at. *)
Example sample_mixed_tags_plastic :
  mentions_plastic (JStr "Plastic film") = true
  /\ generate_recommendations (JDict sample_product_mixed_tags) (JFloat float_0_5)
     = Ok [plastic_entry].
Proof. split; vm_compute; reflexivity. Qed.

Lemma sample_search_products :
  sample_search_map !! "products"%py = Some (JList sample_candidates).
Proof. vm_compute. reflexivity. Defined.

Lemma only_first_five_witness :
  sample_search_map !! "products"%py = Some (JList sample_candidates)
  /\ run (fetch_alternatives sample_agent sample_category (JStr "d"))
         [Some (JDict sample_search_map)]
     = run (fetch_alternatives sample_agent sample_category (JStr "d"))
           [Some (JDict (<["products"%py := JList (take 5 sample_candidates)]>
                           sample_search_map))].
Proof.
  split; [exact sample_search_products|].
  exact (only_first_five sample_agent sample_category (JStr "d") sample_search_map
           sample_candidates [] sample_search_products).
Defined.

Lemma sample_broken_products :
  sample_broken_map !! "products"%py
  = Some (JList [dict [("product_name", JStr "Alpha"); ("ecoscore_grade", JStr "a")]%py;
                 JInt 3]).
Proof. vm_compute. reflexivity. Defined.

Lemma sample_broken_member :
  JInt 3 ∈ take 5 [dict [("product_name", JStr "Alpha"); ("ecoscore_grade", JStr "a")]%py;
                   JInt 3].
Proof. cbn [take]. apply elem_of_cons. right. apply elem_of_cons. by left. Defined.

Lemma malformed_candidate_empties_witness :
  sample_broken_map !! "products"%py
  = Some (JList [dict [("product_name", JStr "Alpha"); ("ecoscore_grade", JStr "a")]%py;
                 JInt 3])
  /\ JInt 3 ∈ take 5 [dict [("product_name", JStr "Alpha");
                             ("ecoscore_grade", JStr "a")]%py; JInt 3]
  /\ is_object (JInt 3) = false
  /\ exists log,
       run (fetch_alternatives sample_agent sample_category (JStr "d"))
           [Some (JDict sample_broken_map)]
       = Some ([], log).
Proof.
  split; [exact sample_broken_products|]. split; [exact sample_broken_member|].
  split; [reflexivity|].
  exact (malformed_candidate_empties sample_agent sample_category (JStr "d")
           sample_broken_map _ (JInt 3) [] sample_broken_products sample_broken_member
           eq_refl).
Defined.

Lemma sample_top_score : get_eco_score_value (JStr "a") = Ok 95.
Proof. vm_compute. reflexivity. Defined.

Lemma sample_alternatives_a_run :
  run (fetch_alternatives sample_agent sample_category (JStr "a"))
      [Some sample_search_reply]
  = Some (sample_alternatives_a.1, sample_alternatives_a.2).
Proof. vm_compute. reflexivity. Defined.

Lemma alternatives_for_good_grades_witness :
  get_eco_score_value (JStr "a") = Ok 95
  /\ run (fetch_alternatives sample_agent sample_category (JStr "a"))
         [Some sample_search_reply]
     = Some (sample_alternatives_a.1, sample_alternatives_a.2)
  /\ (95 = 95 -> sample_alternatives_a.1 = [])
  /\ (50 <= 95 ->
      forall alt, alt ∈ sample_alternatives_a.1 ->
        exists s score,
          alt !! "eco_score"%py = Some (JStr s) /\
          scores !! lower s = Some score /\ 95 < score).
Proof.
  split; [exact sample_top_score|]. split; [exact sample_alternatives_a_run|].
  exact (alternatives_for_good_grades sample_agent sample_category (JStr "a")
           [Some sample_search_reply] sample_alternatives_a.1 sample_alternatives_a.2
           95 sample_top_score sample_alternatives_a_run).
Defined.

Lemma alternative_keys_witness :
  run (fetch_alternatives sample_agent sample_category (JStr "d"))
      [Some sample_search_reply]
  = Some (sample_alternatives.1, sample_alternatives.2)
  /\ forall alt, alt ∈ sample_alternatives.1 ->
       dom alt = ({[ "name"; "brand"; "eco_score"; "image_url"; "gtin" ]}%py : gset str).
Proof.
  split; [exact sample_alternatives_run|].
  exact (alternative_keys sample_agent sample_category (JStr "d")
           [Some sample_search_reply] sample_alternatives.1 sample_alternatives.2
           sample_alternatives_run).
Defined.

Lemma sample_success_flag : is_high_carbon sample_success.1 = true.
Proof. vm_compute. reflexivity. Defined.

Lemma high_carbon_entry_first_witness :
  (run (scan_product sample_agent sample_reader sample_image) sample_replies
   = Some (Ok sample_success.1, sample_success.2)
   \/ run (get_product sample_agent sample_code) sample_replies
      = Some (Ok sample_success.1, sample_success.2))
  /\ is_high_carbon sample_success.1 = true
  /\ exists r t,
       head (recommendations sample_success.1) = Some r /\
       priority r = "high"%py /\
       text r = ("High carbon footprint (" +++ t
                 +++ " kg CO2e). Consider eco-friendly alternatives below.")%py /\
       shows_figure (carbon_footprint sample_success.1) t.
Proof.
  split; [exact sample_success_run|]. split; [exact sample_success_flag|].
  exact (high_carbon_entry_first sample_agent sample_reader sample_image sample_code
           sample_replies sample_success.1 sample_success.2 sample_success_run
           sample_success_flag).
Defined.

Lemma response_alternatives_better_witness :
  (run (scan_product sample_agent sample_reader sample_image) sample_replies
   = Some (Ok sample_success.1, sample_success.2)
   \/ run (get_product sample_agent sample_code) sample_replies
      = Some (Ok sample_success.1, sample_success.2))
  /\ (length (alternatives sample_success.1) <= 3)%nat
  /\ forall alt, alt ∈ alternatives sample_success.1 ->
       exists grade score current_score,
         alt !! "eco_score"%py = Some grade /\
         get_eco_score_value grade = Ok score /\
         get_eco_score_value (eco_score sample_success.1) = Ok current_score /\
         current_score < score.
Proof.
  split; [exact sample_success_run|].
  exact (response_alternatives_better sample_agent sample_reader sample_image
           sample_code sample_replies sample_success.1 sample_success.2
           sample_success_run).
Defined.

Lemma response_status_witness :
  (run (scan_product sample_agent sample_reader sample_image) sample_replies
   = Some (Ok sample_success.1, sample_success.2)
   \/ run (get_product sample_agent sample_code) sample_replies
      = Some (Ok sample_success.1, sample_success.2))
  /\ ((status sample_success.1 = "success"%py
       /\ (1 <= length (recommendations sample_success.1) <= 4)%nat
       /\ message sample_success.1 = JNull)
      \/ (status sample_success.1 = "not_found"%py
          /\ recommendations sample_success.1 = []
          /\ alternatives sample_success.1 = []
          /\ is_high_carbon sample_success.1 = false
          /\ name sample_success.1 = JNull /\ brand sample_success.1 = JNull
          /\ carbon_footprint sample_success.1 = JNull
          /\ exists text, message sample_success.1 = JStr text)).
Proof.
  split; [exact sample_success_run|].
  exact (response_status sample_agent sample_reader sample_image sample_code
           sample_replies sample_success.1 sample_success.2 sample_success_run).
Defined.

Lemma sample_strfigure_present : product_missing sample_strfigure_data = Ok false.
Proof. vm_compute. reflexivity. Defined.

Lemma sample_strfigure_product :
  getitem sample_strfigure_data "product" = Ok sample_product_strfigure.
Proof. vm_compute. reflexivity. Defined.

Lemma sample_strfigure_nested :
  nested_co2_total sample_product_strfigure = Some (JStr "3.5").
Proof. vm_compute. reflexivity. Defined.

Lemma non_numeric_figure_raises_witness :
  sample_image <> []
  /\ extract_gtin_from_image sample_reader sample_image = Some sample_code
  /\ product_missing sample_strfigure_data = Ok false
  /\ getitem sample_strfigure_data "product" = Ok sample_product_strfigure
  /\ nested_co2_total sample_product_strfigure = Some (JStr "3.5")
  /\ num_val (JStr "3.5") = None
  /\ run (scan_product sample_agent sample_reader sample_image)
         [Some sample_strfigure_data]
     = Some (Raise TypeError, [lookup_request sample_agent sample_code])
  /\ run (get_product sample_agent sample_code) [Some sample_strfigure_data]
     = Some (Raise TypeError, [lookup_request sample_agent sample_code]).
Proof.
  split; [exact sample_image_nonempty|]. split; [exact sample_image_code|].
  split; [exact sample_strfigure_present|]. split; [exact sample_strfigure_product|].
  split; [exact sample_strfigure_nested|]. split; [reflexivity|].
  exact (non_numeric_figure_raises sample_agent sample_reader sample_image sample_code
           sample_strfigure_data sample_product_strfigure (JStr "3.5") []
           sample_image_nonempty sample_image_code sample_strfigure_present
           sample_strfigure_product sample_strfigure_nested eq_refl).
Defined.
End Examples.
